(** * Support-ticket collaboration core: a shallow embedding

    The development follows the server sources:
    - [utils/helpers.ts]            -> Module [helpers]
    - [middleware/errorHandler.ts]  -> [errorHandler]
    - [middleware/auth.ts]          -> [requireAdmin]
    - [database/connection.ts]      -> the table records, [Db] and the [Sql] module
    - [services/ticketService.ts]   -> Module [TicketService]
    - [services/userService.ts],
      [services/authService.ts]     -> Modules [UserService], [AuthService]
    - [services/fileService.ts]     -> Module [FileService]
    - [controllers/ticketController.ts], [controllers/uploadController.ts],
      [routes/tickets.ts], [routes/uploads.ts]
                                    -> Modules [TicketController],
                                       [UploadController], [Routes]
    - [controllers/userController.ts], [controllers/authController.ts],
      [routes/users.ts], [app.ts]   -> Modules [UserController],
                                       [AuthController], [App]

    Modelling conventions.
    - SQLite tables are lists of row records in insertion order; columns
      declared BOOLEAN hold integers ([Z]), as SQLite stores them.
    - JavaScript values that arrive untyped in a request body are [jsval];
      numbers are integers (no NaN, no fractions).
    - Strings are UTF-8 text, one [ascii] per byte.
    - A thrown [Error] is [Throw msg]; operations thread the state explicitly
      and return the state reached, also when they throw.
    - The clock, the random source and the outcome of file-system calls are
      inputs of the model ([Env], [Fs]). *)

From Stdlib Require Import ZArith Ascii String.
From stdpp Require Import gmap strings list sorting pretty.

Open Scope Z_scope.

(** ** JavaScript values *)

Inductive jsval : Type :=
  | JUndefined
  | JNull
  | JBool (b : bool)
  | JNum (n : Z)
  | JStr (s : string).

(** [ToBoolean]: what [if (v)], [!v], [v ? a : b] and [Boolean(v)] test. *)
Definition truthy (v : jsval) : bool :=
  match v with
  | JUndefined | JNull => false
  | JBool b => b
  | JNum n => negb (n =? 0)
  | JStr s => negb (String.eqb s "")
  end.

Definition Boolean (v : jsval) : bool := truthy v.

(** [a === b] *)
Definition strict_eq (a b : jsval) : bool :=
  match a, b with
  | JUndefined, JUndefined => true
  | JNull, JNull => true
  | JBool x, JBool y => Bool.eqb x y
  | JNum x, JNum y => x =? y
  | JStr x, JStr y => String.eqb x y
  | _, _ => false
  end.

(** [const { k = dflt } = obj]: the default applies to [undefined] only. *)
Definition with_default (dflt v : jsval) : jsval :=
  match v with JUndefined => dflt | _ => v end.

(** ** Strings

    A [string] holds text in UTF-8, one [ascii] per byte, as the request
    body and the SQLite file hold it. JavaScript counts in UTF-16 code
    units and SQLite's LIKE in characters; [js_length] and [Sql.like]
    recover both from the bytes. A text has no code unit exactly when it
    has no byte, so [.length === 0] is tested on the bytes. *)

Definition utf8 (bytes : list Z) : string :=
  string_of_list_ascii (List.map (fun b => ascii_of_N (Z.to_N b)) bytes).

(** The characters that [trim] strips and the regular-expression class [\s]
    matches: ECMAScript's WhiteSpace and LineTerminator. *)
Definition white_space : list string :=
  [ utf8 [9];              (* U+0009 tab *)
    utf8 [10];             (* U+000A line feed *)
    utf8 [11];             (* U+000B vertical tab *)
    utf8 [12];             (* U+000C form feed *)
    utf8 [13];             (* U+000D carriage return *)
    utf8 [32];             (* U+0020 space *)
    utf8 [194; 160];       (* U+00A0 no-break space *)
    utf8 [225; 154; 128];  (* U+1680 *)
    utf8 [226; 128; 128];  (* U+2000 *)
    utf8 [226; 128; 129];  (* U+2001 *)
    utf8 [226; 128; 130];  (* U+2002 *)
    utf8 [226; 128; 131];  (* U+2003 *)
    utf8 [226; 128; 132];  (* U+2004 *)
    utf8 [226; 128; 133];  (* U+2005 *)
    utf8 [226; 128; 134];  (* U+2006 *)
    utf8 [226; 128; 135];  (* U+2007 *)
    utf8 [226; 128; 136];  (* U+2008 *)
    utf8 [226; 128; 137];  (* U+2009 *)
    utf8 [226; 128; 138];  (* U+200A *)
    utf8 [226; 128; 168];  (* U+2028 line separator *)
    utf8 [226; 128; 169];  (* U+2029 paragraph separator *)
    utf8 [226; 128; 175];  (* U+202F *)
    utf8 [226; 129; 159];  (* U+205F *)
    utf8 [227; 128; 128];  (* U+3000 *)
    utf8 [239; 187; 191]   (* U+FEFF byte order mark *) ].

(** the text after [w], when [s] starts with [w] *)
Fixpoint strip (w s : string) : option string :=
  match w with
  | EmptyString => Some s
  | String a w' =>
      match s with
      | EmptyString => None
      | String b s' => if Ascii.eqb a b then strip w' s' else None
      end
  end.

Fixpoint strip_any (ws : list string) (s : string) : option string :=
  match ws with
  | [] => None
  | w :: ws' =>
      match strip w s with
      | Some r => Some r
      | None => strip_any ws' s
      end
  end.

(** the text after the white-space character [s] starts with *)
Definition skip_space (s : string) : option string := strip_any white_space s.

(** [s.trimStart()]: white-space characters are dropped from the front
    until none is left; one unit of fuel per byte is enough. *)
Fixpoint trimStart_go (fuel : nat) (s : string) : string :=
  match fuel with
  | O => s
  | S fuel' =>
      match skip_space s with
      | Some r => trimStart_go fuel' r
      | None => s
      end
  end.

Definition trimStart (s : string) : string := trimStart_go (String.length s) s.

(** nothing but white space *)
Definition all_space (s : string) : bool := String.eqb (trimStart s) EmptyString.

(** [s.trimEnd()]: the text up to where only white space follows. *)
Fixpoint trimEnd (s : string) : string :=
  match s with
  | EmptyString => EmptyString
  | String c s' => if all_space s then EmptyString else String c (trimEnd s')
  end.

(** [s.trim()] *)
Definition trim (s : string) : string := trimEnd (trimStart s).

(** the bytes 10xxxxxx, which continue a character *)
Definition is_continuation (c : ascii) : bool :=
  ((128 <=? N_of_ascii c) && (N_of_ascii c <? 192))%N.

(** [s.length]: the UTF-16 code units of the text, one for a character of
    one to three bytes and two for a character of four. *)
Fixpoint js_length (s : string) : nat :=
  match s with
  | EmptyString => O
  | String c s' =>
      ((if is_continuation c then 0
        else if (240 <=? N_of_ascii c)%N then 2 else 1) + js_length s')%nat
  end.

(** [s.includes(sub)] *)
Fixpoint includes (s sub : string) : bool :=
  String.prefix sub s ||
  match s with
  | EmptyString => false
  | String _ s' => includes s' sub
  end.

Fixpoint repeat_char (n : nat) (c : ascii) : string :=
  match n with
  | O => EmptyString
  | S n' => String c (repeat_char n' c)
  end.

(** [s.padStart(n, c)] for a one-character filler. *)
Definition padStart (s : string) (n : nat) (c : ascii) : string :=
  repeat_char (n - js_length s) c +:+ s.

(** [s.split('.').pop()]: the text after the last dot, the whole string when
    there is none. *)
Fixpoint last_segment (acc s : string) : string :=
  match s with
  | EmptyString => acc
  | String c s' =>
      if Ascii.eqb c "."%char then last_segment EmptyString s'
      else last_segment (acc +:+ String c EmptyString) s'
  end.

(** the one-character string holding a double quote *)
Definition quote : string := String "034"%char EmptyString.

Definition is_digit (c : ascii) : bool :=
  match c with
  | "0"%char | "1"%char | "2"%char | "3"%char | "4"%char
  | "5"%char | "6"%char | "7"%char | "8"%char | "9"%char => true
  | _ => false
  end.

(** ** The environment of a request *)

Record Env : Type := mkEnv {
  now : Z;              (* CURRENT_TIMESTAMP of the store *)
  year : Z;             (* new Date().getFullYear() *)
  randomNum : Z;        (* Math.floor(Math.random() * 10000) *)
  timestamp : Z;        (* Date.now() *)
  randomString : string (* crypto.randomBytes(8).toString('hex') *)
}.

(** ** utils/helpers.ts *)

Module helpers.

Definition generateTicketNumber (e : Env) : string :=
  "TKT-" +:+ pretty (year e) +:+ "-" +:+ padStart (pretty (randomNum e)) 4 "0".

Definition generateUniqueFilename (e : Env) (originalFilename : string) : string :=
  pretty (timestamp e) +:+ "-" +:+ randomString e +:+ "." +:+
  last_segment EmptyString originalFilename.

(** [validateEmail]: the regular expression
    [/^[^\s@]+@[^\s@]+\.[^\s@]+$/], written as a backtracking matcher. *)

(** [[^\s@]] matches where [s] starts *)
Definition email_char (s : string) : bool :=
  match s with
  | EmptyString => false
  | String c _ =>
      negb (Ascii.eqb c "@"%char) &&
      match skip_space s with
      | Some _ => false
      | None => true
      end
  end.

(** one or more [email_char], then the continuation [k] *)
Fixpoint plus_then (k : string -> bool) (s : string) : bool :=
  match s with
  | EmptyString => false
  | String c s' => email_char s && (k s' || plus_then k s')
  end.

Definition lit_then (c : ascii) (k : string -> bool) (s : string) : bool :=
  match s with
  | EmptyString => false
  | String d s' => Ascii.eqb c d && k s'
  end.

Definition validateEmail (email : string) : bool :=
  plus_then (lit_then "@" (plus_then (lit_then "." (plus_then (String.eqb ""))))) email.

End helpers.

(** ** Results and the state-and-error monad *)

Inductive result (A : Type) : Type :=
  | Ok (a : A)
  | Throw (msg : string).
Arguments Ok {A} a.
Arguments Throw {A} msg.

Definition M (S A : Type) : Type := S -> result A * S.

Definition ret {S A} (a : A) : M S A := fun s => (Ok a, s).
Definition throw {S A} (msg : string) : M S A := fun s => (Throw msg, s).
Definition bind {S A B} (c : M S A) (k : A -> M S B) : M S B :=
  fun s => match c s with
           | (Ok a, s') => k a s'
           | (Throw msg, s') => (Throw msg, s')
           end.
Definition get {S} : M S S := fun s => (Ok s, s).
Definition put {S} (s : S) : M S unit := fun _ => (Ok tt, s).

Notation "x <- c ;; k" := (bind c (fun x => k))
  (at level 100, c at next level, right associativity).
Notation "c ;;; k" := (bind c (fun _ => k))
  (at level 100, right associativity).

(** ** database/connection.ts: the tables *)

Record UserRow : Type := mkUserRow {
  u_id : Z;
  u_name : string;
  u_email : string;
  u_password_hash : string;
  u_role : string;
  u_is_active : Z;          (* BOOLEAN column: an integer in the store *)
  u_created_at : Z;
  u_updated_at : Z
}.

Record Ticket : Type := mkTicket {
  t_id : Z;
  t_ticket_number : string;
  t_user_id : Z;
  t_title : string;
  t_description : string;
  t_category : string;
  t_priority : option string;   (* no NOT NULL: [None] is NULL *)
  t_status : option string;     (* no NOT NULL: [None] is NULL *)
  t_assigned_to : option Z;
  t_created_at : Z;
  t_updated_at : Z
}.

Record MessageRow : Type := mkMessageRow {
  m_id : Z;
  m_ticket_id : Z;
  m_user_id : Z;
  m_message : string;
  m_is_internal : Z;        (* BOOLEAN column: an integer in the store *)
  m_created_at : Z
}.

Record Attachment : Type := mkAttachment {
  a_id : Z;
  a_ticket_id : Z;
  a_original_filename : string;
  a_stored_filename : string;
  a_file_path : string;
  a_file_size : Z;
  a_mime_type : string;
  a_uploaded_by : Z;
  a_uploaded_at : Z
}.

(** The [seq_*] fields are SQLite's [sqlite_sequence] entries of the
    AUTOINCREMENT keys: the largest rowid each table ever held. *)
Record Db : Type := mkDb {
  users : list UserRow;
  tickets : list Ticket;
  ticket_messages : list MessageRow;
  attachments : list Attachment;
  seq_users : Z;
  seq_tickets : Z;
  seq_messages : Z;
  seq_attachments : Z
}.

Definition empty_db : Db := mkDb [] [] [] [] 0 0 0 0.

Module Sql.

Definition max_id (ids : list Z) : Z := foldr Z.max 0 ids.

(** the rowid an AUTOINCREMENT insert assigns *)
Definition next_rowid (seq : Z) (ids : list Z) : Z := Z.max seq (max_id ids) + 1.

Definition mem_Z (x : Z) (l : list Z) : bool := List.existsb (Z.eqb x) l.
Definition mem_str (x : string) (l : list string) : bool := List.existsb (String.eqb x) l.

Definition categories : list string := ["hardware"; "software"; "network"; "access"; "other"].
Definition priorities : list string := ["low"; "medium"; "high"; "critical"].
Definition statuses : list string := ["open"; "in_progress"; "resolved"; "closed"].
Definition roles : list string := ["user"; "admin"].

Definition check_failed (col : string) : string := "CHECK constraint failed: " +:+ col.
Definition unique_failed (col : string) : string := "UNIQUE constraint failed: " +:+ col.
Definition fk_failed : string := "FOREIGN KEY constraint failed".

(** ORDER BY created_at ASC / DESC. Rows with equal keys come in an order
    SQL leaves open; the model sorts with stdpp's merge sort. *)
Definition key_le {A} (key : A -> Z) : relation A := fun a b => key a <= key b.
Definition key_ge {A} (key : A -> Z) : relation A := fun a b => key b <= key a.

#[global] Instance key_le_dec {A} (key : A -> Z) : RelDecision (key_le key).
Proof. intros a b. unfold key_le. apply _. Defined.
#[global] Instance key_ge_dec {A} (key : A -> Z) : RelDecision (key_ge key).
Proof. intros a b. unfold key_ge. apply _. Defined.

Definition order_by_asc {A} (key : A -> Z) (l : list A) : list A :=
  merge_sort (key_le key) l.
Definition order_by_desc {A} (key : A -> Z) (l : list A) : list A :=
  merge_sort (key_ge key) l.

Definition to_lower (c : ascii) : ascii :=
  let n := N_of_ascii c in
  if ((65 <=? n) && (n <=? 90))%N then ascii_of_N (n + 32) else c.

Fixpoint skip_continuation (s : string) : string :=
  match s with
  | EmptyString => EmptyString
  | String c s' => if is_continuation c then skip_continuation s' else s
  end.

(** the text after the character whose first byte is [c] *)
Definition after_char (c : ascii) (s : string) : string :=
  if (192 <=? N_of_ascii c)%N then skip_continuation s else s.

(** [s LIKE p]: [%] matches any run of characters, [_] any one character
    (it starts on the first byte of a character and takes the bytes that
    continue it), the letters A to Z compare without case. *)
Fixpoint like (p s : string) : bool :=
  match p with
  | EmptyString => String.eqb s EmptyString
  | String c p' =>
      if Ascii.eqb c "%"%char then
        (fix any (s : string) : bool :=
           like p' s ||
           match s with
           | EmptyString => false
           | String _ s' => any s'
           end) s
      else
        match s with
        | EmptyString => false
        | String d s' =>
            if Ascii.eqb c "_"%char
            then negb (is_continuation d) && like p' (after_char d s')
            else Ascii.eqb (to_lower c) (to_lower d) && like p' s'
        end
  end.

(** [CHECK(col IN (...))] on a column that may be NULL: a NULL passes. *)
Definition check_in (v : option string) (allowed : list string) : bool :=
  match v with
  | Some s => mem_str s allowed
  | None => true
  end.

(** INSERT INTO tickets (ticket_number, user_id, title, description,
    category, priority): [status] takes DEFAULT 'open', [assigned_to] is
    NULL, both timestamps take CURRENT_TIMESTAMP. Returns lastInsertRowid. *)
Definition insert_ticket (e : Env) (ticket_number : string) (user_id : Z)
    (title description category : string) (priority : option string) : M Db Z :=
  fun d =>
    if negb (mem_str category categories) then (Throw (check_failed "category"), d)
    else if negb (check_in priority priorities) then (Throw (check_failed "priority"), d)
    else if mem_str ticket_number (List.map t_ticket_number (tickets d))
    then (Throw (unique_failed "tickets.ticket_number"), d)
    else if negb (mem_Z user_id (List.map u_id (users d))) then (Throw fk_failed, d)
    else
      let id := next_rowid (seq_tickets d) (List.map t_id (tickets d)) in
      let row := mkTicket id ticket_number user_id title description category
                   priority (Some "open") None (now e) (now e) in
      (Ok id, mkDb (users d) (tickets d ++ [row]) (ticket_messages d) (attachments d)
                (seq_users d) id (seq_messages d) (seq_attachments d)).

(** INSERT INTO ticket_messages (ticket_id, user_id, message, is_internal) *)
Definition insert_message (e : Env) (ticket_id user_id : Z) (message : string)
    (is_internal : Z) : M Db Z :=
  fun d =>
    if negb (mem_Z ticket_id (List.map t_id (tickets d))) then (Throw fk_failed, d)
    else if negb (mem_Z user_id (List.map u_id (users d))) then (Throw fk_failed, d)
    else
      let id := next_rowid (seq_messages d) (List.map m_id (ticket_messages d)) in
      let row := mkMessageRow id ticket_id user_id message is_internal (now e) in
      (Ok id, mkDb (users d) (tickets d) (ticket_messages d ++ [row]) (attachments d)
                (seq_users d) (seq_tickets d) id (seq_attachments d)).

(** INSERT INTO attachments (ticket_id, original_filename, stored_filename,
    file_path, file_size, mime_type, uploaded_by) *)
Definition insert_attachment (e : Env) (ticket_id : Z)
    (original_filename stored_filename file_path : string) (file_size : Z)
    (mime_type : string) (uploaded_by : Z) : M Db Z :=
  fun d =>
    if negb (mem_Z ticket_id (List.map t_id (tickets d))) then (Throw fk_failed, d)
    else if negb (mem_Z uploaded_by (List.map u_id (users d))) then (Throw fk_failed, d)
    else
      let id := next_rowid (seq_attachments d) (List.map a_id (attachments d)) in
      let row := mkAttachment id ticket_id original_filename stored_filename file_path
                   file_size mime_type uploaded_by (now e) in
      (Ok id, mkDb (users d) (tickets d) (ticket_messages d) (attachments d ++ [row])
                (seq_users d) (seq_tickets d) (seq_messages d) id).

(** INSERT INTO users (name, email, password_hash, role, is_active) *)
Definition insert_user (e : Env) (name email password_hash role : string)
    (is_active : Z) : M Db Z :=
  fun d =>
    if negb (mem_str role roles) then (Throw (check_failed "role"), d)
    else if mem_str email (List.map u_email (users d))
    then (Throw (unique_failed "users.email"), d)
    else
      let id := next_rowid (seq_users d) (List.map u_id (users d)) in
      let row := mkUserRow id name email password_hash role is_active (now e) (now e) in
      (Ok id, mkDb (users d ++ [row]) (tickets d) (ticket_messages d) (attachments d)
                id (seq_tickets d) (seq_messages d) (seq_attachments d)).

(** DELETE FROM tickets WHERE id = ?, with the ON DELETE CASCADE of
    [ticket_messages] and [attachments] (foreign keys are switched on).
    Returns [changes]. *)
Definition delete_ticket (id : Z) : M Db Z :=
  fun d =>
    let hit := List.filter (fun t => t_id t =? id) (tickets d) in
    match hit with
    | [] => (Ok 0, d)
    | _ =>
        (Ok (Z.of_nat (length hit)),
         mkDb (users d)
              (List.filter (fun t => negb (t_id t =? id)) (tickets d))
              (List.filter (fun m => negb (m_ticket_id m =? id)) (ticket_messages d))
              (List.filter (fun a => negb (a_ticket_id a =? id)) (attachments d))
              (seq_users d) (seq_tickets d) (seq_messages d) (seq_attachments d))
    end.

(** DELETE FROM attachments WHERE id = ?. Returns [changes]. *)
Definition delete_attachment (id : Z) : M Db Z :=
  fun d =>
    let hit := List.filter (fun a => a_id a =? id) (attachments d) in
    (Ok (Z.of_nat (length hit)),
     mkDb (users d) (tickets d) (ticket_messages d)
          (List.filter (fun a => negb (a_id a =? id)) (attachments d))
          (seq_users d) (seq_tickets d) (seq_messages d) (seq_attachments d)).

End Sql.

(** ** The blob store: the local file system *)

(** [files] maps a path to the bytes stored there, [dirs] are the
    directories, and [faulty] are the paths on which the operating system
    refuses [writeFileSync] and [unlinkSync] (EACCES, EPERM, EBUSY). *)
Record Fs : Type := mkFs {
  files : gmap string (list Byte.byte);
  dirs : gset string;
  faulty : gset string
}.

Record World : Type := mkWorld {
  db : Db;
  disk : Fs
}.

Module fs.

Definition existsSync (p : string) (f : Fs) : bool :=
  match files f !! p with
  | Some _ => true
  | None => bool_decide (p ∈ dirs f)
  end.

Definition mkdirSync (p : string) : M Fs unit :=
  fun f => (Ok tt, mkFs (files f) ({[p]} ∪ dirs f) (faulty f)).

Definition writeFileSync (p : string) (data : list Byte.byte) : M Fs unit :=
  fun f =>
    if bool_decide (p ∈ faulty f) then (Throw ("EACCES: permission denied, open " +:+ p), f)
    else if bool_decide (p ∈ dirs f)
    then (Throw ("EISDIR: illegal operation on a directory, open " +:+ p), f)
    else (Ok tt, mkFs (<[p := data]> (files f)) (dirs f) (faulty f)).

Definition unlinkSync (p : string) : M Fs unit :=
  fun f =>
    if bool_decide (p ∈ faulty f) then (Throw ("EPERM: operation not permitted, unlink " +:+ p), f)
    else match files f !! p with
         | Some _ => (Ok tt, mkFs (delete p (files f)) (dirs f) (faulty f))
         | None => (Throw ("ENOENT: no such file or directory, unlink " +:+ p), f)
         end.

(** the bytes a read stream opened on [p] delivers *)
Definition createReadStream (p : string) (f : Fs) : option (list Byte.byte) :=
  files f !! p.

End fs.

Definition liftDb {A} (c : M Db A) : M World A :=
  fun w => match c (db w) with (r, d') => (r, mkWorld d' (disk w)) end.

Definition liftFs {A} (c : M Fs A) : M World A :=
  fun w => match c (disk w) with (r, f') => (r, mkWorld (db w) f') end.

(** [try { c } catch (error) { console.error(...) }] *)
Definition try_catch_log {S} (c : M S unit) : M S unit :=
  fun s => match c s with (_, s') => (Ok tt, s') end.

(** ** Views returned to callers *)

Record MessageUser : Type := mkMessageUser {
  mu_id : Z;
  mu_name : string;
  mu_email : string;
  mu_role : string
}.

Record TicketMessage : Type := mkTicketMessage {
  tm_id : Z;
  tm_ticket_id : Z;
  tm_user_id : Z;
  tm_message : string;
  tm_is_internal : bool;
  tm_created_at : Z;
  tm_user : MessageUser
}.

(** SELECT id, name, email FROM users *)
Record UserRef : Type := mkUserRef {
  ur_id : Z;
  ur_name : string;
  ur_email : string
}.

(** [{ ...ticket, user, assigned_admin, messages }] *)
Record TicketDetails : Type := mkTicketDetails {
  td_ticket : Ticket;
  td_user : option UserRef;
  td_assigned_admin : option UserRef;
  td_messages : list TicketMessage
}.

(** The [User] object of the services: [is_active] is a boolean here. The
    user-management queries do not select [password_hash]. *)
Record User : Type := mkUser {
  usr_id : Z;
  usr_name : string;
  usr_email : string;
  usr_password_hash : option string;
  usr_role : string;
  usr_is_active : bool;
  usr_created_at : Z;
  usr_updated_at : Z
}.

Record FileDownload : Type := mkFileDownload {
  content_type : string;
  content_disposition : string;
  content_length : Z;
  body : list Byte.byte
}.

Inductive Payload : Type :=
  | PNull
  | PTicket (t : Ticket)
  | PTickets (l : list Ticket)
  | PDetails (t : TicketDetails)
  | PMessage (m : TicketMessage)
  | PMessages (l : list TicketMessage)
  | PAttachment (a : Attachment)
  | PAttachments (l : list Attachment)
  | PUser (u : User)
  | PUsers (l : list User)
  | PFile (f : FileDownload).

(** [res.status(code).json(formatResponse(success, data, message))] *)
Record Response : Type := mkResponse {
  status : Z;
  success : bool;
  data : Payload;
  message : string
}.

Definition json (code : Z) (ok : bool) (d : Payload) (msg : string) : Response :=
  mkResponse code ok d msg.

(** ** middleware/errorHandler.ts *)

Definition errorHandler (error_message : string) : Response :=
  if includes error_message "required" || includes error_message "Invalid"
  then json 400 false PNull error_message
  else if includes error_message "not found"
  then json 404 false PNull error_message
  else if includes error_message "already exists"
  then json 409 false PNull error_message
  else json 500 false PNull "Internal server error".

(** A controller body runs inside [try { ... } catch (error) { next(error) }];
    [next(error)] reaches [errorHandler]. *)
Definition handle (c : M World Response) : World -> Response * World :=
  fun w => match c w with
           | (Ok r, w') => (r, w')
           | (Throw msg, w') => (errorHandler msg, w')
           end.

(** ** middleware/auth.ts *)

(** [req.user], as [authenticate] decodes it from the token. *)
Record AuthUser : Type := mkAuthUser {
  userId : Z;
  email : string;
  role : string
}.

Definition is_admin (u : AuthUser) : bool := String.eqb (role u) "admin".

(** [requireAdmin]: [Some r] answers the request, [None] is [next()]. *)
Definition requireAdmin (user : option AuthUser) : option Response :=
  match user with
  | None => Some (json 401 false PNull "Authentication required")
  | Some u =>
      if negb (is_admin u) then Some (json 403 false PNull "Admin access required")
      else None
  end.

(** ** services/ticketService.ts *)

Module TicketService.

(** A field of a request body that is a string when present. *)
Definition absent_or_empty (o : option string) : bool :=
  match o with
  | None => true
  | Some s => String.eqb s ""
  end.

Record TicketCreate : Type := mkTicketCreate {
  title : option string;
  description : option string;
  category : option string;
  priority : option string      (* [None] is [null] *)
}.

(** [undefined] is [None], [null] is [Some None]. *)
Record TicketUpdate : Type := mkTicketUpdate {
  up_status : option (option string);
  up_assigned_to : option (option Z);
  up_priority : option (option string)
}.

Record TicketMessageCreate : Type := mkTicketMessageCreate {
  msg_message : string;
  msg_is_internal : jsval
}.

Definition getTicketById (id : Z) (d : Db) : option Ticket :=
  List.find (fun t => t_id t =? id) (tickets d).

Definition createTicket (e : Env) (userId : Z) (ticketData : TicketCreate)
  : M Db (option Ticket) :=
  if absent_or_empty (title ticketData) || absent_or_empty (description ticketData)
     || absent_or_empty (category ticketData)
  then throw "Title, description, and category are required"
  else
    let ticketNumber := helpers.generateTicketNumber e in
    ticketId <- Sql.insert_ticket e ticketNumber userId
                  (default "" (title ticketData)) (default "" (description ticketData))
                  (default "" (category ticketData)) (priority ticketData) ;;
    d <- get ;;
    ret (getTicketById ticketId d).

Definition getTicketsByUser (userId : Z) (d : Db) : list Ticket :=
  Sql.order_by_desc t_created_at (List.filter (fun t => t_user_id t =? userId) (tickets d)).

Definition getAllTickets (d : Db) : list Ticket :=
  Sql.order_by_desc t_created_at (tickets d).

(** UPDATE tickets SET <the fields given>, updated_at = CURRENT_TIMESTAMP
    WHERE id = ? *)
Definition apply_update (e : Env) (updates : TicketUpdate) (t : Ticket) : Ticket :=
  mkTicket (t_id t) (t_ticket_number t) (t_user_id t) (t_title t) (t_description t)
    (t_category t)
    (default (t_priority t) (up_priority updates))
    (default (t_status t) (up_status updates))
    (default (t_assigned_to t) (up_assigned_to updates))
    (t_created_at t) (now e).

Definition update_row (e : Env) (id : Z) (updates : TicketUpdate) : M Db unit :=
  fun d =>
    if match up_status updates with
       | Some s => negb (Sql.check_in s Sql.statuses)
       | None => false
       end
    then (Throw (Sql.check_failed "status"), d)
    else if match up_priority updates with
            | Some p => negb (Sql.check_in p Sql.priorities)
            | None => false
            end
    then (Throw (Sql.check_failed "priority"), d)
    else if match up_assigned_to updates with
            | Some (Some a) => negb (Sql.mem_Z a (List.map u_id (users d)))
            | _ => false
            end
    then (Throw Sql.fk_failed, d)
    else
      (Ok tt,
       mkDb (users d)
            (List.map (fun t => if t_id t =? id then apply_update e updates t else t)
                      (tickets d))
            (ticket_messages d) (attachments d)
            (seq_users d) (seq_tickets d) (seq_messages d) (seq_attachments d)).

Definition updateTicket (e : Env) (id : Z) (updates : TicketUpdate) : M Db (option Ticket) :=
  d <- get ;;
  match getTicketById id d with
  | None => throw "Ticket not found"
  | Some ticket =>
      match up_status updates, up_assigned_to updates, up_priority updates with
      | None, None, None => ret (Some ticket)
      | _, _, _ =>
          update_row e id updates ;;;
          d' <- get ;;
          ret (getTicketById id d')
      end
  end.

Definition deleteTicket (id : Z) : M Db bool :=
  changes <- Sql.delete_ticket id ;;
  ret (0 <? changes).

(** SELECT tm.*, u.name, u.email, u.role FROM ticket_messages tm
    JOIN users u ON tm.user_id = u.id *)
Definition join_users (ms : list MessageRow) (us : list UserRow)
  : list (MessageRow * UserRow) :=
  List.flat_map
    (fun m => List.map (pair m) (List.filter (fun u => u_id u =? m_user_id m) us)) ms.

(** The object both readers build from a joined row. *)
Definition to_message (r : MessageRow * UserRow) : TicketMessage :=
  let (m, u) := r in
  mkTicketMessage (m_id m) (m_ticket_id m) (m_user_id m) (m_message m)
    (Boolean (JNum (m_is_internal m))) (m_created_at m)
    (mkMessageUser (m_user_id m) (u_name u) (u_email u) (u_role u)).

Definition getMessageById (id : Z) (d : Db) : option TicketMessage :=
  match join_users (List.filter (fun m => m_id m =? id) (ticket_messages d)) (users d) with
  | [] => None
  | r :: _ => Some (to_message r)
  end.

Definition addMessage (e : Env) (ticketId userId : Z) (messageData : TicketMessageCreate)
  : M Db (option TicketMessage) :=
  let message := msg_message messageData in
  let is_internal := with_default (JBool false) (msg_is_internal messageData) in
  if String.eqb message "" || (String.length (trim message) =? 0)%nat
  then throw "Message content is required"
  else
    d <- get ;;
    match getTicketById ticketId d with
    | None => throw "Ticket not found"
    | Some _ =>
        let isInternalValue := if truthy is_internal then 1 else 0 in
        messageId <- Sql.insert_message e ticketId userId (trim message) isInternalValue ;;
        d' <- get ;;
        ret (getMessageById messageId d')
    end.

Definition getTicketMessages (ticketId : Z) (d : Db) : list TicketMessage :=
  List.map to_message
    (Sql.order_by_asc (fun r => m_created_at (fst r))
       (join_users (List.filter (fun m => m_ticket_id m =? ticketId) (ticket_messages d))
                   (users d))).

(** SELECT id, name, email FROM users WHERE id = ? *)
Definition select_user_ref (id : Z) (d : Db) : option UserRef :=
  match List.find (fun u => u_id u =? id) (users d) with
  | Some u => Some (mkUserRef (u_id u) (u_name u) (u_email u))
  | None => None
  end.

Definition getTicketWithDetails (id : Z) (d : Db) : option TicketDetails :=
  match getTicketById id d with
  | None => None
  | Some ticket =>
      let messages := getTicketMessages id d in
      let user := select_user_ref (t_user_id ticket) d in
      let assignedAdmin :=
        match t_assigned_to ticket with
        | Some a => if truthy (JNum a) then select_user_ref a d else None
        | None => None
        end in
      Some (mkTicketDetails ticket user assignedAdmin messages)
  end.

(** [userId] is [undefined] ([None]) for an administrator's search. The
    text bound for [user_id = ?] is [userId.toString()], which the INTEGER
    column compares as the number. *)
Definition searchTickets (query : string) (userId : option Z) (d : Db) : list Ticket :=
  let pattern := "%" +:+ query +:+ "%" in
  let matches (t : Ticket) :=
    Sql.like pattern (t_title t) || Sql.like pattern (t_description t)
    || Sql.like pattern (t_ticket_number t) in
  let scoped (t : Ticket) :=
    match userId with
    | Some u => if truthy (JNum u) then t_user_id t =? u else true
    | None => true
    end in
  Sql.order_by_desc t_created_at
    (List.filter (fun t => matches t && scoped t) (tickets d)).

End TicketService.

(** [formatResponse] sends [data || null]. *)
Definition payload_of {A} (f : A -> Payload) (o : option A) : Payload :=
  match o with
  | Some a => f a
  | None => PNull
  end.

Definition unauthenticated : Response := json 401 false PNull "Authentication required".

(** ** controllers/ticketController.ts *)

Module TicketController.

(** [b_priority]: [None] is [undefined], [Some None] is [null]. *)
Record CreateBody : Type := mkCreateBody {
  b_title : option string;
  b_description : option string;
  b_category : option string;
  b_priority : option (option string)
}.

Record MessageBody : Type := mkMessageBody {
  b_message : jsval;
  b_is_internal : jsval
}.

Definition createTicket (e : Env) (user : option AuthUser) (body : CreateBody)
  : World -> Response * World :=
  handle
    match user with
    | None => ret unauthenticated
    | Some u =>
        let priority := default (Some "medium") (b_priority body) in
        ticket <- liftDb (TicketService.createTicket e (userId u)
                    (TicketService.mkTicketCreate (b_title body) (b_description body)
                       (b_category body) priority)) ;;
        ret (json 201 true (payload_of PTicket ticket) "Ticket created successfully")
    end.

Definition getTickets (user : option AuthUser) : World -> Response * World :=
  handle
    match user with
    | None => ret unauthenticated
    | Some u =>
        w <- get ;;
        let tickets :=
          if is_admin u then TicketService.getAllTickets (db w)
          else TicketService.getTicketsByUser (userId u) (db w) in
        ret (json 200 true (PTickets tickets) "Tickets retrieved successfully")
    end.

Definition getTicketById (user : option AuthUser) (ticketId : Z)
  : World -> Response * World :=
  handle
    match user with
    | None => ret unauthenticated
    | Some u =>
        w <- get ;;
        match TicketService.getTicketWithDetails ticketId (db w) with
        | None => ret (json 404 false PNull "Ticket not found")
        | Some ticket =>
            if negb (is_admin u) && negb (t_user_id (td_ticket ticket) =? userId u)
            then ret (json 403 false PNull "Access denied")
            else ret (json 200 true (PDetails ticket) "Ticket retrieved successfully")
        end
    end.

Definition updateTicket (e : Env) (user : option AuthUser) (ticketId : Z)
    (body : TicketService.TicketUpdate) : World -> Response * World :=
  handle
    match user with
    | None => ret unauthenticated
    | Some u =>
        ticket <- liftDb (TicketService.updateTicket e ticketId body) ;;
        ret (json 200 true (payload_of PTicket ticket) "Ticket updated successfully")
    end.

Definition deleteTicket (user : option AuthUser) (ticketId : Z)
  : World -> Response * World :=
  handle
    match user with
    | None => ret unauthenticated
    | Some u =>
        deleted <- liftDb (TicketService.deleteTicket ticketId) ;;
        if negb deleted then ret (json 404 false PNull "Ticket not found")
        else ret (json 200 true PNull "Ticket deleted successfully")
    end.

(** [!message || typeof message !== 'string' || message.trim().length === 0] *)
Definition message_invalid (message : jsval) : bool :=
  match message with
  | JStr s => String.eqb s "" || (String.length (trim s) =? 0)%nat
  | _ => true
  end.

(** [is_internal === true || is_internal === 'true' || is_internal === 1] *)
Definition requests_internal (is_internal : jsval) : bool :=
  strict_eq is_internal (JBool true) || strict_eq is_internal (JStr "true")
  || strict_eq is_internal (JNum 1).

Definition addMessage (e : Env) (user : option AuthUser) (ticketId : Z)
    (body : MessageBody) : World -> Response * World :=
  handle
    match user with
    | None => ret unauthenticated
    | Some u =>
        let is_internal := with_default (JBool false) (b_is_internal body) in
        if message_invalid (b_message body)
        then ret (json 400 false PNull "Message content is required")
        else
          w <- get ;;
          match TicketService.getTicketById ticketId (db w) with
          | None => ret (json 404 false PNull "Ticket not found")
          | Some ticket =>
              if negb (is_admin u) && negb (t_user_id ticket =? userId u)
              then ret (json 403 false PNull "Access denied")
              else
                let isInternalBool := is_admin u && requests_internal is_internal in
                let text := match b_message body with JStr s => s | _ => "" end in
                ticketMessage <- liftDb (TicketService.addMessage e ticketId (userId u)
                                   (TicketService.mkTicketMessageCreate (trim text)
                                      (JBool isInternalBool))) ;;
                ret (json 201 true (payload_of PMessage ticketMessage)
                       "Message added successfully")
          end
    end.

Definition getTicketMessages (user : option AuthUser) (ticketId : Z)
  : World -> Response * World :=
  handle
    match user with
    | None => ret unauthenticated
    | Some u =>
        w <- get ;;
        match TicketService.getTicketById ticketId (db w) with
        | None => ret (json 404 false PNull "Ticket not found")
        | Some ticket =>
            if negb (is_admin u) && negb (t_user_id ticket =? userId u)
            then ret (json 403 false PNull "Access denied")
            else
              let messages := TicketService.getTicketMessages ticketId (db w) in
              let filteredMessages :=
                if is_admin u then messages
                else List.filter (fun message => negb (tm_is_internal message)) messages in
              ret (json 200 true (PMessages filteredMessages)
                     "Messages retrieved successfully")
        end
    end.

(** [query] is [None] when [req.query.q] is missing or not a string. *)
Definition searchTickets (user : option AuthUser) (query : option string)
  : World -> Response * World :=
  handle
    match user with
    | None => ret unauthenticated
    | Some u =>
        match query with
        | None => ret (json 400 false PNull "Search query is required")
        | Some q =>
            if String.eqb q "" then ret (json 400 false PNull "Search query is required")
            else
              w <- get ;;
              let userId := if is_admin u then None else Some (userId u) in
              let tickets := TicketService.searchTickets q userId (db w) in
              ret (json 200 true (PTickets tickets) "Search completed successfully")
        end
    end.

End TicketController.

(** ** services/fileService.ts *)

Module FileService.

(** [Express.Multer.File] *)
Record MulterFile : Type := mkMulterFile {
  originalname : string;
  mimetype : string;
  size : Z;
  buffer : list Byte.byte
}.

(** The values taken when the environment variables are not set. *)
Definition UPLOAD_DIR : string := "./uploads".
Definition MAX_FILE_SIZE : Z := 5242880.

Definition allowedMimeTypes : list string :=
  [ "image/jpeg";
    "image/png";
    "image/gif";
    "application/pdf";
    "text/plain";
    "application/msword";
    "application/vnd.openxmlformats-officedocument.wordprocessingml.document";
    "application/zip" ].

Definition size_error : string :=
  "File size exceeds maximum limit of " +:+ pretty (MAX_FILE_SIZE / 1024 / 1024) +:+ "MB".

(** [path.join(UPLOAD_DIR, storedFilename)], which normalises the leading
    [./] away. *)
Definition join_upload_dir (storedFilename : string) : string :=
  "uploads/" +:+ storedFilename.

Definition getAttachmentById (id : Z) (d : Db) : option Attachment :=
  List.find (fun a => a_id a =? id) (attachments d).

Definition uploadFile (e : Env) (ticketId userId : Z) (file : MulterFile)
  : M World (option Attachment) :=
  if MAX_FILE_SIZE <? size file then throw size_error
  else if negb (Sql.mem_str (mimetype file) allowedMimeTypes)
  then throw "File type not allowed"
  else
    let storedFilename := helpers.generateUniqueFilename e (originalname file) in
    let filePath := join_upload_dir storedFilename in
    w <- get ;;
    (if negb (fs.existsSync UPLOAD_DIR (disk w))
     then liftFs (fs.mkdirSync UPLOAD_DIR) else ret tt) ;;;
    liftFs (fs.writeFileSync filePath (buffer file)) ;;;
    attachmentId <- liftDb (Sql.insert_attachment e ticketId (originalname file)
                      storedFilename filePath (size file) (mimetype file) userId) ;;
    w' <- get ;;
    ret (getAttachmentById attachmentId (db w')).

Definition getTicketAttachments (ticketId : Z) (d : Db) : list Attachment :=
  Sql.order_by_desc a_uploaded_at
    (List.filter (fun a => a_ticket_id a =? ticketId) (attachments d)).

Definition deleteAttachment (id : Z) : M World bool :=
  w <- get ;;
  match getAttachmentById id (db w) with
  | None => ret false
  | Some attachment =>
      liftFs (try_catch_log
                (fun f => if fs.existsSync (a_file_path attachment) f
                          then fs.unlinkSync (a_file_path attachment) f
                          else (Ok tt, f))) ;;;
      changes <- liftDb (Sql.delete_attachment id) ;;
      ret (0 <? changes)
  end.

(** [null] when the path does not exist, else the bytes the stream reads
    (none when the path is a directory). *)
Definition getFileStream (attachment : Attachment) (f : Fs) : option (list Byte.byte) :=
  if negb (fs.existsSync (a_file_path attachment) f) then None
  else Some (default [] (fs.createReadStream (a_file_path attachment) f)).

Definition validateFileAccess (attachmentId userId : Z) (userRole : string) (d : Db) : bool :=
  match getAttachmentById attachmentId d with
  | None => false
  | Some attachment =>
      if String.eqb userRole "admin" then true
      else
        match List.find (fun t => t_id t =? a_ticket_id attachment) (tickets d) with
        | Some ticket => t_user_id ticket =? userId
        | None => false
        end
  end.

End FileService.

(** ** controllers/uploadController.ts *)

Module UploadController.

Definition uploadAttachment (e : Env) (user : option AuthUser) (ticketId : Z)
    (file : option FileService.MulterFile) : World -> Response * World :=
  handle
    match user with
    | None => ret unauthenticated
    | Some u =>
        match file with
        | None => ret (json 400 false PNull "No file uploaded")
        | Some f =>
            w <- get ;;
            match TicketService.getTicketById ticketId (db w) with
            | None => ret (json 404 false PNull "Ticket not found")
            | Some ticket =>
                if negb (is_admin u) && negb (t_user_id ticket =? userId u)
                then ret (json 403 false PNull "Access denied")
                else
                  attachment <- FileService.uploadFile e ticketId (userId u) f ;;
                  ret (json 201 true (payload_of PAttachment attachment)
                         "File uploaded successfully")
            end
        end
    end.

Definition getTicketAttachments (user : option AuthUser) (ticketId : Z)
  : World -> Response * World :=
  handle
    match user with
    | None => ret unauthenticated
    | Some u =>
        w <- get ;;
        match TicketService.getTicketById ticketId (db w) with
        | None => ret (json 404 false PNull "Ticket not found")
        | Some ticket =>
            if negb (is_admin u) && negb (t_user_id ticket =? userId u)
            then ret (json 403 false PNull "Access denied")
            else
              ret (json 200 true
                     (PAttachments (FileService.getTicketAttachments ticketId (db w)))
                     "Attachments retrieved successfully")
        end
    end.

Definition downloadAttachment (user : option AuthUser) (attachmentId : Z)
  : World -> Response * World :=
  handle
    match user with
    | None => ret unauthenticated
    | Some u =>
        w <- get ;;
        if negb (FileService.validateFileAccess attachmentId (userId u) (role u) (db w))
        then ret (json 403 false PNull "Access denied")
        else
          match FileService.getAttachmentById attachmentId (db w) with
          | None => ret (json 404 false PNull "Attachment not found")
          | Some attachment =>
              match FileService.getFileStream attachment (disk w) with
              | None => ret (json 404 false PNull "File not found on disk")
              | Some bytes =>
                  ret (json 200 true
                         (PFile (mkFileDownload (a_mime_type attachment)
                                   ("attachment; filename=" +:+ quote
                                    +:+ a_original_filename attachment +:+ quote)
                                   (a_file_size attachment) bytes))
                         "")
              end
          end
    end.

Definition deleteAttachment (user : option AuthUser) (attachmentId : Z)
  : World -> Response * World :=
  handle
    match user with
    | None => ret unauthenticated
    | Some u =>
        if negb (is_admin u) then ret (json 403 false PNull "Admin access required")
        else
          deleted <- FileService.deleteAttachment attachmentId ;;
          if negb deleted then ret (json 404 false PNull "Attachment not found")
          else ret (json 200 true PNull "Attachment deleted successfully")
    end.

End UploadController.

(** ** routes/tickets.ts and routes/uploads.ts *)

Module Routes.

(** A middleware either answers or calls [next()]. *)
Definition guarded (guard : option Response) (k : World -> Response * World)
  : World -> Response * World :=
  fun w => match guard with
           | Some r => (r, w)
           | None => k w
           end.

(** [router.use(authenticate)]: a request without a valid token is answered
    here; otherwise [req.user] is the decoded identity. *)
Definition authenticate (user : option AuthUser) : option Response :=
  match user with
  | None => Some (json 401 false PNull "Access token required")
  | Some _ => None
  end.

Definition post_ticket e user body :=
  guarded (authenticate user) (TicketController.createTicket e user body).
Definition get_tickets user :=
  guarded (authenticate user) (TicketController.getTickets user).
Definition get_search user query :=
  guarded (authenticate user) (TicketController.searchTickets user query).
Definition get_ticket user id :=
  guarded (authenticate user) (TicketController.getTicketById user id).
Definition put_ticket e user id body :=
  guarded (authenticate user)
    (guarded (requireAdmin user) (TicketController.updateTicket e user id body)).
Definition delete_ticket user id :=
  guarded (authenticate user)
    (guarded (requireAdmin user) (TicketController.deleteTicket user id)).
Definition post_message e user id body :=
  guarded (authenticate user) (TicketController.addMessage e user id body).
Definition get_messages user id :=
  guarded (authenticate user) (TicketController.getTicketMessages user id).

Definition post_attachment e user ticketId file :=
  guarded (authenticate user) (UploadController.uploadAttachment e user ticketId file).
Definition get_attachments user ticketId :=
  guarded (authenticate user) (UploadController.getTicketAttachments user ticketId).
Definition get_download user id :=
  guarded (authenticate user) (UploadController.downloadAttachment user id).
Definition delete_attachment user id :=
  guarded (authenticate user)
    (guarded (requireAdmin user) (UploadController.deleteAttachment user id)).

End Routes.

(** ** services/userService.ts and services/authService.ts

    The account's active flag. Password hashing is outside the model: the
    hash [bcrypt] returns is an argument. *)

Module UserService.

Record UserCreate : Type := mkUserCreate {
  uc_name : option string;
  uc_email : option string;
  uc_password : option string;
  uc_role : option string
}.

(** [is_active] is whatever the request body held; [JUndefined] when absent. *)
Record UserUpdate : Type := mkUserUpdate {
  uu_name : option string;
  uu_email : option string;
  uu_role : option string;
  uu_is_active : jsval
}.

(** [{ ...user, is_active: Boolean(user.is_active) }] over the columns
    id, name, email, role, is_active, created_at, updated_at *)
Definition to_user (u : UserRow) : User :=
  mkUser (u_id u) (u_name u) (u_email u) None (u_role u)
    (Boolean (JNum (u_is_active u))) (u_created_at u) (u_updated_at u).

Definition getAllUsers (d : Db) : list User :=
  List.map to_user (Sql.order_by_desc u_created_at (users d)).

Definition getUserById (id : Z) (d : Db) : option User :=
  match List.find (fun u => u_id u =? id) (users d) with
  | Some u => Some (to_user u)
  | None => None
  end.

Definition invalid_role : string :=
  "Invalid role. Must be " +:+ quote +:+ "user" +:+ quote +:+ " or "
  +:+ quote +:+ "admin" +:+ quote.

Definition createUser (e : Env) (userData : UserCreate) (password_hash : string)
  : M Db (option User) :=
  let role := default "user" (uc_role userData) in
  if TicketService.absent_or_empty (uc_name userData)
     || TicketService.absent_or_empty (uc_email userData)
     || TicketService.absent_or_empty (uc_password userData)
  then throw "Name, email, and password are required"
  else
    let name := default "" (uc_name userData) in
    let email := default "" (uc_email userData) in
    let password := default "" (uc_password userData) in
    if negb (helpers.validateEmail email) then throw "Invalid email format"
    else if (js_length password <? 6)%nat
    then throw "Password must be at least 6 characters long"
    else if negb (Sql.mem_str role ["user"; "admin"]) then throw invalid_role
    else
      d <- get ;;
      if Sql.mem_str email (List.map u_email (users d))
      then throw "User with this email already exists"
      else
        userId <- Sql.insert_user e name email password_hash role 1 ;;
        d' <- get ;;
        ret (getUserById userId d').

(** The row after UPDATE users SET <the fields pushed>,
    updated_at = CURRENT_TIMESTAMP. [is_active] is bound to
    [updates.is_active ? 1 : 0]. *)
Definition apply_update (e : Env) (updates : UserUpdate) (u : UserRow) : UserRow :=
  mkUserRow (u_id u)
    (match uu_name updates with Some n => trim n | None => u_name u end)
    (default (u_email u) (uu_email updates))
    (u_password_hash u)
    (default (u_role u) (uu_role updates))
    (match uu_is_active updates with
     | JUndefined => u_is_active u
     | v => if truthy v then 1 else 0
     end)
    (u_created_at u) (now e).

Definition update_row (e : Env) (id : Z) (updates : UserUpdate) : M Db unit :=
  fun d =>
    if match uu_role updates with
       | Some r => negb (Sql.mem_str r Sql.roles)
       | None => false
       end
    then (Throw (Sql.check_failed "role"), d)
    else if match uu_email updates with
            | Some m =>
                Sql.mem_str m
                  (List.map u_email (List.filter (fun u => negb (u_id u =? id)) (users d)))
                && Sql.mem_Z id (List.map u_id (users d))
            | None => false
            end
    then (Throw (Sql.unique_failed "users.email"), d)
    else
      (Ok tt,
       mkDb (List.map (fun u => if u_id u =? id then apply_update e updates u else u)
                      (users d))
            (tickets d) (ticket_messages d) (attachments d)
            (seq_users d) (seq_tickets d) (seq_messages d) (seq_attachments d)).

Definition updateUser (e : Env) (id : Z) (updates : UserUpdate) : M Db (option User) :=
  d <- get ;;
  match getUserById id d with
  | None => throw "User not found"
  | Some user =>
      if match uu_name updates with
         | Some n => String.eqb (trim n) ""
         | None => false
         end
      then throw "Name cannot be empty"
      else if match uu_email updates with
              | Some m => negb (helpers.validateEmail m)
              | None => false
              end
      then throw "Invalid email format"
      else if match uu_email updates with
              | Some m =>
                  Sql.mem_str m
                    (List.map u_email (List.filter (fun u => negb (u_id u =? id)) (users d)))
              | None => false
              end
      then throw "Email is already taken by another user"
      else if match uu_role updates with
              | Some r => negb (Sql.mem_str r ["user"; "admin"])
              | None => false
              end
      then throw invalid_role
      else
        match uu_name updates, uu_email updates, uu_role updates, uu_is_active updates with
        | None, None, None, JUndefined => ret (Some user)
        | _, _, _, _ =>
            update_row e id updates ;;;
            d' <- get ;;
            ret (getUserById id d')
        end
  end.

Definition deactivateUser (e : Env) (id : Z) : M Db (option User) :=
  updateUser e id (mkUserUpdate None None None (JBool false)).

Definition activateUser (e : Env) (id : Z) : M Db (option User) :=
  updateUser e id (mkUserUpdate None None None (JBool true)).

Definition searchUsers (query : string) (d : Db) : list User :=
  let pattern := "%" +:+ query +:+ "%" in
  List.map to_user
    (Sql.order_by_desc u_created_at
       (List.filter (fun u => Sql.like pattern (u_name u) || Sql.like pattern (u_email u))
                    (users d))).

(** [resetUserPassword]; [password_hash] is what [bcrypt.hash] returns for
    [newPassword]. *)
Definition resetUserPassword (e : Env) (id : Z) (newPassword password_hash : string)
  : M Db unit :=
  d <- get ;;
  match getUserById id d with
  | None => throw "User not found"
  | Some _ =>
      if (js_length newPassword <? 6)%nat
      then throw "Password must be at least 6 characters long"
      else
        put (mkDb (List.map (fun u => if u_id u =? id
                                      then mkUserRow (u_id u) (u_name u) (u_email u)
                                             password_hash (u_role u) (u_is_active u)
                                             (u_created_at u) (now e)
                                      else u) (users d))
                  (tickets d) (ticket_messages d) (attachments d)
                  (seq_users d) (seq_tickets d) (seq_messages d) (seq_attachments d))
  end.

(** DELETE FROM users WHERE id = ?. The rows that still refer to the user
    make the statement fail (no ON DELETE action is declared for them);
    [article_authors] are the [author_id]s of the knowledge articles, a
    table outside this model. *)
Definition referenced (id : Z) (article_authors : list Z) (d : Db) : bool :=
  Sql.mem_Z id (List.map t_user_id (tickets d))
  || List.existsb (fun t => match t_assigned_to t with
                            | Some a => a =? id
                            | None => false
                            end) (tickets d)
  || Sql.mem_Z id (List.map m_user_id (ticket_messages d))
  || Sql.mem_Z id (List.map a_uploaded_by (attachments d))
  || Sql.mem_Z id article_authors.

Definition delete_row (id : Z) (article_authors : list Z) : M Db Z :=
  fun d =>
    let hit := List.filter (fun u => u_id u =? id) (users d) in
    match hit with
    | [] => (Ok 0, d)
    | _ =>
        if referenced id article_authors d then (Throw Sql.fk_failed, d)
        else
          (Ok (Z.of_nat (length hit)),
           mkDb (List.filter (fun u => negb (u_id u =? id)) (users d))
                (tickets d) (ticket_messages d) (attachments d)
                (seq_users d) (seq_tickets d) (seq_messages d) (seq_attachments d))
    end.

Definition deleteUser (id : Z) (article_authors : list Z) : M Db bool :=
  d <- get ;;
  match getUserById id d with
  | None => throw "User not found"
  | Some _ =>
      let ticketCount :=
        Z.of_nat (length (List.filter (fun t => t_user_id t =? id) (tickets d))) in
      if 0 <? ticketCount
      then throw "Cannot delete user with existing tickets. Deactivate the user instead."
      else
        changes <- delete_row id article_authors ;;
        ret (0 <? changes)
  end.

(** [getUserTicketStats]: COUNT of the user's tickets, and of those in each
    status, [COUNT(CASE WHEN status = s THEN 1 END)]. *)
Record TicketStats : Type := mkTicketStats {
  total_tickets : Z;
  open_tickets : Z;
  in_progress_tickets : Z;
  resolved_tickets : Z;
  closed_tickets : Z
}.

Definition count_status (s : string) (l : list Ticket) : Z :=
  Z.of_nat (length (List.filter
                      (fun t => match t_status t with
                                | Some x => String.eqb x s
                                | None => false
                                end) l)).

Definition getUserTicketStats (userId : Z) (d : Db) : TicketStats :=
  let own := List.filter (fun t => t_user_id t =? userId) (tickets d) in
  mkTicketStats (Z.of_nat (length own))
    (count_status "open" own) (count_status "in_progress" own)
    (count_status "resolved" own) (count_status "closed" own).

End UserService.

Module AuthService.

Record UserLogin : Type := mkUserLogin {
  l_email : option string;
  l_password : option string
}.

(** [sanitizeUser]: the user object without [password_hash]. *)
Definition sanitizeUser (u : User) : User :=
  mkUser (usr_id u) (usr_name u) (usr_email u) None (usr_role u) (usr_is_active u)
    (usr_created_at u) (usr_updated_at u).

(** [login]. [compare] stands for [bcrypt.compare]; the token is
    represented by the payload that [generateToken] signs. *)
Definition login (compare : string -> string -> bool) (credentials : UserLogin) (d : Db)
  : result (User * AuthUser) :=
  if TicketService.absent_or_empty (l_email credentials)
     || TicketService.absent_or_empty (l_password credentials)
  then Throw "Email and password are required"
  else
    let email := default "" (l_email credentials) in
    let password := default "" (l_password credentials) in
    match List.find (fun u => String.eqb (u_email u) email && (u_is_active u =? 1))
                    (users d) with
    | None => Throw "Invalid credentials"
    | Some userData =>
        let user :=
          mkUser (u_id userData) (u_name userData) (u_email userData)
            (Some (u_password_hash userData)) (u_role userData)
            (Boolean (JNum (u_is_active userData)))
            (u_created_at userData) (u_updated_at userData) in
        if negb (compare password (u_password_hash userData))
        then Throw "Invalid credentials"
        else Ok (sanitizeUser user,
                 mkAuthUser (usr_id user) (usr_email user) (usr_role user))
    end.

(** SELECT * FROM users WHERE id = ? AND is_active = 1, then
    [{ ...user, is_active: Boolean(user.is_active) }] *)
Definition getUserById (id : Z) (d : Db) : option User :=
  match List.find (fun u => (u_id u =? id) && (u_is_active u =? 1)) (users d) with
  | Some u =>
      Some (mkUser (u_id u) (u_name u) (u_email u) (Some (u_password_hash u)) (u_role u)
              (Boolean (JNum (u_is_active u))) (u_created_at u) (u_updated_at u))
  | None => None
  end.

(** [register]. The row it returns comes from SELECT * and goes through
    [sanitizeUser] only: [is_active] is the stored integer. [password_hash]
    is what [bcrypt.hash] returns for the password. *)
Record UserRegistration : Type := mkUserRegistration {
  reg_name : option string;
  reg_email : option string;
  reg_password : option string
}.

Record RegisteredUser : Type := mkRegisteredUser {
  ru_id : Z;
  ru_name : string;
  ru_email : string;
  ru_role : string;
  ru_is_active : jsval;
  ru_created_at : Z;
  ru_updated_at : Z
}.

Definition register (e : Env) (userData : UserRegistration) (password_hash : string)
  : M Db (RegisteredUser * AuthUser) :=
  if TicketService.absent_or_empty (reg_name userData)
     || TicketService.absent_or_empty (reg_email userData)
     || TicketService.absent_or_empty (reg_password userData)
  then throw "Name, email, and password are required"
  else
    let name := default "" (reg_name userData) in
    let email := default "" (reg_email userData) in
    let password := default "" (reg_password userData) in
    if negb (helpers.validateEmail email) then throw "Invalid email format"
    else if (js_length password <? 6)%nat
    then throw "Password must be at least 6 characters long"
    else
      d <- get ;;
      if Sql.mem_str email (List.map u_email (users d))
      then throw "User with this email already exists"
      else
        userId <- Sql.insert_user e name email password_hash "user" 1 ;;
        d' <- get ;;
        match List.find (fun u => u_id u =? userId) (users d') with
        | None => throw "Cannot read properties of undefined (reading 'id')"
        | Some user =>
            ret (mkRegisteredUser (u_id user) (u_name user) (u_email user) (u_role user)
                   (JNum (u_is_active user)) (u_created_at user) (u_updated_at user),
                 mkAuthUser (u_id user) (u_email user) (u_role user))
        end.

End AuthService.


(** ** controllers/userController.ts and routes/users.ts *)

Module UserController.

Record CreateUserBody : Type := mkCreateUserBody {
  cb_name : option string;
  cb_email : option string;
  cb_password : option string;
  cb_role : option string
}.

(** [!req.user || req.user.role !== 'admin'] *)
Definition not_admin (user : option AuthUser) : bool :=
  match user with
  | None => true
  | Some u => negb (is_admin u)
  end.

Definition admin_required : Response := json 403 false PNull "Admin access required".

Definition getAllUsers (user : option AuthUser) : World -> Response * World :=
  handle
    (if not_admin user then ret admin_required
     else
       w <- get ;;
       ret (json 200 true (PUsers (UserService.getAllUsers (db w)))
              "Users retrieved successfully")).

Definition createUser (e : Env) (user : option AuthUser) (body : CreateUserBody)
    (password_hash : string) : World -> Response * World :=
  handle
    (if not_admin user then ret admin_required
     else
       let role := default "user" (cb_role body) in
       created <- liftDb (UserService.createUser e
                    (UserService.mkUserCreate (cb_name body) (cb_email body)
                       (cb_password body) (Some role)) password_hash) ;;
       ret (json 201 true (payload_of PUser created) "User created successfully")).

Definition updateUser (e : Env) (user : option AuthUser) (userId : Z)
    (body : UserService.UserUpdate) : World -> Response * World :=
  handle
    (if not_admin user then ret admin_required
     else
       updated <- liftDb (UserService.updateUser e userId body) ;;
       ret (json 200 true (payload_of PUser updated) "User updated successfully")).

Definition resetUserPassword (e : Env) (user : option AuthUser) (userId : Z)
    (password : option string) (password_hash : string) : World -> Response * World :=
  handle
    (if not_admin user then ret admin_required
     else if TicketService.absent_or_empty password
     then ret (json 400 false PNull "Password is required")
     else
       liftDb (UserService.resetUserPassword e userId (default "" password)
                 password_hash) ;;;
       ret (json 200 true PNull "Password reset successfully")).

Definition deleteUser (user : option AuthUser) (targetId : Z) (article_authors : list Z)
  : World -> Response * World :=
  handle
    match user with
    | None => ret admin_required
    | Some u =>
        if negb (is_admin u) then ret admin_required
        else if targetId =? userId u
        then ret (json 400 false PNull "Cannot delete your own account")
        else
          deleted <- liftDb (UserService.deleteUser targetId article_authors) ;;
          if negb deleted then ret (json 404 false PNull "User not found")
          else ret (json 200 true PNull "User deleted successfully")
    end.

Definition deactivateUser (e : Env) (user : option AuthUser) (targetId : Z)
  : World -> Response * World :=
  handle
    match user with
    | None => ret admin_required
    | Some u =>
        if negb (is_admin u) then ret admin_required
        else if targetId =? userId u
        then ret (json 400 false PNull "Cannot deactivate your own account")
        else
          updated <- liftDb (UserService.deactivateUser e targetId) ;;
          ret (json 200 true (payload_of PUser updated) "User deactivated successfully")
    end.

Definition activateUser (e : Env) (user : option AuthUser) (userId : Z)
  : World -> Response * World :=
  handle
    (if not_admin user then ret admin_required
     else
       updated <- liftDb (UserService.activateUser e userId) ;;
       ret (json 200 true (payload_of PUser updated) "User activated successfully")).

Definition searchUsers (user : option AuthUser) (query : option string)
  : World -> Response * World :=
  handle
    (if not_admin user then ret admin_required
     else
       match query with
       | None => ret (json 400 false PNull "Search query is required")
       | Some q =>
           if String.eqb q "" then ret (json 400 false PNull "Search query is required")
           else
             w <- get ;;
             ret (json 200 true (PUsers (UserService.searchUsers q (db w)))
                    "Search completed successfully")
       end).

End UserController.

(** ** controllers/authController.ts: the profile *)

Module AuthController.

Definition getProfile (user : option AuthUser) : World -> Response * World :=
  handle
    match user with
    | None => ret unauthenticated
    | Some u =>
        w <- get ;;
        match AuthService.getUserById (userId u) (db w) with
        | None => ret (json 404 false PNull "User not found")
        | Some found =>
            ret (json 200 true (PUser (AuthService.sanitizeUser found))
                   "Profile retrieved successfully")
        end
    end.

End AuthController.

(** ** app.ts: the routes served

    [router.use(authenticate)] and, for the user routes,
    [router.use(requireAdmin)] come first. The password hash and the
    authors of the knowledge articles are inputs of the requests that
    need them. *)

Module App.

Inductive Request : Type :=
  | PostTicket (e : Env) (body : TicketController.CreateBody)
  | GetTickets
  | GetSearch (query : option string)
  | GetTicket (id : Z)
  | PutTicket (e : Env) (id : Z) (body : TicketService.TicketUpdate)
  | DeleteTicket (id : Z)
  | PostMessage (e : Env) (id : Z) (body : TicketController.MessageBody)
  | GetMessages (id : Z)
  | PostAttachment (e : Env) (ticketId : Z) (file : option FileService.MulterFile)
  | GetAttachments (ticketId : Z)
  | GetDownload (id : Z)
  | DeleteAttachment (id : Z)
  | GetUsers
  | GetUserSearch (query : option string)
  | PostUser (e : Env) (body : UserController.CreateUserBody) (password_hash : string)
  | PutUser (e : Env) (id : Z) (body : UserService.UserUpdate)
  | DeleteUser (id : Z) (article_authors : list Z)
  | PostResetPassword (e : Env) (id : Z) (password : option string) (password_hash : string)
  | PostDeactivate (e : Env) (id : Z)
  | PostActivate (e : Env) (id : Z)
  | GetProfile.

Definition admin_route (user : option AuthUser) (k : World -> Response * World)
  : World -> Response * World :=
  Routes.guarded (Routes.authenticate user) (Routes.guarded (requireAdmin user) k).

Definition serve (user : option AuthUser) (r : Request) : World -> Response * World :=
  match r with
  | PostTicket e body => Routes.post_ticket e user body
  | GetTickets => Routes.get_tickets user
  | GetSearch query => Routes.get_search user query
  | GetTicket id => Routes.get_ticket user id
  | PutTicket e id body => Routes.put_ticket e user id body
  | DeleteTicket id => Routes.delete_ticket user id
  | PostMessage e id body => Routes.post_message e user id body
  | GetMessages id => Routes.get_messages user id
  | PostAttachment e ticketId file => Routes.post_attachment e user ticketId file
  | GetAttachments ticketId => Routes.get_attachments user ticketId
  | GetDownload id => Routes.get_download user id
  | DeleteAttachment id => Routes.delete_attachment user id
  | GetUsers => admin_route user (UserController.getAllUsers user)
  | GetUserSearch query => admin_route user (UserController.searchUsers user query)
  | PostUser e body password_hash =>
      admin_route user (UserController.createUser e user body password_hash)
  | PutUser e id body => admin_route user (UserController.updateUser e user id body)
  | DeleteUser id article_authors =>
      admin_route user (UserController.deleteUser user id article_authors)
  | PostResetPassword e id password password_hash =>
      admin_route user (UserController.resetUserPassword e user id password password_hash)
  | PostDeactivate e id => admin_route user (UserController.deactivateUser e user id)
  | PostActivate e id => admin_route user (UserController.activateUser e user id)
  | GetProfile => Routes.guarded (Routes.authenticate user) (AuthController.getProfile user)
  end.

(** A session: requests served one after the other, each by its caller. *)
Fixpoint run (session : list (option AuthUser * Request)) (w : World) : World :=
  match session with
  | [] => w
  | (user, r) :: rest => run rest (snd (serve user r w))
  end.

End App.
(** * Vocabulary of the statements *)

(** ** Running the services *)

Ltac run :=
  unfold bind, ret, throw, get, put, liftDb, liftFs, handle, try_catch_log in *;
  simpl in *.



(** NULL, or one of [allowed]: what a [CHECK(col IN (...))] admits. *)
Definition null_or_in (v : option string) (allowed : list string) : Prop :=
  match v with
  | Some s => In s allowed
  | None => True
  end.

(** The row INSERT INTO tickets stores for a call of [createTicket]. *)
Definition created_row (e : Env) (userId : Z) (ticketData : TicketService.TicketCreate)
    (d : Db) : Ticket :=
  mkTicket (Sql.next_rowid (seq_tickets d) (List.map t_id (tickets d)))
    (helpers.generateTicketNumber e) userId
    (default "" (TicketService.title ticketData))
    (default "" (TicketService.description ticketData))
    (default "" (TicketService.category ticketData))
    (TicketService.priority ticketData) (Some "open") None (now e) (now e).

Definition with_ticket (d : Db) (row : Ticket) : Db :=
  mkDb (users d) (tickets d ++ [row]) (ticket_messages d) (attachments d)
       (seq_users d) (t_id row) (seq_messages d) (seq_attachments d).

(** The requirements under which a create goes through. *)
Definition creatable (e : Env) (userId : Z) (ticketData : TicketService.TicketCreate)
    (d : Db) : Prop :=
  TicketService.absent_or_empty (TicketService.title ticketData) = false /\
  TicketService.absent_or_empty (TicketService.description ticketData) = false /\
  In (default "" (TicketService.category ticketData)) Sql.categories /\
  null_or_in (TicketService.priority ticketData) Sql.priorities /\
  ~ In (helpers.generateTicketNumber e) (List.map t_ticket_number (tickets d)) /\
  In userId (List.map u_id (users d)).


Definition ticket_create_of (body : TicketController.CreateBody)
  : TicketService.TicketCreate :=
  TicketService.mkTicketCreate (TicketController.b_title body)
    (TicketController.b_description body) (TicketController.b_category body)
    (default (Some "medium") (TicketController.b_priority body)).

(** ** A small installation used to evaluate the code *)

Module Sample.

Definition env0 : Env := mkEnv 1000 2026 42 1700000000000 "00ff00ff00ff00ff".
Definition env1 : Env := mkEnv 1001 2026 7 1700000000001 "1111111111111111".

Definition admin : AuthUser := mkAuthUser 1 "admin@example.com" "admin".
Definition alice : AuthUser := mkAuthUser 2 "alice@example.com" "user".
Definition bob : AuthUser := mkAuthUser 3 "bob@example.com" "user".

Definition users0 : list UserRow :=
  [ mkUserRow 1 "Admin User" "admin@example.com" "hash1" "admin" 1 0 0;
    mkUserRow 2 "Alice" "alice@example.com" "hash2" "user" 1 0 0;
    mkUserRow 3 "Bob" "bob@example.com" "hash3" "user" 1 0 0 ].

Definition fs0 : Fs := mkFs ∅ ∅ ∅.

(** three accounts, nothing else *)
Definition w0 : World := mkWorld (mkDb users0 [] [] [] 3 0 0 0) fs0.

Definition printer : TicketController.CreateBody :=
  TicketController.mkCreateBody (Some "Printer") (Some "It is broken") (Some "hardware") None.

Definition no_title : TicketController.CreateBody :=
  TicketController.mkCreateBody None (Some "It is broken") (Some "hardware") None.

Definition ticket1 : Ticket :=
  mkTicket 1 "TKT-2026-0042" 2 "Printer" "It is broken" "hardware"
    (Some "medium") (Some "open") None 1000 1000.

(** Alice has filed ticket 1 *)
Definition w1 : World := mkWorld (mkDb users0 [ticket1] [] [] 3 1 0 0) fs0.

End Sample.

(** The row INSERT INTO ticket_messages stores for a call of [addMessage]. *)
Definition appended_row (e : Env) (ticketId userId : Z)
    (messageData : TicketService.TicketMessageCreate) (d : Db) : MessageRow :=
  mkMessageRow (Sql.next_rowid (seq_messages d) (List.map m_id (ticket_messages d)))
    ticketId userId (trim (TicketService.msg_message messageData))
    (if truthy (with_default (JBool false) (TicketService.msg_is_internal messageData))
     then 1 else 0)
    (now e).

Definition with_message (d : Db) (row : MessageRow) : Db :=
  mkDb (users d) (tickets d) (ticket_messages d ++ [row]) (attachments d)
       (seq_users d) (seq_tickets d) (m_id row) (seq_attachments d).

(** A request that sets the active flag of an account and nothing else, as
    [activateUser], [deactivateUser] and a PUT with [is_active] alone do. *)
Definition set_active (v : jsval) : UserService.UserUpdate :=
  UserService.mkUserUpdate None None None v.

Definition stored_flag (v : jsval) : Z := if truthy v then 1 else 0.

Module SampleThread.
Import Sample.

Definition note : TicketService.TicketMessageCreate :=
  TicketService.mkTicketMessageCreate " internal note " (JBool true).

Definition note_body : TicketController.MessageBody :=
  TicketController.mkMessageBody (JStr " internal note ") (JBool true).

Definition hello_internal : TicketController.MessageBody :=
  TicketController.mkMessageBody (JStr "hello") (JBool true).

Definition stored_note : MessageRow := mkMessageRow 1 1 1 "internal note" 1 1000.

(** ticket 1 with the administrator's internal note *)
Definition w2 : World :=
  mkWorld (mkDb users0 [ticket1] [stored_note] [] 3 1 1 0) fs0.

Definition note_view : TicketMessage :=
  mkTicketMessage 1 1 1 "internal note" true 1000
    (mkMessageUser 1 "Admin User" "admin@example.com" "admin").

End SampleThread.

(** The tables after DELETE FROM attachments WHERE id = ? *)
Definition without_attachment (id : Z) (d : Db) : Db :=
  mkDb (users d) (tickets d) (ticket_messages d)
       (List.filter (fun a => negb (a_id a =? id)) (attachments d))
       (seq_users d) (seq_tickets d) (seq_messages d) (seq_attachments d).

(** The disk after the attempt to remove the blob at [p]: the outcome of
    [unlinkSync] when the path exists, errors dropped. *)
Definition after_unlink_attempt (p : string) (f : Fs) : Fs :=
  if fs.existsSync p f then snd (fs.unlinkSync p f) else f.

Module SampleFiles.
Import Sample.

Definition report_path : string := "uploads/1700000000000-00ff00ff00ff00ff.pdf".

Definition report : Attachment :=
  mkAttachment 1 1 "report.pdf" "1700000000000-00ff00ff00ff00ff.pdf" report_path
    3 "application/pdf" 2 1000.

Definition report_bytes : list Byte.byte := [Byte.x25; Byte.x50; Byte.x44].

Definition db3 : Db := mkDb users0 [ticket1] [] [report] 3 1 0 1.

(** ticket 1 with one attachment whose file is on disk *)
Definition w3 : World :=
  mkWorld db3 (mkFs {[ report_path := report_bytes ]} {[ "./uploads" ]} ∅).

(** the same, but the operating system refuses to touch the file *)
Definition w3_locked : World :=
  mkWorld db3 (mkFs {[ report_path := report_bytes ]} {[ "./uploads" ]} {[ report_path ]}).

(** the row is there, the file is not *)
Definition w3_dangling : World :=
  mkWorld db3 (mkFs ∅ {[ "./uploads" ]} ∅).

Definition pdf (n : Z) : FileService.MulterFile :=
  FileService.mkMulterFile "report.pdf" "application/pdf" n report_bytes.

Definition executable : FileService.MulterFile :=
  FileService.mkMulterFile "tool.bin" "application/x-executable" 3 report_bytes.

End SampleFiles.

Definition blank_message : TicketController.MessageBody :=
  TicketController.mkMessageBody (JStr "   ") JUndefined.

(** The path [uploadFile] writes to and the row it stores. *)
Definition upload_path (e : Env) (file : FileService.MulterFile) : string :=
  FileService.join_upload_dir (helpers.generateUniqueFilename e (FileService.originalname file)).

Definition uploaded_row (e : Env) (ticketId userId : Z) (file : FileService.MulterFile)
    (d : Db) : Attachment :=
  mkAttachment (Sql.next_rowid (seq_attachments d) (List.map a_id (attachments d)))
    ticketId (FileService.originalname file)
    (helpers.generateUniqueFilename e (FileService.originalname file))
    (upload_path e file) (FileService.size file) (FileService.mimetype file) userId (now e).

(** The WHERE clause of the search, without its ownership part. *)
Definition search_matches (query : string) (t : Ticket) : bool :=
  Sql.like ("%" +:+ query +:+ "%") (t_title t)
  || Sql.like ("%" +:+ query +:+ "%") (t_description t)
  || Sql.like ("%" +:+ query +:+ "%") (t_ticket_number t).

(** ** The store's transitions and invariants *)

Definition ticket_ok (t : Ticket) : Prop :=
  In (t_category t) Sql.categories /\ null_or_in (t_priority t) Sql.priorities /\
  null_or_in (t_status t) Sql.statuses /\ t_title t <> "" /\ t_description t <> "".

Definition message_ok (m : MessageRow) : Prop :=
  (m_is_internal m = 0 \/ m_is_internal m = 1) /\
  m_message m <> "" /\ trim (m_message m) = m_message m.

Definition attachment_ok (a : Attachment) : Prop :=
  In (a_mime_type a) FileService.allowedMimeTypes /\
  a_file_size a <= FileService.MAX_FILE_SIZE.

Definition user_ok (u : UserRow) : Prop :=
  u_name u <> "" /\ helpers.validateEmail (u_email u) = true /\
  In (u_role u) Sql.roles /\ (u_is_active u = 0 \/ u_is_active u = 1).

Definition with_attachment (d : Db) (row : Attachment) : Db :=
  mkDb (users d) (tickets d) (ticket_messages d) (attachments d ++ [row])
       (seq_users d) (seq_tickets d) (seq_messages d) (a_id row).

Definition with_user (d : Db) (row : UserRow) : Db :=
  mkDb (users d ++ [row]) (tickets d) (ticket_messages d) (attachments d)
       (u_id row) (seq_tickets d) (seq_messages d) (seq_attachments d).

Definition with_users (d : Db) (us : list UserRow) : Db :=
  mkDb us (tickets d) (ticket_messages d) (attachments d)
       (seq_users d) (seq_tickets d) (seq_messages d) (seq_attachments d).

Definition with_tickets (d : Db) (ts : list Ticket) : Db :=
  mkDb (users d) ts (ticket_messages d) (attachments d)
       (seq_users d) (seq_tickets d) (seq_messages d) (seq_attachments d).

(** The tables after DELETE FROM tickets WHERE id = ? with its cascade. *)
Definition without_ticket (id : Z) (d : Db) : Db :=
  mkDb (users d)
       (List.filter (fun t => negb (t_id t =? id)) (tickets d))
       (List.filter (fun m => negb (m_ticket_id m =? id)) (ticket_messages d))
       (List.filter (fun a => negb (a_ticket_id a =? id)) (attachments d))
       (seq_users d) (seq_tickets d) (seq_messages d) (seq_attachments d).

Definition set_password (e : Env) (id : Z) (password_hash : string) (u : UserRow)
  : UserRow :=
  if u_id u =? id
  then mkUserRow (u_id u) (u_name u) (u_email u) password_hash (u_role u)
         (u_is_active u) (u_created_at u) (now e)
  else u.

(** Every way in which the services change the tables. *)
Inductive db_step (d : Db) : Db -> Prop :=
  | step_insert_ticket (row : Ticket) :
      t_id row = Sql.next_rowid (seq_tickets d) (List.map t_id (tickets d)) ->
      ~ In (t_ticket_number row) (List.map t_ticket_number (tickets d)) ->
      In (t_user_id row) (List.map u_id (users d)) ->
      t_assigned_to row = None ->
      ticket_ok row ->
      db_step d (with_ticket d row)
  | step_update_ticket (e : Env) (id : Z) (updates : TicketService.TicketUpdate) :
      (forall s, TicketService.up_status updates = Some s -> null_or_in s Sql.statuses) ->
      (forall p, TicketService.up_priority updates = Some p ->
                 null_or_in p Sql.priorities) ->
      (forall a, TicketService.up_assigned_to updates = Some (Some a) ->
                 In a (List.map u_id (users d))) ->
      db_step d (with_tickets d
                   (List.map (fun t => if t_id t =? id
                                       then TicketService.apply_update e updates t
                                       else t) (tickets d)))
  | step_delete_ticket (id : Z) :
      db_step d (without_ticket id d)
  | step_insert_message (row : MessageRow) :
      m_id row = Sql.next_rowid (seq_messages d) (List.map m_id (ticket_messages d)) ->
      In (m_ticket_id row) (List.map t_id (tickets d)) ->
      In (m_user_id row) (List.map u_id (users d)) ->
      message_ok row ->
      db_step d (with_message d row)
  | step_insert_attachment (row : Attachment) :
      a_id row = Sql.next_rowid (seq_attachments d) (List.map a_id (attachments d)) ->
      In (a_ticket_id row) (List.map t_id (tickets d)) ->
      In (a_uploaded_by row) (List.map u_id (users d)) ->
      attachment_ok row ->
      db_step d (with_attachment d row)
  | step_delete_attachment (id : Z) :
      db_step d (without_attachment id d)
  | step_insert_user (row : UserRow) :
      u_id row = Sql.next_rowid (seq_users d) (List.map u_id (users d)) ->
      ~ In (u_email row) (List.map u_email (users d)) ->
      user_ok row ->
      db_step d (with_user d row)
  | step_update_user (e : Env) (id : Z) (updates : UserService.UserUpdate) :
      (forall n, UserService.uu_name updates = Some n -> trim n <> "") ->
      (forall m, UserService.uu_email updates = Some m ->
                 helpers.validateEmail m = true /\
                 ~ In m (List.map u_email
                           (List.filter (fun u => negb (u_id u =? id)) (users d)))) ->
      (forall r, UserService.uu_role updates = Some r -> In r Sql.roles) ->
      db_step d (with_users d
                   (List.map (fun u => if u_id u =? id
                                       then UserService.apply_update e updates u
                                       else u) (users d)))
  | step_reset_password (e : Env) (id : Z) (password_hash : string) :
      db_step d (with_users d (List.map (set_password e id password_hash) (users d)))
  | step_delete_user (id : Z) (article_authors : list Z) :
      UserService.referenced id article_authors d = false ->
      db_step d (with_users d (List.filter (fun u => negb (u_id u =? id)) (users d))).

(** Primary keys: distinct, positive and not above the table's sequence, so
    that a key is never handed out twice, also after its row is gone. *)
Definition keys_in (ids : list Z) (seq : Z) : Prop :=
  List.NoDup ids /\ forall x, In x ids -> 0 < x <= seq.

Definition keys_ok (d : Db) : Prop :=
  keys_in (List.map u_id (users d)) (seq_users d) /\
  keys_in (List.map t_id (tickets d)) (seq_tickets d) /\
  keys_in (List.map m_id (ticket_messages d)) (seq_messages d) /\
  keys_in (List.map a_id (attachments d)) (seq_attachments d).

(** The UNIQUE columns. *)
Definition unique_ok (d : Db) : Prop :=
  List.NoDup (List.map u_email (users d)) /\
  List.NoDup (List.map t_ticket_number (tickets d)).

(** The foreign keys. *)
Definition refs_ok (d : Db) : Prop :=
  (forall t, In t (tickets d) ->
     In (t_user_id t) (List.map u_id (users d)) /\
     forall a, t_assigned_to t = Some a -> In a (List.map u_id (users d))) /\
  (forall m, In m (ticket_messages d) ->
     In (m_ticket_id m) (List.map t_id (tickets d)) /\
     In (m_user_id m) (List.map u_id (users d))) /\
  (forall a, In a (attachments d) ->
     In (a_ticket_id a) (List.map t_id (tickets d)) /\
     In (a_uploaded_by a) (List.map u_id (users d))).


(** Keys are not handed out a second time: the sequence does not go back
    and a key of the later table was there before or lies above the earlier
    sequence. *)
Definition keys_grow (ids : list Z) (seq : Z) (ids' : list Z) (seq' : Z) : Prop :=
  seq <= seq' /\ forall x, In x ids' -> In x ids \/ seq < x.

Definition no_key_reuse (d d' : Db) : Prop :=
  keys_grow (List.map u_id (users d)) (seq_users d)
            (List.map u_id (users d')) (seq_users d') /\
  keys_grow (List.map t_id (tickets d)) (seq_tickets d)
            (List.map t_id (tickets d')) (seq_tickets d') /\
  keys_grow (List.map m_id (ticket_messages d)) (seq_messages d)
            (List.map m_id (ticket_messages d')) (seq_messages d') /\
  keys_grow (List.map a_id (attachments d)) (seq_attachments d)
            (List.map a_id (attachments d')) (seq_attachments d').

Module SampleSession.
Import Sample.

(** Alice files a ticket, the administrator notes on it and takes it, Alice
    uploads a file, Bob is deactivated, the ticket is deleted, Bob files
    another one. *)
Definition session : list (option AuthUser * App.Request) :=
  [ (Some alice, App.PostTicket env0 printer);
    (Some admin, App.PostMessage env0 1 SampleThread.note_body);
    (Some admin, App.PutTicket env1 1
                   (TicketService.mkTicketUpdate (Some (Some "in_progress"))
                      (Some (Some 1)) None));
    (Some alice, App.PostAttachment env0 1 (Some (SampleFiles.pdf 3)));
    (Some admin, App.PostDeactivate env1 3);
    (Some admin, App.DeleteTicket 1);
    (Some bob, App.PostTicket env1 printer) ].

End SampleSession.

(** ** Ticket numbers over a session *)






Module SampleNumbers.
Import Sample.



End SampleNumbers.

(** ** Ticket updates *)

(** The values an update carries that the store accepts: a status and a
    priority that are [null] or of the schema's lists, an assignee that is
    [null] or an account. *)
Definition update_valid (updates : TicketService.TicketUpdate) (d : Db) : Prop :=
  (forall s, TicketService.up_status updates = Some s -> null_or_in s Sql.statuses) /\
  (forall p, TicketService.up_priority updates = Some p -> null_or_in p Sql.priorities) /\
  (forall a, TicketService.up_assigned_to updates = Some (Some a) ->
             In a (List.map u_id (users d))).

(** At least one of the three fields is given. *)
Definition update_given (updates : TicketService.TicketUpdate) : Prop :=
  TicketService.up_status updates <> None \/
  TicketService.up_assigned_to updates <> None \/
  TicketService.up_priority updates <> None.

(** The columns an update never writes. *)
Definition same_ticket_identity (t t' : Ticket) : Prop :=
  t_id t' = t_id t /\ t_ticket_number t' = t_ticket_number t /\
  t_user_id t' = t_user_id t /\ t_title t' = t_title t /\
  t_description t' = t_description t /\ t_category t' = t_category t /\
  t_created_at t' = t_created_at t.

Definition same_other_tables (d d' : Db) : Prop :=
  users d' = users d /\ ticket_messages d' = ticket_messages d /\
  attachments d' = attachments d.

(** ** Strings *)

Fixpoint all_chars (p : ascii -> bool) (s : string) : bool :=
  match s with
  | EmptyString => true
  | String c s' => p c && all_chars p s'
  end.

Definition no_dot (s : string) : bool :=
  all_chars (fun c => negb (Ascii.eqb c "."%char)) s.

(** [sub] occurs in [s]. *)
Definition contains (s sub : string) : Prop :=
  exists a b, s = a +:+ sub +:+ b.

(** A non-empty text that holds neither a white-space character nor [@]:
    what [[^\s@]+] matches. *)
Definition email_part (s : string) : Prop :=
  s <> "" /\ ~ contains s "@" /\ forall w, In w white_space -> ~ contains s w.

(** Text that is white space throughout. *)
Inductive spaces : string -> Prop :=
  | spaces_nil : spaces ""
  | spaces_cons (w r : string) : In w white_space -> spaces r -> spaces (w +:+ r).

(** Where a part matched by [[^\s@]+] may end: at the end of the text or
    before a character of one byte. *)
Definition boundary (b : string) : Prop :=
  match b with
  | EmptyString => True
  | String c _ => (N_of_ascii c <? 128)%N = true
  end.

(** ** What a member's request may change *)

(** The tables after a request of member [u]: as before, or with one row
    more, which is a ticket of [u] in its initial state, a public message
    of [u] on a ticket of [u], or an attachment by [u] on a ticket of [u]. *)
Definition member_effect (u : AuthUser) (d d' : Db) : Prop :=
  d' = d \/
  (exists row, d' = with_ticket d row /\ t_user_id row = userId u /\
               t_status row = Some "open" /\ t_assigned_to row = None) \/
  (exists row t, d' = with_message d row /\ m_user_id row = userId u /\
                 m_is_internal row = 0 /\
                 TicketService.getTicketById (m_ticket_id row) d = Some t /\
                 t_user_id t = userId u) \/
  (exists row t, d' = with_attachment d row /\ a_uploaded_by row = userId u /\
                 TicketService.getTicketById (a_ticket_id row) d = Some t /\
                 t_user_id t = userId u).

(** Every blob on disk before is on disk after. *)
Definition blobs_kept (f f' : Fs) : Prop :=
  forall p, is_Some (files f !! p) -> is_Some (files f' !! p).

(** ** Registration *)


Definition login_of (userData : AuthService.UserRegistration) : AuthService.UserLogin :=
  AuthService.mkUserLogin (AuthService.reg_email userData)
    (AuthService.reg_password userData).

Module SampleRegistration.

Definition carol : AuthService.UserRegistration :=
  AuthService.mkUserRegistration (Some "Carol") (Some "carol@example.com")
    (Some "secret1").

(** accepts the one pair that [bcrypt.hash] produced *)
Definition compare (password hash : string) : bool :=
  String.eqb password "secret1" && String.eqb hash "hash4".

End SampleRegistration.

(** ** Account management *)

Definition create_of (body : UserController.CreateUserBody) : UserService.UserCreate :=
  UserService.mkUserCreate (UserController.cb_name body) (UserController.cb_email body)
    (UserController.cb_password body) (Some (default "user" (UserController.cb_role body))).

(** The row INSERT INTO users stores for a call of [createUser]. *)
Definition created_user_row (e : Env) (body : UserController.CreateUserBody)
    (password_hash : string) (d : Db) : UserRow :=
  mkUserRow (Sql.next_rowid (seq_users d) (List.map u_id (users d)))
    (default "" (UserController.cb_name body))
    (default "" (UserController.cb_email body))
    password_hash (default "user" (UserController.cb_role body)) 1 (now e) (now e).

Definition fields_present (body : UserController.CreateUserBody) : bool :=
  negb (TicketService.absent_or_empty (UserController.cb_name body)
        || TicketService.absent_or_empty (UserController.cb_email body)
        || TicketService.absent_or_empty (UserController.cb_password body)).

(** The four tests [updateUser] puts on an update, in its order. *)
Definition name_blank (updates : UserService.UserUpdate) : bool :=
  match UserService.uu_name updates with
  | Some n => String.eqb (trim n) ""
  | None => false
  end.

Definition email_invalid (updates : UserService.UserUpdate) : bool :=
  match UserService.uu_email updates with
  | Some m => negb (helpers.validateEmail m)
  | None => false
  end.

Definition email_taken (updates : UserService.UserUpdate) (id : Z) (d : Db) : bool :=
  match UserService.uu_email updates with
  | Some m =>
      Sql.mem_str m
        (List.map u_email (List.filter (fun u => negb (u_id u =? id)) (users d)))
  | None => false
  end.

Definition role_invalid (updates : UserService.UserUpdate) : bool :=
  match UserService.uu_role updates with
  | Some r => negb (Sql.mem_str r ["user"; "admin"])
  | None => false
  end.

Definition user_update_given (updates : UserService.UserUpdate) : Prop :=
  UserService.uu_name updates <> None \/ UserService.uu_email updates <> None \/
  UserService.uu_role updates <> None \/ UserService.uu_is_active updates <> JUndefined.

(** ** What a response shows of an account *)

Definition payload_no_hash (p : Payload) : Prop :=
  match p with
  | PUser v => usr_password_hash v = None
  | PUsers l => forall v, In v l -> usr_password_hash v = None
  | _ => True
  end.

(** ** Search *)

Fixpoint lower (s : string) : string :=
  match s with
  | EmptyString => EmptyString
  | String c s' => String (Sql.to_lower c) (lower s')
  end.

(** A query without the wildcards of LIKE. *)
Definition literal (q : string) : bool :=
  all_chars (fun c => negb (Ascii.eqb c "%"%char) && negb (Ascii.eqb c "_"%char)) q.

(** [q] occurs in [s], letters compared without case. *)
Definition occurs (q s : string) : Prop :=
  exists a m b, s = a +:+ m +:+ b /\ lower m = lower q.
(** * Properties *)

(** ** Shared lemmas *)

Lemma mem_str_In (x : string) (l : list string) :
  Sql.mem_str x l = true <-> In x l.
Proof.
  unfold Sql.mem_str. rewrite existsb_exists. split.
  - intros (y & Hy & Heq). apply String.eqb_eq in Heq. now subst.
  - intros H. exists x. split; [assumption | apply String.eqb_refl].
Qed.

Lemma check_in_spec (v : option string) (l : list string) :
  Sql.check_in v l = true <-> null_or_in v l.
Proof.
  destruct v as [s|]; simpl; [apply mem_str_In | tauto].
Qed.

Lemma mem_Z_In (x : Z) (l : list Z) :
  Sql.mem_Z x l = true <-> In x l.
Proof.
  unfold Sql.mem_Z. rewrite existsb_exists. split.
  - intros (y & Hy & Heq). apply Z.eqb_eq in Heq. now subst.
  - intros H. exists x. split; [assumption | apply Z.eqb_refl].
Qed.

Lemma max_id_nonneg (ids : list Z) : 0 <= Sql.max_id ids.
Proof. induction ids as [|i ids IH]; simpl; lia. Qed.

Lemma max_id_upper (ids : list Z) (x : Z) : In x ids -> x <= Sql.max_id ids.
Proof.
  induction ids as [|i ids IH]; simpl; [tauto|].
  intros [->|H]; [lia | specialize (IH H); lia].
Qed.

(** An AUTOINCREMENT key is positive and larger than every key in use. *)
Lemma next_rowid_fresh (seq : Z) (ids : list Z) (x : Z) :
  In x ids -> x < Sql.next_rowid seq ids.
Proof. intros H. apply max_id_upper in H. unfold Sql.next_rowid. lia. Qed.

Lemma next_rowid_pos (seq : Z) (ids : list Z) : 0 < Sql.next_rowid seq ids.
Proof. pose proof (max_id_nonneg ids). unfold Sql.next_rowid. lia. Qed.

Section FindByKey.
Context {A : Type} (key : A -> Z).

Lemma find_none_iff (id : Z) (l : list A) :
  List.find (fun a => key a =? id) l = None <-> ~ In id (List.map key l).
Proof.
  induction l as [|a l IH]; simpl; [tauto|].
  destruct (Z.eqb_spec (key a) id) as [Heq|Hne].
  - split; [discriminate | intros H; exfalso; apply H; now left].
  - rewrite IH. tauto.
Qed.

Lemma find_some_key (id : Z) (l : list A) (a : A) :
  List.find (fun a => key a =? id) l = Some a -> key a = id /\ In a l.
Proof.
  intros H. apply find_some in H as [Hin Hk]. apply Z.eqb_eq in Hk. tauto.
Qed.

(** SELECT ... WHERE id = ? right after the insert finds the new row. *)
Lemma find_inserted (id : Z) (l : list A) (row : A) :
  key row = id -> (forall x, In x (List.map key l) -> x < id) ->
  List.find (fun a => key a =? id) (l ++ [row]) = Some row.
Proof.
  intros Hk Hlt. induction l as [|a l IH]; simpl.
  - rewrite Hk, Z.eqb_refl. reflexivity.
  - destruct (Z.eqb_spec (key a) id) as [Heq|Hne].
    + exfalso. specialize (Hlt (key a)). simpl in Hlt. lia.
    + apply IH. intros x Hx. apply Hlt. now right.
Qed.

Lemma filter_inserted (id : Z) (l : list A) (row : A) :
  key row = id -> (forall x, In x (List.map key l) -> x < id) ->
  List.filter (fun a => key a =? id) (l ++ [row]) = [row].
Proof.
  intros Hk Hlt. induction l as [|a l IH]; simpl.
  - rewrite Hk, Z.eqb_refl. reflexivity.
  - destruct (Z.eqb_spec (key a) id) as [Heq|Hne].
    + exfalso. specialize (Hlt (key a)). simpl in Hlt. lia.
    + apply IH. intros x Hx. apply Hlt. now right.
Qed.
End FindByKey.

(** ORDER BY returns the rows it was given. *)
Lemma order_by_asc_In {A} (key : A -> Z) (l : list A) (x : A) :
  In x (Sql.order_by_asc key l) <-> In x l.
Proof.
  unfold Sql.order_by_asc. rewrite <- !list_elem_of_In.
  now rewrite merge_sort_Permutation.
Qed.

Lemma order_by_desc_In {A} (key : A -> Z) (l : list A) (x : A) :
  In x (Sql.order_by_desc key l) <-> In x l.
Proof.
  unfold Sql.order_by_desc. rewrite <- !list_elem_of_In.
  now rewrite merge_sort_Permutation.
Qed.

(** [errorHandler] on the messages the services throw. *)
Lemma errorHandler_required :
  errorHandler "Title, description, and category are required"
  = json 400 false PNull "Title, description, and category are required".
Proof. reflexivity. Qed.

Lemma errorHandler_unique :
  errorHandler (Sql.unique_failed "tickets.ticket_number")
  = json 500 false PNull "Internal server error".
Proof. reflexivity. Qed.

(** ** Appending *)

Lemma append_cons (x : ascii) (a b : string) : String x a +:+ b = String x (a +:+ b).
Proof. reflexivity. Qed.

Lemma append_nil_l (a : string) : "" +:+ a = a.
Proof. reflexivity. Qed.

Lemma append_assoc (a b c : string) : (a +:+ b) +:+ c = a +:+ (b +:+ c).
Proof.
  induction a as [|x a IH]; [reflexivity|]. now rewrite !append_cons, IH.
Qed.

Lemma append_nil_r (a : string) : a +:+ "" = a.
Proof.
  induction a as [|x a IH]; [reflexivity|]. now rewrite append_cons, IH.
Qed.

Lemma append_length (a b : string) :
  String.length (a +:+ b) = (String.length a + String.length b)%nat.
Proof.
  induction a as [|x a IH]; [reflexivity|]. rewrite append_cons. simpl. now rewrite IH.
Qed.

(** ** White space *)

Lemma strip_spec (w s r : string) : strip w s = Some r <-> s = w +:+ r.
Proof.
  revert s. induction w as [|a w IH]; intros s.
  - simpl. rewrite append_nil_l. split; [now intros [= ->] | now intros ->].
  - rewrite append_cons. destruct s as [|b s]; simpl.
    + split; discriminate.
    + destruct (Ascii.eqb a b) eqn:Hab.
      * apply Ascii.eqb_eq in Hab. subst b. rewrite IH.
        split; [now intros -> | now intros [= ->]].
      * apply Ascii.eqb_neq in Hab. split; [discriminate|]. intros [= -> _]. congruence.
Qed.

Lemma strip_any_inv (ws : list string) (s r : string) :
  strip_any ws s = Some r -> exists w, In w ws /\ s = w +:+ r.
Proof.
  induction ws as [|w ws IH]; simpl; [discriminate|].
  destruct (strip w s) as [r'|] eqn:Hw.
  - intros [= ->]. exists w. split; [now left | now apply strip_spec].
  - intros H. destruct (IH H) as (w' & Hin & Hs). exists w'. split; [now right | exact Hs].
Qed.

(** No white-space character is the start of another one. *)
Lemma skip_space_word (w r : string) :
  In w white_space -> skip_space (w +:+ r) = Some r.
Proof.
  intros Hin. cbv in Hin.
  repeat (destruct Hin as [<-|Hin]; [reflexivity|]). contradiction.
Qed.

Lemma skip_space_spec (s r : string) :
  skip_space s = Some r <-> exists w, In w white_space /\ s = w +:+ r.
Proof.
  split.
  - apply strip_any_inv.
  - intros (w & Hin & ->). now apply skip_space_word.
Qed.

Lemma white_space_nonempty (w : string) : In w white_space -> w <> "".
Proof.
  intros Hin. cbv in Hin.
  repeat (destruct Hin as [<-|Hin]; [discriminate|]). contradiction.
Qed.

Lemma skip_space_shorter (s r : string) :
  skip_space s = Some r -> (String.length r < String.length s)%nat.
Proof.
  intros H. apply skip_space_spec in H as (w & Hin & ->).
  rewrite append_length. pose proof (white_space_nonempty w Hin) as Hw.
  destruct w; [contradiction | simpl; lia].
Qed.

Lemma skip_space_prefix (u v : string) :
  skip_space (u +:+ v) = None -> skip_space u = None.
Proof.
  intros H. destruct (skip_space u) as [r|] eqn:Hu; [|reflexivity].
  apply skip_space_spec in Hu as (w & Hin & ->).
  rewrite append_assoc, (skip_space_word w _ Hin) in H. discriminate.
Qed.

(** ** Trimming *)

Lemma trimStart_go_fuel (n m : nat) (s : string) :
  (String.length s <= n)%nat -> (String.length s <= m)%nat ->
  trimStart_go n s = trimStart_go m s.
Proof.
  revert m s. induction n as [|n IH]; intros m s Hn Hm.
  - destruct s; [|simpl in Hn; lia]. destruct m; reflexivity.
  - destruct m as [|m].
    + destruct s; [reflexivity | simpl in Hm; lia].
    + simpl. destruct (skip_space s) as [r|] eqn:Hr; [|reflexivity].
      apply skip_space_shorter in Hr. apply IH; lia.
Qed.

Lemma trimStart_step (s : string) :
  trimStart s = match skip_space s with
                | Some r => trimStart r
                | None => s
                end.
Proof.
  unfold trimStart. destruct s as [|c s]; [reflexivity|].
  simpl String.length. cbn [trimStart_go].
  destruct (skip_space (String c s)) as [r|] eqn:Hr; [|reflexivity].
  apply skip_space_shorter in Hr. simpl in Hr. apply trimStart_go_fuel; lia.
Qed.

Lemma trimStart_split (s : string) :
  exists a, s = a +:+ trimStart s /\ spaces a /\ skip_space (trimStart s) = None.
Proof.
  remember (String.length s) as n eqn:Hn.
  assert (String.length s <= n)%nat as Hle by lia. clear Hn.
  revert s Hle. induction n as [|n IH]; intros s Hle.
  - destruct s; [|simpl in Hle; lia]. exists "". repeat split. constructor.
  - rewrite trimStart_step. destruct (skip_space s) as [r|] eqn:Hr.
    + pose proof (skip_space_shorter _ _ Hr) as Hlt.
      apply skip_space_spec in Hr as (w & Hin & ->).
      destruct (IH r ltac:(lia)) as (a & Ha & Hsp & Hnone).
      exists (w +:+ a). split; [|split].
      * rewrite append_assoc. now rewrite <- Ha.
      * now constructor.
      * exact Hnone.
    + exists "". repeat split; [constructor | exact Hr].
Qed.

Lemma trimStart_spaces (a t : string) :
  spaces a -> skip_space t = None -> trimStart (a +:+ t) = t.
Proof.
  intros Ha Ht. induction Ha as [|w r Hin Hr IH].
  - rewrite append_nil_l, trimStart_step. now rewrite Ht.
  - rewrite append_assoc, trimStart_step, (skip_space_word w _ Hin). exact IH.
Qed.

Lemma all_space_spec (s : string) : all_space s = true <-> spaces s.
Proof.
  unfold all_space. rewrite String.eqb_eq. split.
  - intros H. destruct (trimStart_split s) as (a & Ha & Hsp & _).
    rewrite H, append_nil_r in Ha. now subst.
  - intros H. rewrite <- (append_nil_r s). now apply trimStart_spaces.
Qed.

Lemma spaces_app (a b : string) : spaces a -> spaces b -> spaces (a +:+ b).
Proof.
  intros Ha Hb. induction Ha as [|w r Hin Hr IH]; [exact Hb|].
  rewrite append_assoc. now constructor.
Qed.

Lemma trimEnd_split (s : string) : exists v, s = trimEnd s +:+ v /\ spaces v.
Proof.
  induction s as [|c s (v & Hv & Hsp)].
  - exists "". split; [reflexivity | constructor].
  - cbn [trimEnd]. destruct (all_space (String c s)) eqn:Hall.
    + exists (String c s). split; [reflexivity | now apply all_space_spec].
    + exists v. split; [|exact Hsp]. rewrite append_cons. now rewrite <- Hv.
Qed.

Lemma trimEnd_idem (s : string) : trimEnd (trimEnd s) = trimEnd s.
Proof.
  induction s as [|c s IH]; [reflexivity|].
  cbn [trimEnd]. destruct (all_space (String c s)) eqn:Hall; [reflexivity|].
  cbn [trimEnd]. rewrite IH.
  destruct (all_space (String c (trimEnd s))) eqn:Hall'; [|reflexivity].
  destruct (trimEnd_split s) as (v & Hv & Hsp).
  apply all_space_spec in Hall'.
  pose proof (spaces_app _ _ Hall' Hsp) as H.
  rewrite append_cons, <- Hv in H. apply all_space_spec in H. congruence.
Qed.

Lemma trim_idem (s : string) : trim (trim s) = trim s.
Proof.
  unfold trim. destruct (trimStart_split s) as (_ & _ & _ & Hnone).
  destruct (trimEnd_split (trimStart s)) as (v & Hv & _).
  rewrite Hv in Hnone. apply skip_space_prefix in Hnone.
  rewrite (trimStart_step (trimEnd (trimStart s))), Hnone.
  apply trimEnd_idem.
Qed.

(** [trim] strips the no-break space (U+00A0), the byte order mark and the
    line separator as it strips the blank, and leaves a Cyrillic letter
    whose second byte is that of the no-break space; a message of one
    no-break space is blank. [length] counts an accented letter once and a
    character outside the basic plane twice, and [_] in a LIKE pattern
    stands for one character, of however many bytes. *)
Lemma string_samples :
  trim (" a" +:+ utf8 [194; 160]) = "a" /\
  trim (utf8 [194; 160]) = "" /\
  trim (utf8 [239; 187; 191; 226; 128; 168; 9]) = "" /\
  trim (utf8 [208; 160]) = utf8 [208; 160] /\
  TicketController.message_invalid (JStr (utf8 [194; 160])) = true /\
  js_length (utf8 [195; 169; 195; 169; 195; 169]) = 3%nat /\
  js_length (utf8 [240; 159; 152; 128]) = 2%nat /\
  Sql.like "_x" (utf8 [195; 169; 120]) = true /\
  Sql.like "__x" (utf8 [195; 169; 120]) = false /\
  Sql.like "%_%" (utf8 [226; 130; 172]) = true /\
  Sql.like "%__%" (utf8 [226; 130; 172]) = false.
Proof. repeat split. Qed.

(** ** Ticket creation and ticket numbers *)




Lemma getTicketById_inserted (d : Db) (row : Ticket) :
  t_id row = Sql.next_rowid (seq_tickets d) (List.map t_id (tickets d)) ->
  TicketService.getTicketById (t_id row) (with_ticket d row) = Some row.
Proof.
  intros Hid. unfold TicketService.getTicketById, with_ticket. simpl.
  apply find_inserted; [reflexivity|].
  intros x Hx. rewrite Hid. now apply next_rowid_fresh.
Qed.

(** What a create that does not throw has done. *)
Lemma createTicket_Ok (e : Env) (userId : Z) (ticketData : TicketService.TicketCreate)
    (d d' : Db) (o : option Ticket) :
  TicketService.createTicket e userId ticketData d = (Ok o, d') ->
  o = Some (created_row e userId ticketData d) /\
  d' = with_ticket d (created_row e userId ticketData d) /\
  ~ In (helpers.generateTicketNumber e) (List.map t_ticket_number (tickets d)).
Proof.
  unfold TicketService.createTicket.
  destruct (_ || _ || _); [run; discriminate|].
  unfold bind, Sql.insert_ticket.
  destruct (negb (Sql.mem_str _ Sql.categories)); [discriminate|].
  destruct (negb (Sql.check_in _ Sql.priorities)); [discriminate|].
  destruct (Sql.mem_str _ (List.map t_ticket_number _)) eqn:Hu; [discriminate|].
  destruct (negb (Sql.mem_Z _ _)); [discriminate|].
  unfold get, ret. intros H. injection H as <- <-.
  split; [|split].
  - apply (getTicketById_inserted d (created_row e userId ticketData d)). reflexivity.
  - reflexivity.
  - intros Hin. apply mem_str_In in Hin. congruence.
Qed.

(** A create that throws has written nothing. *)
Lemma createTicket_Throw (e : Env) (userId : Z) (ticketData : TicketService.TicketCreate)
    (d d' : Db) (msg : string) :
  TicketService.createTicket e userId ticketData d = (Throw msg, d') -> d' = d.
Proof.
  unfold TicketService.createTicket.
  destruct (_ || _ || _); [run; congruence|].
  unfold bind, Sql.insert_ticket.
  destruct (negb (Sql.mem_str _ Sql.categories)); [congruence|].
  destruct (negb (Sql.check_in _ Sql.priorities)); [congruence|].
  destruct (Sql.mem_str _ (List.map t_ticket_number _)); [congruence|].
  destruct (negb (Sql.mem_Z _ _)); [congruence|].
  unfold get, ret. discriminate.
Qed.

Lemma category_present (c : option string) :
  In (default "" c) Sql.categories -> TicketService.absent_or_empty c = false.
Proof.
  destruct c as [s|]; simpl.
  - intros H. destruct (String.eqb_spec s ""); [subst; simpl in H|reflexivity].
    repeat (destruct H as [H|H]; [discriminate|]). contradiction.
  - intros H. repeat (destruct H as [H|H]; [discriminate|]). contradiction.
Qed.

Lemma createTicket_succeeds (e : Env) (userId : Z) (ticketData : TicketService.TicketCreate)
    (d : Db) :
  creatable e userId ticketData d ->
  TicketService.createTicket e userId ticketData d
  = (Ok (Some (created_row e userId ticketData d)),
     with_ticket d (created_row e userId ticketData d)).
Proof.
  intros (Ht & Hd & Hc & Hp & Hn & Hu).
  pose proof (category_present _ Hc) as Hc'.
  unfold TicketService.createTicket. rewrite Ht, Hd, Hc'. simpl.
  unfold bind, Sql.insert_ticket.
  apply mem_str_In in Hc. apply check_in_spec in Hp. apply mem_Z_In in Hu.
  rewrite Hc, Hp, Hu. simpl.
  destruct (Sql.mem_str _ (List.map t_ticket_number _)) eqn:Hm.
  { apply mem_str_In in Hm. contradiction. }
  unfold get, ret. f_equal. f_equal.
  apply (getTicketById_inserted d (created_row e userId ticketData d)). reflexivity.
Qed.


Lemma errorHandler_not_201 (msg : string) : status (errorHandler msg) <> 201.
Proof.
  unfold errorHandler.
  repeat match goal with |- context [if ?c then _ else _] => destruct c end;
    simpl; lia.
Qed.

(** C8. Every create that succeeds returns a ticket with status [open],
    no assignee, and priority [medium] when the request gave none, and a
    create whose requirements hold does succeed; a create whose title,
    description or category is absent is answered with the validation
    error (400, "... are required") and stores nothing. *)
Theorem C8_create_postcondition (e : Env) (u : AuthUser)
    (body : TicketController.CreateBody) (w : World) :
  (forall r w', TicketController.createTicket e (Some u) body w = (r, w') ->
     status r = 201 ->
     exists t, data r = PTicket t /\ t_status t = Some "open" /\
               t_assigned_to t = None /\
               (TicketController.b_priority body = None -> t_priority t = Some "medium") /\
               tickets (db w') = tickets (db w) ++ [t]) /\
  (creatable e (userId u) (ticket_create_of body) (db w) ->
     exists t w', TicketController.createTicket e (Some u) body w
                  = (json 201 true (PTicket t) "Ticket created successfully", w')) /\
  (TicketController.b_title body = None \/ TicketController.b_description body = None
   \/ TicketController.b_category body = None ->
     TicketController.createTicket e (Some u) body w
     = (json 400 false PNull "Title, description, and category are required", w)).
Proof.
  unfold TicketController.createTicket, handle, bind, liftDb.
  fold (ticket_create_of body).
  split; [|split].
  - intros r w'.
    destruct (TicketService.createTicket e (userId u) (ticket_create_of body) (db w))
      as [[o|msg] d1] eqn:Hc.
    + apply createTicket_Ok in Hc as (-> & -> & _).
      unfold ret. intros H _. injection H as <- <-. simpl.
      eexists. split; [reflexivity|]. repeat split.
      intros Hp. unfold ticket_create_of. simpl. now rewrite Hp.
    + intros H Hs. injection H as <- <-. now apply errorHandler_not_201 in Hs.
  - intros Hok. rewrite (createTicket_succeeds _ _ _ _ Hok). unfold ret. simpl. eauto.
  - intros Habs. unfold TicketService.createTicket. simpl.
    assert (TicketService.absent_or_empty (TicketController.b_title body)
            || TicketService.absent_or_empty (TicketController.b_description body)
            || TicketService.absent_or_empty (TicketController.b_category body) = true)
      as ->.
    { destruct Habs as [-> | [-> | ->]]; simpl; rewrite ?orb_true_r; reflexivity. }
    unfold throw. simpl. destruct w; reflexivity.
Qed.

Lemma C8_create_postcondition_witness :
  (exists t w', TicketController.createTicket Sample.env0 (Some Sample.alice)
                  Sample.printer Sample.w0
                = (json 201 true (PTicket t) "Ticket created successfully", w')) /\
  TicketController.createTicket Sample.env0 (Some Sample.alice) Sample.no_title Sample.w0
  = (json 400 false PNull "Title, description, and category are required", Sample.w0).
Proof.
  split.
  - apply (C8_create_postcondition Sample.env0 Sample.alice Sample.printer Sample.w0).
    unfold creatable; simpl. intuition congruence.
  - apply (C8_create_postcondition Sample.env0 Sample.alice Sample.no_title Sample.w0).
    left. reflexivity.
Defined.

(** ** The message thread *)

Lemma Boolean_of_stored (b : bool) : Boolean (JNum (if b then 1 else 0)) = b.
Proof. destruct b; reflexivity. Qed.

Lemma to_message_fields (m : MessageRow) (u : UserRow) :
  tm_id (TicketService.to_message (m, u)) = m_id m /\
  tm_ticket_id (TicketService.to_message (m, u)) = m_ticket_id m /\
  tm_is_internal (TicketService.to_message (m, u)) = negb (m_is_internal m =? 0).
Proof. repeat split. Qed.

Lemma join_users_In (ms : list MessageRow) (us : list UserRow) (m : MessageRow)
    (u : UserRow) :
  In (m, u) (TicketService.join_users ms us) <->
  In m ms /\ In u us /\ u_id u = m_user_id m.
Proof.
  unfold TicketService.join_users. rewrite in_flat_map. split.
  - intros (m' & Hm & Hin). apply in_map_iff in Hin as (u' & Heq & Hu).
    injection Heq as -> ->. apply filter_In in Hu as [Hu Hid].
    apply Z.eqb_eq in Hid. tauto.
  - intros (Hm & Hu & Hid). exists m. split; [assumption|].
    apply in_map. apply filter_In. split; [assumption | now apply Z.eqb_eq].
Qed.

(** What a reader of the thread gets: the joined rows of the ticket, each
    with its stored flag turned into a boolean. *)
Lemma getTicketMessages_In (ticketId : Z) (d : Db) (v : TicketMessage) :
  In v (TicketService.getTicketMessages ticketId d) <->
  exists m u, v = TicketService.to_message (m, u) /\ In m (ticket_messages d) /\
              m_ticket_id m = ticketId /\ In u (users d) /\ u_id u = m_user_id m.
Proof.
  unfold TicketService.getTicketMessages. rewrite in_map_iff. split.
  - intros ([m u] & <- & Hin). apply order_by_asc_In in Hin.
    apply join_users_In in Hin as (Hm & Hu & Hid).
    apply filter_In in Hm as [Hm Ht]. apply Z.eqb_eq in Ht.
    exists m, u. tauto.
  - intros (m & u & -> & Hm & Ht & Hu & Hid). exists (m, u). split; [reflexivity|].
    apply order_by_asc_In. apply join_users_In. split; [|tauto].
    apply filter_In. split; [assumption | now apply Z.eqb_eq].
Qed.

Lemma getMessageById_Some (id : Z) (d : Db) (v : TicketMessage) :
  TicketService.getMessageById id d = Some v ->
  exists m u, v = TicketService.to_message (m, u) /\ In m (ticket_messages d) /\
              m_id m = id /\ In u (users d) /\ u_id u = m_user_id m.
Proof.
  unfold TicketService.getMessageById.
  destruct (TicketService.join_users _ _) as [|[m u] l] eqn:Hj; [discriminate|].
  intros H. injection H as <-.
  assert (In (m, u) (TicketService.join_users
            (List.filter (fun m => m_id m =? id) (ticket_messages d)) (users d))) as Hin
    by (rewrite Hj; now left).
  apply join_users_In in Hin as (Hm & Hu & Hid).
  apply filter_In in Hm as [Hm Hk]. apply Z.eqb_eq in Hk.
  exists m, u. tauto.
Qed.

Lemma filter_user_nonempty (id : Z) (us : list UserRow) :
  In id (List.map u_id us) ->
  exists u l, List.filter (fun u => u_id u =? id) us = u :: l.
Proof.
  intros Hin. apply in_map_iff in Hin as (u & Hid & Hu).
  assert (In u (List.filter (fun u => u_id u =? id) us)) as H.
  { apply filter_In. split; [assumption | now apply Z.eqb_eq]. }
  destruct (List.filter _ us) as [|u' l]; [contradiction | eauto].
Qed.

Lemma getMessageById_inserted (d : Db) (row : MessageRow) :
  m_id row = Sql.next_rowid (seq_messages d) (List.map m_id (ticket_messages d)) ->
  In (m_user_id row) (List.map u_id (users d)) ->
  exists u, In u (users d) /\ u_id u = m_user_id row /\
    TicketService.getMessageById (m_id row) (with_message d row)
    = Some (TicketService.to_message (row, u)).
Proof.
  intros Hid Hu. unfold TicketService.getMessageById, with_message. simpl.
  rewrite (filter_inserted m_id (m_id row) (ticket_messages d) row eq_refl).
  2:{ intros x Hx. rewrite Hid. now apply next_rowid_fresh. }
  destruct (filter_user_nonempty _ _ Hu) as (u & l & Hf).
  assert (In u (List.filter (fun u => u_id u =? m_user_id row) (users d))) as Hin
    by (rewrite Hf; now left).
  apply filter_In in Hin as [Hin Hk]. apply Z.eqb_eq in Hk.
  exists u. split; [assumption|]. split; [assumption|].
  unfold TicketService.join_users. simpl. rewrite Hf. reflexivity.
Qed.

Lemma trim_nonempty (s : string) :
  trim s <> "" ->
  String.eqb s "" || (String.length (trim s) =? 0)%nat = false.
Proof.
  intros H. apply orb_false_iff. split.
  - apply String.eqb_neq. intros ->. now apply H.
  - destruct (trim s); [contradiction | reflexivity].
Qed.

Lemma getTicketById_Some_iff (id : Z) (d : Db) :
  In id (List.map t_id (tickets d)) <->
  exists t, TicketService.getTicketById id d = Some t.
Proof.
  unfold TicketService.getTicketById.
  pose proof (find_none_iff t_id id (tickets d)) as H.
  destruct (List.find _ (tickets d)) as [t|] eqn:Hf.
  - split; [eauto|]. intros _. apply find_some_key in Hf as [<- Hin].
    now apply in_map.
  - split; [intros Hin; exfalso; now apply H | intros [t Ht]; discriminate].
Qed.

Lemma addMessage_succeeds (e : Env) (ticketId userId : Z)
    (messageData : TicketService.TicketMessageCreate) (d : Db) :
  trim (TicketService.msg_message messageData) <> "" ->
  In ticketId (List.map t_id (tickets d)) ->
  In userId (List.map u_id (users d)) ->
  exists u, In u (users d) /\ u_id u = userId /\
    TicketService.addMessage e ticketId userId messageData d
    = (Ok (Some (TicketService.to_message
                   (appended_row e ticketId userId messageData d, u))),
       with_message d (appended_row e ticketId userId messageData d)).
Proof.
  intros Htrim Ht Hu.
  destruct (getMessageById_inserted d (appended_row e ticketId userId messageData d)
              eq_refl Hu) as (u & Hin & Hid & Hget).
  exists u. split; [assumption|]. split; [assumption|].
  rewrite <- Hget. clear Hget.
  unfold TicketService.addMessage. rewrite (trim_nonempty _ Htrim).
  unfold bind, get.
  pose proof (proj2 (mem_Z_In _ _) Ht) as Hmt.
  apply getTicketById_Some_iff in Ht as [t ->].
  unfold Sql.insert_message.
  apply mem_Z_In in Hu. rewrite Hu, Hmt.
  reflexivity.
Qed.

(** ** The account's active flag *)

Lemma find_updated {A : Type} (key : A -> Z) (f : A -> A) (id : Z) (l : list A) :
  (forall a, key (f a) = key a) ->
  List.find (fun a => key a =? id)
    (List.map (fun a => if key a =? id then f a else a) l)
  = option_map f (List.find (fun a => key a =? id) l).
Proof.
  intros Hk. induction l as [|a l IH]; simpl; [reflexivity|].
  destruct (Z.eqb_spec (key a) id) as [Heq|Hne].
  - rewrite Hk. destruct (Z.eqb_spec (key a) id); [reflexivity | contradiction].
  - destruct (Z.eqb_spec (key a) id); [contradiction | exact IH].
Qed.

Lemma apply_update_flag (e : Env) (v : jsval) (u : UserRow) :
  v <> JUndefined ->
  u_is_active (UserService.apply_update e (set_active v) u) = stored_flag v /\
  u_id (UserService.apply_update e (set_active v) u) = u_id u.
Proof. intros Hv. destruct v; try contradiction; split; reflexivity. Qed.

(** Setting the flag: the stored column becomes 1 or 0 and the user object
    returned carries the boolean. *)
Lemma updateUser_set_active (e : Env) (id : Z) (v : jsval) (d : Db) (row : UserRow) :
  v <> JUndefined ->
  List.find (fun u => u_id u =? id) (users d) = Some row ->
  let row' := UserService.apply_update e (set_active v) row in
  let d' := mkDb (List.map (fun u => if u_id u =? id
                                     then UserService.apply_update e (set_active v) u
                                     else u) (users d))
                 (tickets d) (ticket_messages d) (attachments d)
                 (seq_users d) (seq_tickets d) (seq_messages d) (seq_attachments d) in
  UserService.updateUser e id (set_active v) d = (Ok (Some (UserService.to_user row')), d')
  /\ UserService.getUserById id d' = Some (UserService.to_user row')
  /\ usr_is_active (UserService.to_user row') = truthy v.
Proof.
  intros Hv Hfind row' d'.
  assert (UserService.getUserById id d' = Some (UserService.to_user row')) as Hget.
  { unfold UserService.getUserById, d'. simpl.
    rewrite (find_updated u_id (UserService.apply_update e (set_active v)) id (users d)).
    - rewrite Hfind. reflexivity.
    - intros a. reflexivity. }
  split; [|split; [exact Hget|]].
  - rewrite <- Hget.
    unfold UserService.updateUser, bind, get. unfold UserService.getUserById at 1.
    rewrite Hfind. simpl.
    destruct v; try contradiction; reflexivity.
  - unfold row'. change (usr_is_active (UserService.to_user ?u))
      with (Boolean (JNum (u_is_active u))).
    destruct (apply_update_flag e v row Hv) as [-> _].
    unfold stored_flag. apply Boolean_of_stored.
Qed.

Lemma to_user_flag (u : UserRow) :
  usr_is_active (UserService.to_user u) = negb (u_is_active u =? 0) /\
  usr_id (UserService.to_user u) = u_id u.
Proof. split; reflexivity. Qed.

Lemma getAllUsers_In (d : Db) (v : User) :
  In v (UserService.getAllUsers d) <->
  exists u, In u (users d) /\ v = UserService.to_user u.
Proof.
  unfold UserService.getAllUsers. rewrite in_map_iff. split.
  - intros (u & <- & Hin). apply order_by_desc_In in Hin. eauto.
  - intros (u & Hin & ->). exists u. split; [reflexivity|]. now apply order_by_desc_In.
Qed.

Lemma AuthService_getUserById_flag (id : Z) (d : Db) (v : User) :
  AuthService.getUserById id d = Some v ->
  exists u, In u (users d) /\ u_id u = id /\
            usr_is_active v = negb (u_is_active u =? 0).
Proof.
  unfold AuthService.getUserById.
  destruct (List.find _ (users d)) as [u|] eqn:Hf; [|discriminate].
  intros H. injection H as <-. apply find_some in Hf as [Hin Hk].
  apply andb_true_iff in Hk as [Hk _]. apply Z.eqb_eq in Hk.
  exists u. repeat split; assumption.
Qed.

Lemma stored_flag_read (v : jsval) : negb (stored_flag v =? 0) = truthy v.
Proof. unfold stored_flag. destruct (truthy v); reflexivity. Qed.

Lemma updated_rows_flag (e : Env) (id : Z) (v : jsval) (us : list UserRow) (row : UserRow) :
  v <> JUndefined ->
  In row (List.map (fun u => if u_id u =? id
                             then UserService.apply_update e (set_active v) u
                             else u) us) ->
  u_id row = id -> u_is_active row = stored_flag v.
Proof.
  intros Hv Hin Hid. apply in_map_iff in Hin as (u0 & Heq & _).
  destruct (Z.eqb_spec (u_id u0) id) as [Hk|Hk].
  - subst row. now apply apply_update_flag.
  - subst row. contradiction.
Qed.

Lemma searchUsers_In (query : string) (d : Db) (v : User) :
  In v (UserService.searchUsers query d) ->
  exists u, In u (users d) /\ v = UserService.to_user u.
Proof.
  unfold UserService.searchUsers. rewrite in_map_iff.
  intros (u & <- & Hin). apply order_by_desc_In in Hin.
  apply filter_In in Hin as [Hin _]. eauto.
Qed.

Lemma login_flag (compare : string -> string -> bool)
    (credentials : AuthService.UserLogin) (d : Db) (v : User) (token : AuthUser) :
  AuthService.login compare credentials d = Ok (v, token) ->
  exists u, In u (users d) /\ usr_id v = u_id u /\
            usr_is_active v = negb (u_is_active u =? 0).
Proof.
  unfold AuthService.login.
  destruct (_ || _); [discriminate|].
  destruct (List.find _ (users d)) as [u|] eqn:Hf; [|discriminate].
  destruct (negb _); [discriminate|].
  intros H. injection H as <- _. apply find_some in Hf as [Hin _].
  exists u. repeat split. assumption.
Qed.

(** A new account is stored with the flag 1 and returned as active. *)
Lemma createUser_active (e : Env) (userData : UserService.UserCreate)
    (password_hash : string) (d d' : Db) (o : option User) :
  UserService.createUser e userData password_hash d = (Ok o, d') ->
  exists u row, o = Some u /\ users d' = users d ++ [row] /\
                u_is_active row = 1 /\ usr_id u = u_id row /\ usr_is_active u = true.
Proof.
  unfold UserService.createUser.
  destruct (_ || _ || _); [discriminate|].
  destruct (negb (helpers.validateEmail _)); [discriminate|].
  destruct (_ <? 6)%nat; [discriminate|].
  destruct (negb (Sql.mem_str _ ["user"; "admin"])); [discriminate|].
  unfold bind, get.
  destruct (Sql.mem_str _ (List.map u_email (users d))) eqn:Hmail; [discriminate|].
  unfold Sql.insert_user. rewrite Hmail.
  destruct (negb (Sql.mem_str _ Sql.roles)); [discriminate|].
  unfold ret. intros H. injection H as <- <-.
  set (row := mkUserRow (Sql.next_rowid (seq_users d) (List.map u_id (users d)))
                (default "" (UserService.uc_name userData))
                (default "" (UserService.uc_email userData)) password_hash
                (default "user" (UserService.uc_role userData)) 1 (now e) (now e)).
  assert (List.find (fun u => u_id u =? u_id row) (users d ++ [row]) = Some row) as Hfind.
  { apply find_inserted; [reflexivity|].
    intros x Hx. simpl. now apply next_rowid_fresh. }
  exists (UserService.to_user row), row.
  split; [|repeat split].
  unfold UserService.getUserById.
  change (List.find (fun u => u_id u =? u_id row) (users d ++ [row])) with
    (List.find (fun u => u_id u =? Sql.next_rowid (seq_users d) (List.map u_id (users d)))
       (users d ++ [row])) in Hfind.
  simpl users. fold row. rewrite Hfind. reflexivity.
Qed.

(** The readers that convert. Appending a message stores the visibility
    flag as the integer 1 (internal) or 0 (public); [getMessageById] and
    [getTicketMessages] turn the stored integer back into a boolean, so the
    appended message reads back with the boolean resolved at append time.
    The account's active flag is written as 1 or 0 by [updateUser] (and as
    1 by [createUser]), and [getUserById], [getAllUsers], [searchUsers],
    [AuthService.getUserById] and [login] read it back as that boolean.
    [AuthService.register] is not among them. *)
Lemma boolean_round_trip (e : Env) (d : Db) (ticketId userId : Z)
    (messageData : TicketService.TicketMessageCreate) (accountId : Z) (active : jsval) :
  let b := truthy (with_default (JBool false) (TicketService.msg_is_internal messageData)) in
  (trim (TicketService.msg_message messageData) <> "" ->
   In ticketId (List.map t_id (tickets d)) ->
   In userId (List.map u_id (users d)) ->
   exists m row d',
     TicketService.addMessage e ticketId userId messageData d = (Ok (Some m), d') /\
     ticket_messages d' = ticket_messages d ++ [row] /\
     m_is_internal row = (if b then 1 else 0) /\
     tm_id m = m_id row /\
     tm_is_internal m = b /\
     TicketService.getMessageById (m_id row) d' = Some m /\
     In m (TicketService.getTicketMessages ticketId d') /\
     (forall v, In v (TicketService.getTicketMessages ticketId d') ->
                tm_id v = m_id row -> tm_is_internal v = b)) /\
  (forall id v, TicketService.getMessageById id d = Some v ->
     exists row, In row (ticket_messages d) /\ m_id row = id /\
                 tm_is_internal v = negb (m_is_internal row =? 0)) /\
  (forall tid v, In v (TicketService.getTicketMessages tid d) ->
     exists row, In row (ticket_messages d) /\ m_id row = tm_id v /\
                 m_ticket_id row = tid /\
                 tm_is_internal v = negb (m_is_internal row =? 0)) /\
  (active <> JUndefined ->
   In accountId (List.map u_id (users d)) ->
   exists u d',
     UserService.updateUser e accountId (set_active active) d = (Ok (Some u), d') /\
     usr_is_active u = truthy active /\
     (forall row, In row (users d') -> u_id row = accountId ->
                  u_is_active row = if truthy active then 1 else 0) /\
     UserService.getUserById accountId d' = Some u /\
     (forall v, In v (UserService.getAllUsers d') -> usr_id v = accountId ->
                usr_is_active v = truthy active) /\
     (forall query v, In v (UserService.searchUsers query d') -> usr_id v = accountId ->
                      usr_is_active v = truthy active) /\
     (forall v, AuthService.getUserById accountId d' = Some v ->
                usr_is_active v = truthy active) /\
     (forall compare credentials v token,
        AuthService.login compare credentials d' = Ok (v, token) ->
        usr_id v = accountId -> usr_is_active v = truthy active)) /\
  (forall userData password_hash o d',
     UserService.createUser e userData password_hash d = (Ok o, d') ->
     exists u row, o = Some u /\ users d' = users d ++ [row] /\
                   u_is_active row = 1 /\ usr_id u = u_id row /\ usr_is_active u = true).
Proof.
  intros b. split; [|split; [|split; [|split]]].
  - intros Htrim Ht Hu.
    destruct (addMessage_succeeds e ticketId userId messageData d Htrim Ht Hu)
      as (u & Hin & Hid & Hadd).
    destruct (getMessageById_inserted d (appended_row e ticketId userId messageData d)
                eq_refl Hu) as (u' & _ & _ & Hget).
    set (row := appended_row e ticketId userId messageData d) in *.
    assert (tm_is_internal (TicketService.to_message (row, u)) = b) as Hb.
    { unfold row, appended_row. simpl. fold b. apply Boolean_of_stored. }
    exists (TicketService.to_message (row, u)), row, (with_message d row).
    split; [exact Hadd|]. split; [reflexivity|]. split; [reflexivity|].
    split; [reflexivity|]. split; [exact Hb|]. split.
    { unfold TicketService.addMessage in Hadd.
      rewrite (trim_nonempty _ Htrim) in Hadd. unfold bind, get in Hadd.
      pose proof (proj2 (mem_Z_In _ _) Ht) as Hmt.
      pose proof (proj2 (mem_Z_In _ _) Hu) as Hmu.
      apply getTicketById_Some_iff in Ht as [t Htk]. rewrite Htk in Hadd.
      unfold Sql.insert_message in Hadd. rewrite Hmt, Hmu in Hadd. simpl in Hadd.
      unfold ret in Hadd. injection Hadd as Hadd. exact Hadd. }
    split.
    { apply getTicketMessages_In. exists row, u. repeat split; try assumption.
      simpl. rewrite in_app_iff. right. now left. }
    intros v Hv Hvid. apply getTicketMessages_In in Hv as (m' & w' & -> & Hm' & _ & _ & _).
    simpl in Hm'. rewrite in_app_iff in Hm'. destruct Hm' as [Hold|[<-|[]]].
    + exfalso. simpl in Hvid.
      pose proof (next_rowid_fresh (seq_messages d) (List.map m_id (ticket_messages d))
                    (m_id m') (in_map m_id _ _ Hold)) as Hlt.
      unfold row, appended_row in Hvid. simpl in Hvid. lia.
    + unfold row, appended_row. simpl. fold b. apply Boolean_of_stored.
  - intros id v Hget. apply getMessageById_Some in Hget as (m & u & -> & Hm & Hid & _).
    exists m. repeat split; assumption.
  - intros tid v Hin. apply getTicketMessages_In in Hin as (m & u & -> & Hm & Ht & _).
    exists m. repeat split; assumption.
  - intros Hv Hacc.
    destruct (List.find (fun u => u_id u =? accountId) (users d)) as [row|] eqn:Hfind.
    2:{ exfalso. now apply (find_none_iff u_id accountId (users d)) in Hfind. }
    destruct (updateUser_set_active e accountId active d row Hv Hfind)
      as (Hupd & Hget & Hflag).
    pose proof (updated_rows_flag e accountId active (users d)) as Hrows.
    eexists. eexists. split; [exact Hupd|]. split; [exact Hflag|].
    split; [intros r Hr Hid; simpl in Hr; now apply Hrows|].
    split; [exact Hget|].
    assert (forall u, In u (List.map (fun u => if u_id u =? accountId
                                         then UserService.apply_update e (set_active active) u
                                         else u) (users d)) ->
                      u_id u = accountId ->
                      negb (u_is_active u =? 0) = truthy active) as Hread.
    { intros u Hu Hid. rewrite (Hrows u Hv Hu Hid). apply stored_flag_read. }
    split; [|split; [|split]].
    + intros v Hin Hid. apply getAllUsers_In in Hin as (u & Hu & ->).
      now apply Hread.
    + intros query v Hin Hid. apply searchUsers_In in Hin as (u & Hu & ->).
      now apply Hread.
    + intros v Hauth. apply AuthService_getUserById_flag in Hauth as (u & Hu & Hid & ->).
      now apply Hread.
    + intros compare credentials v token Hlogin Hid.
      apply login_flag in Hlogin as (u & Hu & Hvid & ->).
      apply Hread; [exact Hu | congruence].
  - intros userData password_hash o d'. apply createUser_active.
Qed.

Lemma boolean_round_trip_sample :
  (exists m d',
     TicketService.addMessage Sample.env0 1 1 SampleThread.note (db Sample.w1)
     = (Ok (Some m), d') /\ tm_is_internal m = true) /\
  (exists u d',
     UserService.updateUser Sample.env0 3 (set_active (JBool false)) (db Sample.w1)
     = (Ok (Some u), d') /\ usr_is_active u = false).
Proof.
  destruct (boolean_round_trip Sample.env0 (db Sample.w1) 1 1 SampleThread.note 3
              (JBool false)) as (Happend & _ & _ & Hflag & _).
  split.
  - destruct Happend as (m & row & d' & Hadd & _ & _ & _ & Hb & _).
    + intros H. vm_compute in H. discriminate H.
    + simpl. tauto.
    + simpl. tauto.
    + exists m, d'. split; [exact Hadd | exact Hb].
  - destruct Hflag as (u & d' & Hupd & Hb & _).
    + discriminate.
    + simpl. tauto.
    + exists u, d'. split; [exact Hupd | exact Hb].
Qed.

(** C1. One read path hands out the stored integer. [AuthService.register]
    reads the row it has just inserted with SELECT * and returns it through
    [sanitizeUser] alone, without the [Boolean(...)] that [login] and
    [getUserById] apply to the same column. Registering Carol in the sample
    store writes her row with the active flag 1 and returns her account
    with the flag as the number 1, not the boolean [true]; reading the same
    row by [getUserById] or by a login with her credentials gives [true]. *)
Theorem C1_register_returns_integer :
  exists r token d',
    AuthService.register Sample.env1 SampleRegistration.carol "hash4" (db Sample.w1)
    = (Ok (r, token), d') /\
    (exists row, In row (users d') /\ u_id row = AuthService.ru_id r /\
                 u_is_active row = 1) /\
    AuthService.ru_is_active r = JNum 1 /\
    AuthService.ru_is_active r <> JBool true /\
    (exists v, AuthService.getUserById (AuthService.ru_id r) d' = Some v /\
               usr_is_active v = true) /\
    (exists v, AuthService.login SampleRegistration.compare
                 (login_of SampleRegistration.carol) d' = Ok (v, token) /\
               usr_id v = AuthService.ru_id r /\ usr_is_active v = true).
Proof.
  destruct (AuthService.register Sample.env1 SampleRegistration.carol "hash4"
              (db Sample.w1)) as [[[r token]|msg] d'] eqn:Hrun;
    vm_compute in Hrun; [|discriminate Hrun].
  injection Hrun as <- <- <-.
  eexists _, _, _. split; [reflexivity|].
  split.
  { eexists. split; [do 3 right; left; reflexivity|]. split; reflexivity. }
  split; [reflexivity|]. split; [discriminate|].
  split; eexists; (split; [vm_compute; reflexivity|]); repeat split.
Qed.

(** ** Reading the thread *)

(** The thread endpoint filters: a member's answer holds no internal
    message, an administrator's answer is the whole thread. *)
Lemma getTicketMessages_member_filtered (u : AuthUser) (ticketId : Z) (w : World)
    (ticket : Ticket) :
  is_admin u = false ->
  TicketService.getTicketById ticketId (db w) = Some ticket ->
  t_user_id ticket = userId u ->
  exists l,
    TicketController.getTicketMessages (Some u) ticketId w
    = (json 200 true (PMessages l) "Messages retrieved successfully", w) /\
    (forall m, In m l -> tm_is_internal m = false) /\
    (forall m, In m l <->
               In m (TicketService.getTicketMessages ticketId (db w)) /\
               tm_is_internal m = false).
Proof.
  intros Hrole Ht Hown.
  exists (List.filter (fun m => negb (tm_is_internal m))
            (TicketService.getTicketMessages ticketId (db w))).
  split; [|split].
  - unfold TicketController.getTicketMessages, handle, bind, get, ret.
    rewrite Ht, Hrole, Hown, Z.eqb_refl. simpl. reflexivity.
  - intros m Hin. apply filter_In in Hin as [_ H]. now apply negb_true_iff in H.
  - intros m. rewrite filter_In, negb_true_iff. tauto.
Qed.

Lemma getTicketMessages_admin_unfiltered (u : AuthUser) (ticketId : Z) (w : World)
    (ticket : Ticket) :
  is_admin u = true ->
  TicketService.getTicketById ticketId (db w) = Some ticket ->
  TicketController.getTicketMessages (Some u) ticketId w
  = (json 200 true (PMessages (TicketService.getTicketMessages ticketId (db w)))
       "Messages retrieved successfully", w).
Proof.
  intros Hrole Ht.
  unfold TicketController.getTicketMessages, handle, bind, get, ret.
  rewrite Ht, Hrole. simpl. reflexivity.
Qed.

(** The detail endpoint does not filter: its answer to the ticket's owner
    carries the thread as [getTicketMessages] of the service returns it. *)
Lemma getTicketById_owner_unfiltered (u : AuthUser) (ticketId : Z) (w : World)
    (ticket : Ticket) :
  TicketService.getTicketById ticketId (db w) = Some ticket ->
  t_user_id ticket = userId u ->
  exists details,
    TicketController.getTicketById (Some u) ticketId w
    = (json 200 true (PDetails details) "Ticket retrieved successfully", w) /\
    td_messages details = TicketService.getTicketMessages ticketId (db w).
Proof.
  intros Ht Hown.
  unfold TicketController.getTicketById, handle, bind, get, ret.
  unfold TicketService.getTicketWithDetails. rewrite Ht. simpl.
  rewrite Hown, Z.eqb_refl, andb_false_r. eexists. split; reflexivity.
Qed.

(** C2 at the failing input: ticket 1 belongs to Alice (a member) and holds
    the administrator's internal note. The thread endpoint answers Alice
    with an empty list, the detail endpoint answers her with the note,
    [is_internal = true]. *)
Theorem C2_detail_view_leaks_internal :
  Routes.get_messages (Some Sample.alice) 1 SampleThread.w2
  = (json 200 true (PMessages []) "Messages retrieved successfully", SampleThread.w2) /\
  exists details,
    Routes.get_ticket (Some Sample.alice) 1 SampleThread.w2
    = (json 200 true (PDetails details) "Ticket retrieved successfully", SampleThread.w2) /\
    td_messages details = [SampleThread.note_view] /\
    tm_is_internal SampleThread.note_view = true.
Proof.
  split; [reflexivity|]. eexists. split; [reflexivity|]. split; reflexivity.
Qed.

(** ** Appending to the thread *)

Lemma message_valid_inv (v : jsval) :
  TicketController.message_invalid v = false ->
  exists s, v = JStr s /\ trim s <> "".
Proof.
  destruct v as [| |b|n|s]; simpl; try discriminate.
  intros H. apply orb_false_iff in H as [_ H]. exists s. split; [reflexivity|].
  intros Heq. rewrite Heq in H. discriminate.
Qed.

Lemma is_admin_iff (u : AuthUser) : is_admin u = true <-> role u = "admin".
Proof. unfold is_admin. apply String.eqb_eq. Qed.

(** What the controller does with an append it lets through. *)
Lemma addMessage_authorized (e : Env) (u : AuthUser) (ticketId : Z)
    (body : TicketController.MessageBody) (w : World) (ticket : Ticket) (s : string) :
  TicketController.b_message body = JStr s ->
  trim s <> "" ->
  TicketService.getTicketById ticketId (db w) = Some ticket ->
  (is_admin u = true \/ t_user_id ticket = userId u) ->
  In (userId u) (List.map u_id (users (db w))) ->
  let isInternalBool :=
    is_admin u && TicketController.requests_internal
                    (with_default (JBool false) (TicketController.b_is_internal body)) in
  let row := appended_row e ticketId (userId u)
               (TicketService.mkTicketMessageCreate (trim s) (JBool isInternalBool))
               (db w) in
  exists author, In author (users (db w)) /\ u_id author = userId u /\
    TicketController.addMessage e (Some u) ticketId body w
    = (json 201 true (PMessage (TicketService.to_message (row, author)))
         "Message added successfully",
       mkWorld (with_message (db w) row) (disk w)).
Proof.
  intros Hmsg Htrim Ht Hauth Hu isInternalBool row.
  assert (In ticketId (List.map t_id (tickets (db w)))) as Hin
    by (apply getTicketById_Some_iff; eauto).
  assert (trim (TicketService.msg_message
                  (TicketService.mkTicketMessageCreate (trim s) (JBool isInternalBool)))
          <> "") as Htrim' by (simpl; now rewrite trim_idem).
  destruct (addMessage_succeeds e ticketId (userId u) _ (db w) Htrim' Hin Hu)
    as (author & Ha & Hid & Hadd).
  exists author. split; [assumption|]. split; [assumption|].
  unfold TicketController.addMessage, handle, bind, get, ret, liftDb.
  rewrite Hmsg.
  change (TicketController.message_invalid (JStr s))
    with (String.eqb s "" || (String.length (trim s) =? 0)%nat).
  rewrite (trim_nonempty _ Htrim). rewrite Ht.
  assert (negb (is_admin u) && negb (t_user_id ticket =? userId u) = false) as ->.
  { destruct Hauth as [->| ->]; [reflexivity|]. now rewrite Z.eqb_refl, andb_false_r. }
  fold isInternalBool. rewrite Hadd. reflexivity.
Qed.

Lemma stored_flag_cases (ib : bool) (P : Prop) :
  (ib = true <-> P) ->
  ((if ib then 1 else 0) = 1 <-> P) /\ ((if ib then 1 else 0) = 0 <-> ~ P).
Proof.
  intros H. destruct ib.
  - assert P as HP by now apply H. split; split; try tauto; lia.
  - assert (~ P) as HP by (intros HP; apply H in HP; discriminate).
    split; split; try tauto; lia.
Qed.

(** C3. For every append the controller lets through, the stored flag is 1
    (internal) exactly when the author's role is [admin] and the request
    asked for internal, and 0 otherwise; a member's append is stored public
    whatever flag the request carried. *)
Theorem C3_visibility_resolution (e : Env) (u : AuthUser) (ticketId : Z)
    (body : TicketController.MessageBody) (w : World) (ticket : Ticket) :
  TicketController.message_invalid (TicketController.b_message body) = false ->
  TicketService.getTicketById ticketId (db w) = Some ticket ->
  (is_admin u = true \/ t_user_id ticket = userId u) ->
  In (userId u) (List.map u_id (users (db w))) ->
  let requested :=
    TicketController.requests_internal
      (with_default (JBool false) (TicketController.b_is_internal body)) in
  exists m row,
    TicketController.addMessage e (Some u) ticketId body w
    = (json 201 true (PMessage m) "Message added successfully",
       mkWorld (with_message (db w) row) (disk w)) /\
    (m_is_internal row = 1 <-> role u = "admin" /\ requested = true) /\
    (m_is_internal row = 0 <-> ~ (role u = "admin" /\ requested = true)) /\
    tm_is_internal m = (is_admin u && requested) /\
    (role u <> "admin" -> m_is_internal row = 0 /\ tm_is_internal m = false) /\
    (forall b, TicketController.b_is_internal body = JBool b -> requested = b).
Proof.
  intros Hvalid Ht Hauth Hu requested.
  destruct (message_valid_inv _ Hvalid) as (s & Hmsg & Htrim).
  destruct (addMessage_authorized e u ticketId body w ticket s Hmsg Htrim Ht Hauth Hu)
    as (author & _ & _ & Hadd).
  fold requested in Hadd.
  eexists. eexists. split; [exact Hadd|].
  unfold appended_row. simpl.
  assert (is_admin u && requested = true <-> role u = "admin" /\ requested = true) as Hib.
  { rewrite andb_true_iff, is_admin_iff. tauto. }
  destruct (stored_flag_cases _ _ Hib) as [H1 H0].
  split; [exact H1|]. split; [exact H0|]. split; [apply Boolean_of_stored|].
  split.
  - intros Hr. assert (is_admin u && requested = false) as Hf.
    { apply not_true_is_false. intros Ht'. apply Hib in Ht'. tauto. }
    rewrite Hf. split; reflexivity.
  - intros b Hb. unfold requested. rewrite Hb. destruct b; reflexivity.
Qed.

Lemma C3_visibility_resolution_witness :
  exists m row,
    TicketController.addMessage Sample.env0 (Some Sample.alice) 1
      SampleThread.hello_internal Sample.w1
    = (json 201 true (PMessage m) "Message added successfully",
       mkWorld (with_message (db Sample.w1) row) (disk Sample.w1)) /\
    m_is_internal row = 0 /\ tm_is_internal m = false.
Proof.
  destruct (C3_visibility_resolution Sample.env0 Sample.alice 1
              SampleThread.hello_internal Sample.w1 Sample.ticket1)
    as (m & row & Hadd & _ & _ & _ & Hmember & _).
  - reflexivity.
  - reflexivity.
  - right. reflexivity.
  - simpl. tauto.
  - exists m, row. split; [exact Hadd|]. apply Hmember. discriminate.
Defined.

(** ** Deleting an attachment *)

Lemma getAttachmentById_deleted (id : Z) (d : Db) :
  FileService.getAttachmentById id (without_attachment id d) = None.
Proof.
  unfold FileService.getAttachmentById, without_attachment. simpl.
  apply find_none_iff. intros Hin. apply in_map_iff in Hin as (a & Hid & Ha).
  apply filter_In in Ha as [_ Hne]. apply negb_true_iff, Z.eqb_neq in Hne. contradiction.
Qed.

Lemma delete_attachment_changes (id : Z) (d : Db) (a : Attachment) :
  FileService.getAttachmentById id d = Some a ->
  Sql.delete_attachment id d
  = (Ok (Z.of_nat (length (List.filter (fun a => a_id a =? id) (attachments d)))),
     without_attachment id d) /\
  (0 <? Z.of_nat (length (List.filter (fun a => a_id a =? id) (attachments d)))) = true.
Proof.
  intros Hget. split; [reflexivity|].
  apply find_some_key in Hget as [Hid Hin].
  assert (In a (List.filter (fun a => a_id a =? id) (attachments d))) as Hf.
  { apply filter_In. split; [assumption | now apply Z.eqb_eq]. }
  destruct (List.filter _ (attachments d)); [contradiction|]. simpl. apply Z.ltb_lt. lia.
Qed.

Lemma deleteAttachment_existing (id : Z) (w : World) (a : Attachment) :
  FileService.getAttachmentById id (db w) = Some a ->
  FileService.deleteAttachment id w
  = (Ok true, mkWorld (without_attachment id (db w))
                      (after_unlink_attempt (a_file_path a) (disk w))).
Proof.
  intros Hget. destruct (delete_attachment_changes id (db w) a Hget) as [Hdel Hpos].
  unfold FileService.deleteAttachment, bind, get, liftFs, liftDb, try_catch_log.
  rewrite Hget. unfold after_unlink_attempt. simpl.
  destruct (fs.existsSync (a_file_path a) (disk w)).
  - destruct (fs.unlinkSync (a_file_path a) (disk w)) as [r f'] eqn:Hu. simpl.
    unfold ret. rewrite Hpos. reflexivity.
  - simpl. unfold ret. rewrite Hpos. reflexivity.
Qed.

Lemma unlinkSync_Throw (p : string) (f f' : Fs) (msg : string) :
  fs.unlinkSync p f = (Throw msg, f') -> f' = f.
Proof.
  unfold fs.unlinkSync. case_bool_decide; [congruence|].
  destruct (files f !! p); congruence.
Qed.

Lemma unlinkSync_Ok (p : string) (f f' : Fs) :
  fs.unlinkSync p f = (Ok tt, f') -> files f' !! p = None.
Proof.
  unfold fs.unlinkSync. case_bool_decide; [congruence|].
  destruct (files f !! p); [|congruence].
  intros Heq. injection Heq as <-. simpl. apply lookup_delete_eq.
Qed.

(** C4, as amended. Deleting an attachment whose row exists first tries to
    unlink the blob (when the path exists on disk), then removes the row
    and returns [true] in every case: when unlinking fails, the error is
    dropped, the blob stays on disk and the row is removed all the same.
    When unlinking succeeds the blob is gone as well. Deleting an id that
    has no row returns [false] and changes nothing. *)
Theorem C4_delete_attachment (id : Z) (w : World) :
  (forall a, FileService.getAttachmentById id (db w) = Some a ->
     exists w',
       FileService.deleteAttachment id w = (Ok true, w') /\
       db w' = without_attachment id (db w) /\
       FileService.getAttachmentById id (db w') = None /\
       (forall msg f1, fs.unlinkSync (a_file_path a) (disk w) = (Throw msg, f1) ->
                       disk w' = disk w) /\
       (forall f1, fs.existsSync (a_file_path a) (disk w) = true ->
                   fs.unlinkSync (a_file_path a) (disk w) = (Ok tt, f1) ->
                   disk w' = f1 /\ files (disk w') !! a_file_path a = None)) /\
  (FileService.getAttachmentById id (db w) = None ->
     FileService.deleteAttachment id w = (Ok false, w)).
Proof.
  split.
  - intros a Hget. eexists. split; [apply (deleteAttachment_existing id w a Hget)|].
    simpl. split; [reflexivity|]. split; [apply getAttachmentById_deleted|].
    unfold after_unlink_attempt. split.
    + intros msg f1 Hu. destruct (fs.existsSync _ _); [|reflexivity].
      rewrite Hu. simpl. now apply unlinkSync_Throw in Hu.
    + intros f1 Hex Hu. rewrite Hex, Hu. simpl. split; [reflexivity|].
      now apply unlinkSync_Ok in Hu.
  - intros Hnone. unfold FileService.deleteAttachment, bind, get, ret.
    rewrite Hnone. reflexivity.
Qed.

Lemma C4_delete_attachment_witness :
  exists w',
    FileService.deleteAttachment 1 SampleFiles.w3 = (Ok true, w') /\
    FileService.getAttachmentById 1 (db w') = None /\
    files (disk w') !! SampleFiles.report_path = None.
Proof.
  destruct (C4_delete_attachment 1 SampleFiles.w3) as [Hex _].
  destruct (Hex SampleFiles.report eq_refl) as (w' & Hdel & _ & Hrow & _ & Hblob).
  exists w'. split; [exact Hdel|]. split; [exact Hrow|].
  eapply Hblob; [reflexivity|]. vm_compute. reflexivity.
Defined.

(** C4 as stated fails: the operating system refuses to unlink the blob,
    and the delete still removes the row and reports success; the blob
    stays on disk with no row pointing at it. *)
Lemma C4_row_removed_when_unlink_fails :
  (exists msg, fs.unlinkSync SampleFiles.report_path (disk SampleFiles.w3_locked)
               = (Throw msg, disk SampleFiles.w3_locked)) /\
  FileService.getAttachmentById 1 (db SampleFiles.w3_locked) = Some SampleFiles.report /\
  exists w',
    FileService.deleteAttachment 1 SampleFiles.w3_locked = (Ok true, w') /\
    attachments (db w') = [] /\
    files (disk w') !! SampleFiles.report_path = Some SampleFiles.report_bytes /\
    Routes.delete_attachment (Some Sample.admin) 1 SampleFiles.w3_locked
    = (json 200 true PNull "Attachment deleted successfully", w').
Proof.
  split; [eexists; vm_compute; reflexivity|]. split; [reflexivity|].
  eexists. split; [vm_compute; reflexivity|]. split; [reflexivity|].
  split; [vm_compute; reflexivity | vm_compute; reflexivity].
Qed.

(** ** Authorization *)

Lemma not_admin (u : AuthUser) : role u <> "admin" -> is_admin u = false.
Proof. intros H. unfold is_admin. now apply String.eqb_neq. Qed.

Lemma not_owner (ticket : Ticket) (u : AuthUser) :
  t_user_id ticket <> userId u -> (t_user_id ticket =? userId u) = false.
Proof. intros H. now apply Z.eqb_neq. Qed.

(** C5, as amended. On an existing ticket, a member who is neither its
    creator nor an administrator is answered 403 "Access denied" when
    viewing the ticket, its thread or its attachments, when downloading one
    of its attachments, when adding a message whose body is a non-blank
    string, and when uploading a file; a message body that is missing,
    not a string or blank is answered 400 before the ownership test, and so
    is an upload that carries no file. Every non-administrator, the creator
    included, is answered 403 "Admin access required" when updating or
    deleting a ticket and when deleting an attachment. None of these
    requests changes the state. *)
Theorem C5_authorization (e : Env) (u : AuthUser) (w : World) (ticketId : Z)
    (ticket : Ticket) :
  TicketService.getTicketById ticketId (db w) = Some ticket ->
  role u <> "admin" ->
  (t_user_id ticket <> userId u ->
     Routes.get_ticket (Some u) ticketId w = (json 403 false PNull "Access denied", w) /\
     Routes.get_messages (Some u) ticketId w = (json 403 false PNull "Access denied", w) /\
     Routes.get_attachments (Some u) ticketId w
     = (json 403 false PNull "Access denied", w) /\
     (forall attachmentId a,
        FileService.getAttachmentById attachmentId (db w) = Some a ->
        a_ticket_id a = ticketId ->
        Routes.get_download (Some u) attachmentId w
        = (json 403 false PNull "Access denied", w)) /\
     (forall body,
        TicketController.message_invalid (TicketController.b_message body) = false ->
        Routes.post_message e (Some u) ticketId body w
        = (json 403 false PNull "Access denied", w)) /\
     (forall body,
        TicketController.message_invalid (TicketController.b_message body) = true ->
        Routes.post_message e (Some u) ticketId body w
        = (json 400 false PNull "Message content is required", w)) /\
     (forall file,
        Routes.post_attachment e (Some u) ticketId (Some file) w
        = (json 403 false PNull "Access denied", w)) /\
     Routes.post_attachment e (Some u) ticketId None w
     = (json 400 false PNull "No file uploaded", w)) /\
  (forall body,
     Routes.put_ticket e (Some u) ticketId body w
     = (json 403 false PNull "Admin access required", w)) /\
  Routes.delete_ticket (Some u) ticketId w
  = (json 403 false PNull "Admin access required", w) /\
  (forall attachmentId,
     Routes.delete_attachment (Some u) attachmentId w
     = (json 403 false PNull "Admin access required", w)).
Proof.
  intros Ht Hrole. apply not_admin in Hrole.
  split; [|split; [|split]].
  - intros Hown. apply not_owner in Hown.
    repeat split.
    + unfold Routes.get_ticket, Routes.guarded, TicketController.getTicketById,
        handle, bind, get, ret, TicketService.getTicketWithDetails. simpl.
      rewrite Ht. simpl. rewrite Hrole, Hown. reflexivity.
    + unfold Routes.get_messages, Routes.guarded, TicketController.getTicketMessages,
        handle, bind, get, ret. simpl. rewrite Ht, Hrole, Hown. reflexivity.
    + unfold Routes.get_attachments, Routes.guarded,
        UploadController.getTicketAttachments, handle, bind, get, ret. simpl.
      rewrite Ht, Hrole, Hown. reflexivity.
    + intros attachmentId a Ha Hat.
      unfold Routes.get_download, Routes.guarded, UploadController.downloadAttachment,
        handle, bind, get, ret, FileService.validateFileAccess. simpl.
      rewrite Ha. fold (is_admin u). rewrite Hrole, Hat.
      unfold TicketService.getTicketById in Ht. rewrite Ht, Hown. reflexivity.
    + intros body Hvalid.
      unfold Routes.post_message, Routes.guarded, TicketController.addMessage,
        handle, bind, get, ret. simpl. rewrite Hvalid, Ht, Hrole, Hown. reflexivity.
    + intros body Hinvalid.
      unfold Routes.post_message, Routes.guarded, TicketController.addMessage,
        handle, bind, get, ret. simpl. rewrite Hinvalid. reflexivity.
    + intros file.
      unfold Routes.post_attachment, Routes.guarded, UploadController.uploadAttachment,
        handle, bind, get, ret. simpl. rewrite Ht, Hrole, Hown. reflexivity.
  - intros body. unfold Routes.put_ticket, Routes.guarded, requireAdmin. simpl.
    rewrite Hrole. reflexivity.
  - unfold Routes.delete_ticket, Routes.guarded, requireAdmin. simpl.
    rewrite Hrole. reflexivity.
  - intros attachmentId. unfold Routes.delete_attachment, Routes.guarded, requireAdmin.
    simpl. rewrite Hrole. reflexivity.
Qed.

Lemma C5_authorization_witness :
  Routes.get_ticket (Some Sample.bob) 1 Sample.w1
  = (json 403 false PNull "Access denied", Sample.w1) /\
  Routes.delete_ticket (Some Sample.alice) 1 Sample.w1
  = (json 403 false PNull "Admin access required", Sample.w1).
Proof.
  split.
  - apply (C5_authorization Sample.env0 Sample.bob Sample.w1 1 Sample.ticket1);
      [reflexivity | discriminate | simpl; lia].
  - apply (C5_authorization Sample.env0 Sample.alice Sample.w1 1 Sample.ticket1);
      [reflexivity | discriminate].
Defined.

(** C5 as stated fails: Bob, a member who did not create ticket 1, posts a
    blank message to it and is answered 400, not 403; his upload request
    without a file is answered 400 as well. *)
Lemma C5_validation_precedes_ownership :
  TicketService.getTicketById 1 (db Sample.w1) = Some Sample.ticket1 /\
  t_user_id Sample.ticket1 <> userId Sample.bob /\
  role Sample.bob <> "admin" /\
  Routes.post_message Sample.env0 (Some Sample.bob) 1 blank_message Sample.w1
  = (json 400 false PNull "Message content is required", Sample.w1) /\
  Routes.post_attachment Sample.env0 (Some Sample.bob) 1 None Sample.w1
  = (json 400 false PNull "No file uploaded", Sample.w1).
Proof.
  split; [reflexivity|]. split; [simpl; lia|]. split; [discriminate|].
  split; reflexivity.
Qed.

(** A message of one no-break space (U+00A0) is blank, for the ticket's
    owner and for a stranger alike: 400, and nothing is stored. *)
Lemma no_break_space_message :
  let body := TicketController.mkMessageBody (JStr (utf8 [194; 160])) JUndefined in
  Routes.post_message Sample.env0 (Some Sample.alice) 1 body Sample.w1
  = (json 400 false PNull "Message content is required", Sample.w1) /\
  Routes.post_message Sample.env0 (Some Sample.bob) 1 body Sample.w1
  = (json 400 false PNull "Message content is required", Sample.w1).
Proof. split; reflexivity. Qed.

(** ** Downloading an attachment *)

(** No metadata row: the access check already answers, with 403. *)
Lemma downloadAttachment_missing_row (u : AuthUser) (attachmentId : Z) (w : World) :
  FileService.getAttachmentById attachmentId (db w) = None ->
  UploadController.downloadAttachment (Some u) attachmentId w
  = (json 403 false PNull "Access denied", w).
Proof.
  intros Hnone.
  unfold UploadController.downloadAttachment, handle, bind, get, ret,
    FileService.validateFileAccess. simpl.
  rewrite Hnone. reflexivity.
Qed.

(** The [404 "Attachment not found"] branch of the controller is never
    taken: whenever the access check passes, the row exists. *)
Lemma validateFileAccess_row (attachmentId userId : Z) (userRole : string) (d : Db) :
  FileService.validateFileAccess attachmentId userId userRole d = true ->
  exists a, FileService.getAttachmentById attachmentId d = Some a.
Proof.
  unfold FileService.validateFileAccess.
  destruct (FileService.getAttachmentById attachmentId d) as [a|]; [eauto | discriminate].
Qed.

(** Row present, caller allowed, file missing on disk: 404. *)
Lemma downloadAttachment_dangling (u : AuthUser) (attachmentId : Z) (w : World)
    (a : Attachment) :
  FileService.validateFileAccess attachmentId (userId u) (role u) (db w) = true ->
  FileService.getAttachmentById attachmentId (db w) = Some a ->
  fs.existsSync (a_file_path a) (disk w) = false ->
  UploadController.downloadAttachment (Some u) attachmentId w
  = (json 404 false PNull "File not found on disk", w).
Proof.
  intros Hacc Hget Hex.
  unfold UploadController.downloadAttachment, handle, bind, get, ret. simpl.
  rewrite Hacc, Hget. unfold FileService.getFileStream. rewrite Hex. reflexivity.
Qed.

(** C6 at the failing input: an administrator asks for attachment 99, which
    has no metadata row, and is answered 403 "Access denied", not 404. The
    dangling locator (row 1 present, file gone) is answered 404, and the
    intact attachment is delivered. *)
Theorem C6_missing_row_is_forbidden :
  FileService.getAttachmentById 99 (db SampleFiles.w3) = None /\
  Routes.get_download (Some Sample.admin) 99 SampleFiles.w3
  = (json 403 false PNull "Access denied", SampleFiles.w3) /\
  Routes.get_download (Some Sample.admin) 1 SampleFiles.w3_dangling
  = (json 404 false PNull "File not found on disk", SampleFiles.w3_dangling) /\
  exists download,
    Routes.get_download (Some Sample.admin) 1 SampleFiles.w3
    = (json 200 true (PFile download) "", SampleFiles.w3) /\
    body download = SampleFiles.report_bytes.
Proof.
  split; [reflexivity|]. split; [reflexivity|]. split; [vm_compute; reflexivity|].
  eexists. split; vm_compute; reflexivity.
Qed.

(** ** Uploading an attachment *)

Lemma size_error_text :
  FileService.size_error = "File size exceeds maximum limit of 5MB".
Proof. vm_compute. reflexivity. Qed.

Lemma uploadFile_too_large (e : Env) (ticketId userId : Z) (file : FileService.MulterFile)
    (w : World) :
  FileService.MAX_FILE_SIZE < FileService.size file ->
  FileService.uploadFile e ticketId userId file w = (Throw FileService.size_error, w).
Proof.
  intros Hs. unfold FileService.uploadFile.
  apply Z.ltb_lt in Hs. rewrite Hs. reflexivity.
Qed.

Lemma uploadFile_bad_type (e : Env) (ticketId userId : Z) (file : FileService.MulterFile)
    (w : World) :
  FileService.size file <= FileService.MAX_FILE_SIZE ->
  ~ In (FileService.mimetype file) FileService.allowedMimeTypes ->
  FileService.uploadFile e ticketId userId file w = (Throw "File type not allowed", w).
Proof.
  intros Hs Hm. unfold FileService.uploadFile.
  assert ((FileService.MAX_FILE_SIZE <? FileService.size file) = false) as ->
    by (apply Z.ltb_ge; lia).
  destruct (Sql.mem_str _ FileService.allowedMimeTypes) eqn:Hmem.
  - apply mem_str_In in Hmem. contradiction.
  - reflexivity.
Qed.

Lemma getAttachmentById_inserted (d : Db) (row : Attachment) :
  a_id row = Sql.next_rowid (seq_attachments d) (List.map a_id (attachments d)) ->
  List.find (fun a => a_id a =? a_id row) (attachments d ++ [row]) = Some row.
Proof.
  intros Hid. apply find_inserted; [reflexivity|].
  intros x Hx. rewrite Hid. now apply next_rowid_fresh.
Qed.

Lemma upload_path_not_dir (e : Env) (file : FileService.MulterFile) :
  upload_path e file <> FileService.UPLOAD_DIR.
Proof. unfold upload_path, FileService.join_upload_dir. simpl. discriminate. Qed.

(** An upload that passes both validations and meets no storage failure. *)
Lemma uploadFile_succeeds (e : Env) (ticketId userId : Z) (file : FileService.MulterFile)
    (w : World) :
  FileService.size file <= FileService.MAX_FILE_SIZE ->
  In (FileService.mimetype file) FileService.allowedMimeTypes ->
  In ticketId (List.map t_id (tickets (db w))) ->
  In userId (List.map u_id (users (db w))) ->
  upload_path e file ∉ faulty (disk w) ->
  upload_path e file ∉ dirs (disk w) ->
  exists w',
    FileService.uploadFile e ticketId userId file w
    = (Ok (Some (uploaded_row e ticketId userId file (db w))), w') /\
    attachments (db w') = attachments (db w) ++ [uploaded_row e ticketId userId file (db w)] /\
    files (disk w') !! upload_path e file = Some (FileService.buffer file).
Proof.
  intros Hs Hm Ht Hu Hf Hd.
  pose proof (getAttachmentById_inserted (db w) (uploaded_row e ticketId userId file (db w))
                eq_refl) as Hget.
  unfold FileService.uploadFile.
  assert ((FileService.MAX_FILE_SIZE <? FileService.size file) = false) as ->
    by (apply Z.ltb_ge; lia).
  apply mem_str_In in Hm. rewrite Hm. simpl negb. cbv iota.
  apply mem_Z_In in Ht, Hu.
  fold (upload_path e file).
  unfold bind, get, liftFs, liftDb, ret. cbv beta.
  destruct (negb (fs.existsSync FileService.UPLOAD_DIR (disk w))) eqn:Hex.
  - unfold fs.mkdirSync, fs.writeFileSync. simpl. rewrite Hex. simpl.
    rewrite bool_decide_eq_false_2 by assumption.
    rewrite bool_decide_eq_false_2.
    2:{ rewrite elem_of_union, elem_of_singleton. intros [Heq|Hin];
          [now apply (upload_path_not_dir e file) | contradiction]. }
    unfold Sql.insert_attachment. simpl. rewrite Ht, Hu. simpl.
    eexists. split; [f_equal; f_equal; exact Hget|].
    simpl. split; [reflexivity | apply lookup_insert_eq].
  - unfold fs.writeFileSync. simpl. rewrite Hex. simpl.
    rewrite bool_decide_eq_false_2 by assumption.
    rewrite bool_decide_eq_false_2 by assumption.
    unfold Sql.insert_attachment. simpl. rewrite Ht, Hu. simpl.
    eexists. split; [f_equal; f_equal; exact Hget|].
    simpl. split; [reflexivity | apply lookup_insert_eq].
Qed.

(** C7. An upload of exactly 5 MiB (5242880 bytes) of an allowed type
    succeeds: the bytes are on disk and the row is stored. An upload of
    5 MiB + 1 byte, or of any larger size, throws the size error; one of a
    type outside the allow-list, [application/x-executable] for one, throws
    the type error. Either error is thrown before anything is written: the
    disk and the tables are as they were. *)
Theorem C7_upload_validation (e : Env) (ticketId userId : Z)
    (file : FileService.MulterFile) (w : World) :
  (FileService.size file = 5242880 ->
   In (FileService.mimetype file) FileService.allowedMimeTypes ->
   In ticketId (List.map t_id (tickets (db w))) ->
   In userId (List.map u_id (users (db w))) ->
   upload_path e file ∉ faulty (disk w) ->
   upload_path e file ∉ dirs (disk w) ->
   exists a w',
     FileService.uploadFile e ticketId userId file w = (Ok (Some a), w') /\
     a_file_size a = 5242880 /\
     In a (attachments (db w')) /\
     files (disk w') !! a_file_path a = Some (FileService.buffer file)) /\
  (FileService.size file = 5242881 ->
   FileService.uploadFile e ticketId userId file w
   = (Throw "File size exceeds maximum limit of 5MB", w)) /\
  (5242880 < FileService.size file ->
   FileService.uploadFile e ticketId userId file w
   = (Throw "File size exceeds maximum limit of 5MB", w)) /\
  (FileService.size file <= 5242880 ->
   ~ In (FileService.mimetype file) FileService.allowedMimeTypes ->
   FileService.uploadFile e ticketId userId file w = (Throw "File type not allowed", w)) /\
  (FileService.mimetype file = "application/x-executable" ->
   exists msg,
     FileService.uploadFile e ticketId userId file w = (Throw msg, w) /\
     (FileService.size file <= 5242880 -> msg = "File type not allowed")).
Proof.
  assert (forall s, 5242880 < s -> FileService.MAX_FILE_SIZE < s) as Hmax
    by (unfold FileService.MAX_FILE_SIZE; lia).
  assert (~ In "application/x-executable" FileService.allowedMimeTypes) as Hexe.
  { simpl. intros H. repeat (destruct H as [H|H]; [discriminate|]). contradiction. }
  split; [|split; [|split; [|split]]].
  - intros Hs Hm Ht Hu Hf Hd.
    destruct (uploadFile_succeeds e ticketId userId file w) as (w' & Hup & Hrows & Hblob);
      try assumption.
    { unfold FileService.MAX_FILE_SIZE. lia. }
    exists (uploaded_row e ticketId userId file (db w)), w'.
    split; [exact Hup|]. split; [exact Hs|]. split; [|exact Hblob].
    rewrite Hrows, in_app_iff. right. now left.
  - intros Hs. rewrite <- size_error_text. apply uploadFile_too_large.
    apply Hmax. lia.
  - intros Hs. rewrite <- size_error_text. apply uploadFile_too_large. now apply Hmax.
  - intros Hs Hm. now apply uploadFile_bad_type.
  - intros Hm. destruct (Z_le_gt_dec (FileService.size file) 5242880) as [Hle|Hgt].
    + exists "File type not allowed". split; [|reflexivity].
      apply uploadFile_bad_type; [exact Hle|]. now rewrite Hm.
    + exists FileService.size_error. split; [|lia].
      apply uploadFile_too_large. apply Hmax. lia.
Qed.

Lemma C7_upload_validation_witness :
  (exists a w',
     FileService.uploadFile Sample.env0 1 2 (SampleFiles.pdf 5242880) Sample.w1
     = (Ok (Some a), w') /\ a_file_size a = 5242880) /\
  FileService.uploadFile Sample.env0 1 2 (SampleFiles.pdf 5242881) Sample.w1
  = (Throw "File size exceeds maximum limit of 5MB", Sample.w1) /\
  FileService.uploadFile Sample.env0 1 2 SampleFiles.executable Sample.w1
  = (Throw "File type not allowed", Sample.w1).
Proof.
  split; [|split].
  - destruct (C7_upload_validation Sample.env0 1 2 (SampleFiles.pdf 5242880) Sample.w1)
      as (Hok & _).
    destruct Hok as (a & w' & Hup & Hsize & _).
    + reflexivity.
    + simpl. tauto.
    + simpl. tauto.
    + simpl. tauto.
    + simpl. apply not_elem_of_empty.
    + simpl. apply not_elem_of_empty.
    + exists a, w'. split; [exact Hup | exact Hsize].
  - apply (C7_upload_validation Sample.env0 1 2 (SampleFiles.pdf 5242881) Sample.w1).
    reflexivity.
  - apply (C7_upload_validation Sample.env0 1 2 SampleFiles.executable Sample.w1).
    + simpl. lia.
    + simpl. intros H. repeat (destruct H as [H|H]; [discriminate|]). contradiction.
Defined.

(** ** Searching tickets *)

(** The keys the store hands out are positive, so the identity of a caller
    is never 0. *)
Lemma insert_user_id_positive (e : Env) (name email password_hash role : string)
    (is_active : Z) (d d' : Db) (id : Z) :
  Sql.insert_user e name email password_hash role is_active d = (Ok id, d') -> 0 < id.
Proof.
  unfold Sql.insert_user.
  destruct (negb _); [discriminate|]. destruct (Sql.mem_str _ _); [discriminate|].
  intros H. injection H as <- _. apply next_rowid_pos.
Qed.

Lemma searchTickets_In (query : string) (userId : option Z) (d : Db) (t : Ticket) :
  In t (TicketService.searchTickets query userId d) <->
  In t (tickets d) /\ search_matches query t = true /\
  match userId with
  | Some u => if truthy (JNum u) then t_user_id t = u else True
  | None => True
  end.
Proof.
  unfold TicketService.searchTickets. rewrite order_by_desc_In, filter_In.
  fold (search_matches query t). rewrite andb_true_iff.
  destruct userId as [u|]; [|intuition].
  destruct (truthy (JNum u)); [|intuition].
  rewrite Z.eqb_eq. tauto.
Qed.

(** C10. A search by a caller who is not an administrator returns only
    tickets the caller created: the matching tickets of the caller and no
    others. A search by an administrator returns every matching ticket. *)
Theorem C10_search_scope (u : AuthUser) (query : string) (w : World) :
  query <> "" ->
  exists l,
    TicketController.searchTickets (Some u) (Some query) w
    = (json 200 true (PTickets l) "Search completed successfully", w) /\
    (role u <> "admin" -> userId u <> 0 ->
       (forall t, In t l -> t_user_id t = userId u) /\
       (forall t, In t l <->
                  In t (tickets (db w)) /\ search_matches query t = true /\
                  t_user_id t = userId u)) /\
    (role u = "admin" ->
       forall t, In t l <-> In t (tickets (db w)) /\ search_matches query t = true).
Proof.
  intros Hq.
  unfold TicketController.searchTickets, handle, bind, get, ret.
  apply String.eqb_neq in Hq. rewrite Hq.
  eexists. split; [reflexivity|]. split.
  - intros Hrole Hid. apply not_admin in Hrole. rewrite Hrole.
    assert (forall t, In t (TicketService.searchTickets query (Some (userId u)) (db w)) <->
                      In t (tickets (db w)) /\ search_matches query t = true /\
                      t_user_id t = userId u) as Hiff.
    { intros t. rewrite searchTickets_In. simpl.
      destruct (Z.eqb_spec (userId u) 0) as [H0|_]; [contradiction|]. simpl. tauto. }
    split; [|exact Hiff]. intros t Hin. now apply Hiff in Hin.
  - intros Hrole. apply is_admin_iff in Hrole. rewrite Hrole.
    intros t. rewrite searchTickets_In. tauto.
Qed.

Lemma C10_search_scope_witness :
  exists l,
    TicketController.searchTickets (Some Sample.bob) (Some "print") Sample.w1
    = (json 200 true (PTickets l) "Search completed successfully", Sample.w1) /\
    forall t, In t l -> t_user_id t = 3.
Proof.
  destruct (C10_search_scope Sample.bob "print" Sample.w1) as (l & Hs & Hmember & _);
    [discriminate|].
  exists l. split; [exact Hs|]. apply Hmember; [discriminate | simpl; lia].
Defined.

(** The ownership filter hangs on [if (userId)]: for the identity 0, which
    the store never hands out, the search would not be scoped. *)
Remark searchTickets_identity_zero (query : string) (d : Db) :
  TicketService.searchTickets query (Some 0) d = TicketService.searchTickets query None d.
Proof. reflexivity. Qed.

(** ** The sample installation is reachable through the routes *)

Example sample_w1_reached :
  Routes.post_ticket Sample.env0 (Some Sample.alice) Sample.printer Sample.w0
  = (json 201 true (PTicket Sample.ticket1) "Ticket created successfully", Sample.w1).
Proof. reflexivity. Qed.

Example sample_w2_reached :
  Routes.post_message Sample.env0 (Some Sample.admin) 1 SampleThread.note_body Sample.w1
  = (json 201 true (PMessage SampleThread.note_view) "Message added successfully",
     SampleThread.w2).
Proof. reflexivity. Qed.

Example sample_w3_reached :
  Routes.post_attachment Sample.env0 (Some Sample.alice) 1 (Some (SampleFiles.pdf 3))
    Sample.w1
  = (json 201 true (PAttachment SampleFiles.report) "File uploaded successfully",
     SampleFiles.w3).
Proof. vm_compute. reflexivity. Qed.

Example sample_search :
  Routes.get_search (Some Sample.alice) (Some "PRINT") Sample.w1
  = (json 200 true (PTickets [Sample.ticket1]) "Search completed successfully", Sample.w1)
  /\ Routes.get_search (Some Sample.bob) (Some "PRINT") Sample.w1
     = (json 200 true (PTickets []) "Search completed successfully", Sample.w1)
  /\ Routes.get_search (Some Sample.admin) (Some "PRINT") Sample.w1
     = (json 200 true (PTickets [Sample.ticket1]) "Search completed successfully", Sample.w1).
Proof. repeat split. Qed.

(** At the HTTP boundary [errorHandler] knows neither upload error: both
    are answered 500 "Internal server error". *)
Remark upload_errors_at_boundary :
  errorHandler FileService.size_error = json 500 false PNull "Internal server error" /\
  errorHandler "File type not allowed" = json 500 false PNull "Internal server error".
Proof. split; vm_compute; reflexivity. Qed.


(** * Further properties of the code *)

(** ** Every service changes the tables by one of the listed steps *)

Lemma absent_or_empty_false (o : option string) :
  TicketService.absent_or_empty o = false -> default "" o <> "".
Proof.
  destruct o as [s|]; simpl; [|discriminate].
  intros H. now apply String.eqb_neq.
Qed.

Lemma mem_str_false (x : string) (l : list string) :
  Sql.mem_str x l = false <-> ~ In x l.
Proof.
  rewrite <- mem_str_In. destruct (Sql.mem_str x l); split; congruence.
Qed.

Lemma negb_mem_str (x : string) (l : list string) :
  negb (Sql.mem_str x l) = false -> In x l.
Proof. intros H. apply mem_str_In. now apply negb_false_iff. Qed.

Lemma negb_check_in (v : option string) (l : list string) :
  negb (Sql.check_in v l) = false -> null_or_in v l.
Proof. intros H. apply check_in_spec. now apply negb_false_iff. Qed.

Lemma negb_mem_Z (x : Z) (l : list Z) :
  negb (Sql.mem_Z x l) = false -> In x l.
Proof. intros H. apply mem_Z_In. now apply negb_false_iff. Qed.

Lemma createTicket_step (e : Env) (userId : Z) (ticketData : TicketService.TicketCreate)
    (d d' : Db) (r : result (option Ticket)) :
  TicketService.createTicket e userId ticketData d = (r, d') ->
  d' = d \/ db_step d d'.
Proof.
  unfold TicketService.createTicket.
  destruct (_ || _ || _) eqn:Hreq; [unfold throw; intros H; injection H as _ <-; now left|].
  apply orb_false_iff in Hreq as [Hreq _]. apply orb_false_iff in Hreq as [Ht Hd].
  unfold bind, Sql.insert_ticket.
  destruct (negb (Sql.mem_str _ Sql.categories)) eqn:Hc;
    [intros H; injection H as _ <-; now left|].
  destruct (negb (Sql.check_in _ Sql.priorities)) eqn:Hp;
    [intros H; injection H as _ <-; now left|].
  destruct (Sql.mem_str _ (List.map t_ticket_number _)) eqn:Hn;
    [intros H; injection H as _ <-; now left|].
  destruct (negb (Sql.mem_Z _ _)) eqn:Hu; [intros H; injection H as _ <-; now left|].
  unfold get, ret. intros H. injection H as _ <-. right.
  apply (step_insert_ticket d (created_row e userId ticketData d)).
  - reflexivity.
  - now apply mem_str_false.
  - now apply negb_mem_Z.
  - reflexivity.
  - unfold ticket_ok, created_row.
    cbn [t_category t_priority t_status t_title t_description].
    split; [now apply negb_mem_str|]. split; [now apply negb_check_in|].
    split; [left; reflexivity|].
    split; now apply absent_or_empty_false.
Qed.

Lemma update_row_step (e : Env) (id : Z) (updates : TicketService.TicketUpdate)
    (d d' : Db) (r : result unit) :
  TicketService.update_row e id updates d = (r, d') ->
  d' = d \/ db_step d d'.
Proof.
  unfold TicketService.update_row.
  destruct (match TicketService.up_status updates with Some _ => _ | None => _ end) eqn:Hs;
    [intros H; injection H as _ <-; now left|].
  destruct (match TicketService.up_priority updates with Some _ => _ | None => _ end) eqn:Hp;
    [intros H; injection H as _ <-; now left|].
  destruct (match TicketService.up_assigned_to updates with Some _ => _ | None => _ end)
    eqn:Ha; [intros H; injection H as _ <-; now left|].
  intros H. injection H as _ <-. right.
  apply (step_update_ticket d e id updates).
  - intros s Heq. rewrite Heq in Hs. now apply negb_check_in.
  - intros p Heq. rewrite Heq in Hp. now apply negb_check_in.
  - intros a Heq. rewrite Heq in Ha. now apply negb_mem_Z.
Qed.

Lemma updateTicket_step (e : Env) (id : Z) (updates : TicketService.TicketUpdate)
    (d d' : Db) (r : result (option Ticket)) :
  TicketService.updateTicket e id updates d = (r, d') ->
  d' = d \/ db_step d d'.
Proof.
  unfold TicketService.updateTicket, bind, get.
  destruct (TicketService.getTicketById id d) as [ticket|];
    [|unfold throw; intros H; injection H as _ <-; now left].
  assert (forall r0 d0,
            (let (r1, s') := TicketService.update_row e id updates d in
             match r1 with
             | Ok _ => (Ok (TicketService.getTicketById id s'), s')
             | Throw msg => (Throw msg, s')
             end) = (r0, d0) -> d0 = d \/ db_step d d0) as Hupd.
  { intros r0 d0. destruct (TicketService.update_row e id updates d) as [r1 s'] eqn:Hrow.
    apply update_row_step in Hrow. destruct r1; intros H; injection H as _ <-; exact Hrow. }
  destruct (TicketService.up_status updates), (TicketService.up_assigned_to updates),
    (TicketService.up_priority updates); unfold ret; try apply Hupd.
  intros H. injection H as _ <-. now left.
Qed.

Lemma deleteTicket_step (id : Z) (d d' : Db) (r : result bool) :
  TicketService.deleteTicket id d = (r, d') -> d' = d \/ db_step d d'.
Proof.
  unfold TicketService.deleteTicket, bind, Sql.delete_ticket.
  destruct (List.filter _ (tickets d)); unfold ret; intros H; injection H as _ <-.
  - now left.
  - right. apply step_delete_ticket.
Qed.

Lemma trim_not_empty_length (s : string) :
  String.eqb s "" || (String.length (trim s) =? 0)%nat = false -> trim s <> "".
Proof.
  intros H. apply orb_false_iff in H as [_ H]. intros Heq. rewrite Heq in H. discriminate.
Qed.

Lemma addMessage_step (e : Env) (ticketId userId : Z)
    (messageData : TicketService.TicketMessageCreate) (d d' : Db)
    (r : result (option TicketMessage)) :
  TicketService.addMessage e ticketId userId messageData d = (r, d') ->
  d' = d \/ db_step d d'.
Proof.
  unfold TicketService.addMessage.
  destruct (_ || _) eqn:Hm; [unfold throw; intros H; injection H as _ <-; now left|].
  apply trim_not_empty_length in Hm.
  unfold bind, get.
  destruct (TicketService.getTicketById ticketId d);
    [|unfold throw; intros H; injection H as _ <-; now left].
  unfold Sql.insert_message.
  destruct (negb (Sql.mem_Z ticketId _)) eqn:Ht; [intros H; injection H as _ <-; now left|].
  destruct (negb (Sql.mem_Z userId _)) eqn:Hu; [intros H; injection H as _ <-; now left|].
  unfold ret. intros H. injection H as _ <-. right.
  apply (step_insert_message d (appended_row e ticketId userId messageData d)).
  - reflexivity.
  - now apply negb_mem_Z.
  - now apply negb_mem_Z.
  - unfold message_ok, appended_row. cbn [m_is_internal m_message].
    split; [destruct (truthy _); [now right | now left]|].
    split; [exact Hm | apply trim_idem].
Qed.

Lemma uploadFile_step (e : Env) (ticketId userId : Z) (file : FileService.MulterFile)
    (w w' : World) (r : result (option Attachment)) :
  FileService.uploadFile e ticketId userId file w = (r, w') ->
  db w' = db w \/ db_step (db w) (db w').
Proof.
  unfold FileService.uploadFile.
  destruct (FileService.MAX_FILE_SIZE <? FileService.size file) eqn:Hs;
    [unfold throw; intros H; injection H as _ <-; now left|].
  destruct (Sql.mem_str (FileService.mimetype file) FileService.allowedMimeTypes) eqn:Hm;
    [|unfold throw; intros H; injection H as _ <-; now left].
  unfold bind, get, liftFs, liftDb, ret. cbv beta iota delta [negb].
  assert (forall f1 : Fs,
    (let (r0, s'0) :=
       let (r0, f') := fs.writeFileSync
                         (FileService.join_upload_dir
                            (helpers.generateUniqueFilename e (FileService.originalname file)))
                         (FileService.buffer file) f1 in
       (r0, mkWorld (db w) f') in
     match r0 with
     | Ok _ =>
         let (r1, s'1) :=
           let (r1, d') :=
             Sql.insert_attachment e ticketId (FileService.originalname file)
               (helpers.generateUniqueFilename e (FileService.originalname file))
               (FileService.join_upload_dir
                  (helpers.generateUniqueFilename e (FileService.originalname file)))
               (FileService.size file) (FileService.mimetype file) userId (db s'0) in
           (r1, mkWorld d' (disk s'0)) in
         match r1 with
         | Ok a1 => (Ok (FileService.getAttachmentById a1 (db s'1)), s'1)
         | Throw msg => (Throw msg, s'1)
         end
     | Throw msg => (Throw msg, s'0)
     end) = (r, w') -> db w' = db w \/ db_step (db w) (db w')) as Hrest.
  { intros f1. destruct (fs.writeFileSync _ _ f1) as [[[]|msg] f2].
    2:{ intros H. injection H as _ <-. now left. }
    simpl. unfold Sql.insert_attachment.
    destruct (negb (Sql.mem_Z ticketId _)) eqn:Ht;
      [intros H; injection H as _ <-; now left|].
    destruct (negb (Sql.mem_Z userId _)) eqn:Hu;
      [intros H; injection H as _ <-; now left|].
    intros H. injection H as _ <-. right. simpl.
    apply (step_insert_attachment (db w) (uploaded_row e ticketId userId file (db w))).
    - reflexivity.
    - now apply negb_mem_Z.
    - now apply negb_mem_Z.
    - unfold attachment_ok, uploaded_row. cbn [a_mime_type a_file_size].
      split; [now apply mem_str_In | now apply Z.ltb_ge]. }
  destruct (fs.existsSync FileService.UPLOAD_DIR (disk w)).
  - intros H. exact (Hrest (disk w) H).
  - intros H. exact (Hrest (snd (fs.mkdirSync FileService.UPLOAD_DIR (disk w))) H).
Qed.

Lemma deleteAttachment_step (id : Z) (w w' : World) (r : result bool) :
  FileService.deleteAttachment id w = (r, w') ->
  db w' = db w \/ db_step (db w) (db w').
Proof.
  destruct (FileService.getAttachmentById id (db w)) as [a|] eqn:Hget.
  - rewrite (deleteAttachment_existing id w a Hget). intros H. injection H as _ <-.
    right. simpl. apply step_delete_attachment.
  - unfold FileService.deleteAttachment, bind, get, ret. rewrite Hget.
    intros H. injection H as _ <-. now left.
Qed.

Lemma createUser_step (e : Env) (userData : UserService.UserCreate)
    (password_hash : string) (d d' : Db) (r : result (option User)) :
  UserService.createUser e userData password_hash d = (r, d') ->
  d' = d \/ db_step d d'.
Proof.
  unfold UserService.createUser.
  destruct (_ || _ || _) eqn:Hreq; [unfold throw; intros H; injection H as _ <-; now left|].
  apply orb_false_iff in Hreq as [Hreq _]. apply orb_false_iff in Hreq as [Hname _].
  destruct (negb (helpers.validateEmail _)) eqn:Hmail;
    [unfold throw; intros H; injection H as _ <-; now left|].
  destruct (_ <? 6)%nat; [unfold throw; intros H; injection H as _ <-; now left|].
  destruct (negb (Sql.mem_str _ ["user"; "admin"])) eqn:Hrole;
    [unfold throw; intros H; injection H as _ <-; now left|].
  unfold bind, get.
  destruct (Sql.mem_str _ (List.map u_email (users d))) eqn:Hdup;
    [unfold throw; intros H; injection H as _ <-; now left|].
  unfold Sql.insert_user. rewrite Hdup.
  destruct (negb (Sql.mem_str _ Sql.roles)); [intros H; injection H as _ <-; now left|].
  unfold ret. intros H. injection H as _ <-. right.
  apply (step_insert_user d
           (mkUserRow (Sql.next_rowid (seq_users d) (List.map u_id (users d)))
              (default "" (UserService.uc_name userData))
              (default "" (UserService.uc_email userData)) password_hash
              (default "user" (UserService.uc_role userData)) 1 (now e) (now e))).
  - reflexivity.
  - now apply mem_str_false.
  - unfold user_ok. cbn [u_name u_email u_role u_is_active].
    split; [now apply absent_or_empty_false|].
    split; [now apply negb_false_iff|].
    split; [now apply negb_mem_str | now right].
Qed.

Lemma user_update_row_step (e : Env) (id : Z) (updates : UserService.UserUpdate)
    (d d' : Db) (r : result unit) :
  (forall n, UserService.uu_name updates = Some n -> trim n <> "") ->
  (forall m, UserService.uu_email updates = Some m ->
             helpers.validateEmail m = true /\
             ~ In m (List.map u_email
                       (List.filter (fun u => negb (u_id u =? id)) (users d)))) ->
  (forall r, UserService.uu_role updates = Some r -> In r Sql.roles) ->
  UserService.update_row e id updates d = (r, d') ->
  d' = d \/ db_step d d'.
Proof.
  intros Hn Hm Hr. unfold UserService.update_row.
  destruct (match UserService.uu_role updates with Some _ => _ | None => _ end);
    [intros H; injection H as _ <-; now left|].
  destruct (match UserService.uu_email updates with Some _ => _ | None => _ end);
    [intros H; injection H as _ <-; now left|].
  intros H. injection H as _ <-. right.
  now apply (step_update_user d e id updates).
Qed.

Lemma updateUser_step (e : Env) (id : Z) (updates : UserService.UserUpdate)
    (d d' : Db) (r : result (option User)) :
  UserService.updateUser e id updates d = (r, d') ->
  d' = d \/ db_step d d'.
Proof.
  unfold UserService.updateUser, bind, get.
  destruct (UserService.getUserById id d) as [user|];
    [|unfold throw; intros H; injection H as _ <-; now left].
  destruct (match UserService.uu_name updates with Some _ => _ | None => _ end) eqn:Hn;
    [unfold throw; intros H; injection H as _ <-; now left|].
  destruct (match UserService.uu_email updates with
            | Some m => negb (helpers.validateEmail m) | None => _ end) eqn:Hv;
    [unfold throw; intros H; injection H as _ <-; now left|].
  destruct (match UserService.uu_email updates with
            | Some m => Sql.mem_str m _ | None => _ end) eqn:Ht;
    [unfold throw; intros H; injection H as _ <-; now left|].
  destruct (match UserService.uu_role updates with Some _ => _ | None => _ end) eqn:Hr;
    [unfold throw; intros H; injection H as _ <-; now left|].
  assert (forall r0 d0,
            (let (r1, s') := UserService.update_row e id updates d in
             match r1 with
             | Ok _ => (Ok (UserService.getUserById id s'), s')
             | Throw msg => (Throw msg, s')
             end) = (r0, d0) -> d0 = d \/ db_step d d0) as Hupd.
  { intros r0 d0. destruct (UserService.update_row e id updates d) as [r1 s'] eqn:Hrow.
    apply user_update_row_step in Hrow.
    - destruct r1; intros H; injection H as _ <-; exact Hrow.
    - intros n Heq. rewrite Heq in Hn. now apply String.eqb_neq.
    - intros m Heq. rewrite Heq in Hv, Ht. split.
      + now apply negb_false_iff.
      + now apply mem_str_false.
    - intros r1' Heq. rewrite Heq in Hr. now apply negb_mem_str. }
  destruct (UserService.uu_name updates), (UserService.uu_email updates),
    (UserService.uu_role updates), (UserService.uu_is_active updates);
    unfold ret; try apply Hupd.
  intros H. injection H as _ <-. now left.
Qed.

Lemma resetUserPassword_step (e : Env) (id : Z) (newPassword password_hash : string)
    (d d' : Db) (r : result unit) :
  UserService.resetUserPassword e id newPassword password_hash d = (r, d') ->
  d' = d \/ db_step d d'.
Proof.
  unfold UserService.resetUserPassword, bind, get.
  destruct (UserService.getUserById id d);
    [|unfold throw; intros H; injection H as _ <-; now left].
  destruct (_ <? 6)%nat; [unfold throw; intros H; injection H as _ <-; now left|].
  unfold put. intros H. injection H as _ <-. right.
  apply (step_reset_password d e id password_hash).
Qed.

Lemma deleteUser_step (id : Z) (article_authors : list Z) (d d' : Db) (r : result bool) :
  UserService.deleteUser id article_authors d = (r, d') ->
  d' = d \/ db_step d d'.
Proof.
  unfold UserService.deleteUser, bind, get.
  destruct (UserService.getUserById id d);
    [|unfold throw; intros H; injection H as _ <-; now left].
  destruct (0 <? _); [unfold throw; intros H; injection H as _ <-; now left|].
  unfold UserService.delete_row.
  destruct (List.filter _ (users d)); [unfold ret; intros H; injection H as _ <-; now left|].
  destruct (UserService.referenced id article_authors d) eqn:Href;
    [intros H; injection H as _ <-; now left|].
  unfold ret. intros H. injection H as _ <-. right.
  now apply (step_delete_user d id article_authors).
Qed.

Ltac open_controller :=
  unfold UserService.deactivateUser, UserService.activateUser;
  unfold handle, bind, get, ret, throw, liftDb, liftFs; cbv beta.

Ltac split_service :=
  match goal with
  | |- context [TicketService.createTicket ?a ?b ?c ?d] =>
      destruct (TicketService.createTicket a b c d) as [[?|?] ?] eqn:?
  | |- context [TicketService.updateTicket ?a ?b ?c ?d] =>
      destruct (TicketService.updateTicket a b c d) as [[?|?] ?] eqn:?
  | |- context [TicketService.deleteTicket ?a ?b] =>
      destruct (TicketService.deleteTicket a b) as [[?|?] ?] eqn:?
  | |- context [TicketService.addMessage ?a ?b ?c ?d ?f] =>
      destruct (TicketService.addMessage a b c d f) as [[?|?] ?] eqn:?
  | |- context [FileService.uploadFile ?a ?b ?c ?d ?f] =>
      destruct (FileService.uploadFile a b c d f) as [[?|?] ?] eqn:?
  | |- context [FileService.deleteAttachment ?a ?b] =>
      destruct (FileService.deleteAttachment a b) as [[?|?] ?] eqn:?
  | |- context [UserService.createUser ?a ?b ?c ?d] =>
      destruct (UserService.createUser a b c d) as [[?|?] ?] eqn:?
  | |- context [UserService.updateUser ?a ?b ?c ?d] =>
      destruct (UserService.updateUser a b c d) as [[?|?] ?] eqn:?
  | |- context [UserService.deactivateUser ?a ?b ?c] =>
      destruct (UserService.deactivateUser a b c) as [[?|?] ?] eqn:?
  | |- context [UserService.activateUser ?a ?b ?c] =>
      destruct (UserService.activateUser a b c) as [[?|?] ?] eqn:?
  | |- context [UserService.resetUserPassword ?a ?b ?c ?d ?f] =>
      destruct (UserService.resetUserPassword a b c d f) as [[?|?] ?] eqn:?
  | |- context [UserService.deleteUser ?a ?b ?c] =>
      destruct (UserService.deleteUser a b c) as [[?|?] ?] eqn:?
  end.

(** case analysis on the innermost scrutinee first *)
Ltac split_cases :=
  repeat match goal with
         | |- context [match ?x with _ => _ end] =>
             lazymatch x with
             | context [match _ with _ => _ end] => fail
             | _ => destruct x eqn:?
             end
         end.

Ltac close_step :=
  simpl;
  first
    [ left; reflexivity
    | match goal with
      | H : TicketService.createTicket _ _ _ _ = _ |- _ =>
          exact (createTicket_step _ _ _ _ _ _ H)
      | H : TicketService.updateTicket _ _ _ _ = _ |- _ =>
          exact (updateTicket_step _ _ _ _ _ _ H)
      | H : TicketService.deleteTicket _ _ = _ |- _ =>
          exact (deleteTicket_step _ _ _ _ H)
      | H : TicketService.addMessage _ _ _ _ _ = _ |- _ =>
          exact (addMessage_step _ _ _ _ _ _ _ H)
      | H : FileService.uploadFile _ _ _ _ _ = _ |- _ =>
          exact (uploadFile_step _ _ _ _ _ _ _ H)
      | H : FileService.deleteAttachment _ _ = _ |- _ =>
          exact (deleteAttachment_step _ _ _ _ H)
      | H : UserService.createUser _ _ _ _ = _ |- _ =>
          exact (createUser_step _ _ _ _ _ _ H)
      | H : UserService.updateUser _ _ _ _ = _ |- _ =>
          exact (updateUser_step _ _ _ _ _ _ H)
      | H : UserService.deactivateUser _ _ _ = _ |- _ =>
          exact (updateUser_step _ _ _ _ _ _ H)
      | H : UserService.activateUser _ _ _ = _ |- _ =>
          exact (updateUser_step _ _ _ _ _ _ H)
      | H : UserService.resetUserPassword _ _ _ _ _ = _ |- _ =>
          exact (resetUserPassword_step _ _ _ _ _ _ _ H)
      | H : UserService.deleteUser _ _ _ = _ |- _ =>
          exact (deleteUser_step _ _ _ _ _ H)
      end ].

(** Whatever the request and whoever the caller, the tables are left as
    they were or changed by one step. *)
Lemma serve_step (user : option AuthUser) (r : App.Request) (w : World) :
  db (snd (App.serve user r w)) = db w \/
  db_step (db w) (db (snd (App.serve user r w))).
Proof.
  destruct r; unfold App.serve, App.admin_route, Routes.post_ticket, Routes.get_tickets,
    Routes.get_search, Routes.get_ticket, Routes.put_ticket, Routes.delete_ticket,
    Routes.post_message, Routes.get_messages, Routes.post_attachment,
    Routes.get_attachments, Routes.get_download, Routes.delete_attachment,
    Routes.guarded, Routes.authenticate, requireAdmin;
    (destruct user as [u|]; [|left; reflexivity]).
  - unfold TicketController.createTicket. open_controller. try split_service; split_cases; close_step.
  - unfold TicketController.getTickets. open_controller. try split_service; split_cases; close_step.
  - unfold TicketController.searchTickets. open_controller. try split_service; split_cases; close_step.
  - unfold TicketController.getTicketById. open_controller. try split_service; split_cases; close_step.
  - unfold TicketController.updateTicket. open_controller. try split_service; split_cases; close_step.
  - unfold TicketController.deleteTicket. open_controller. try split_service; split_cases; close_step.
  - unfold TicketController.addMessage. open_controller. try split_service; split_cases; close_step.
  - unfold TicketController.getTicketMessages. open_controller. try split_service; split_cases; close_step.
  - unfold UploadController.uploadAttachment. open_controller. try split_service; split_cases; close_step.
  - unfold UploadController.getTicketAttachments. open_controller. try split_service; split_cases; close_step.
  - unfold UploadController.downloadAttachment. open_controller. try split_service; split_cases; close_step.
  - unfold UploadController.deleteAttachment. open_controller. try split_service; split_cases; close_step.
  - unfold UserController.getAllUsers. open_controller. try split_service; split_cases; close_step.
  - unfold UserController.searchUsers. open_controller. try split_service; split_cases; close_step.
  - unfold UserController.createUser. open_controller. try split_service; split_cases; close_step.
  - unfold UserController.updateUser. open_controller. try split_service; split_cases; close_step.
  - unfold UserController.deleteUser. open_controller. try split_service; split_cases; close_step.
  - unfold UserController.resetUserPassword. open_controller. try split_service; split_cases; close_step.
  - unfold UserController.deactivateUser. open_controller. try split_service; split_cases; close_step.
  - unfold UserController.activateUser. open_controller. try split_service; split_cases; close_step.
  - unfold AuthController.getProfile. open_controller. try split_service; split_cases; close_step.
Qed.

(** ** Primary keys *)

Lemma NoDup_snoc {A : Type} (l : list A) (x : A) :
  List.NoDup l -> ~ In x l -> List.NoDup (l ++ [x]).
Proof.
  induction l as [|a l IH]; simpl; intros Hnd Hx.
  - constructor; [intros [] | constructor].
  - inversion Hnd as [|y ys Hnin Hnd']; subst. constructor.
    + rewrite in_app_iff. intros [Hin|[->|[]]]; [contradiction | apply Hx; now left].
    + apply IH; [assumption | intros Hin; apply Hx; now right].
Qed.

Lemma keys_in_insert (ids : list Z) (seq : Z) :
  keys_in ids seq ->
  keys_in (ids ++ [Sql.next_rowid seq ids]) (Sql.next_rowid seq ids).
Proof.
  intros [Hnd Hb]. pose proof (next_rowid_pos seq ids) as Hpos. split.
  - apply NoDup_snoc; [exact Hnd|].
    intros Hx. apply next_rowid_fresh with (seq := seq) in Hx. lia.
  - intros x Hx. apply in_app_iff in Hx as [Hx|[<-|[]]]; [|lia].
    pose proof (Hb x Hx). unfold Sql.next_rowid. lia.
Qed.

Lemma NoDup_map_filter {A : Type} (key : A -> Z) (p : A -> bool) (l : list A) :
  List.NoDup (List.map key l) -> List.NoDup (List.map key (List.filter p l)).
Proof.
  induction l as [|a l IH]; simpl; [trivial|].
  intros Hnd. inversion Hnd as [|x xs Hnin Hnd']; subst.
  destruct (p a); [|now apply IH]. simpl. constructor; [|now apply IH].
  intros Hin. apply Hnin. apply in_map_iff in Hin as (b & Hk & Hb).
  apply filter_In in Hb as [Hb _]. apply in_map_iff. eauto.
Qed.

Lemma In_map_filter {A : Type} (key : A -> Z) (p : A -> bool) (l : list A) (x : Z) :
  In x (List.map key (List.filter p l)) -> In x (List.map key l).
Proof.
  intros Hin. apply in_map_iff in Hin as (b & Hk & Hb).
  apply filter_In in Hb as [Hb _]. apply in_map_iff. eauto.
Qed.

Lemma keys_in_filter {A : Type} (key : A -> Z) (p : A -> bool) (l : list A) (seq : Z) :
  keys_in (List.map key l) seq -> keys_in (List.map key (List.filter p l)) seq.
Proof.
  intros [Hnd Hb]. split; [now apply NoDup_map_filter|].
  intros x Hx. apply Hb. now apply In_map_filter in Hx.
Qed.

Lemma map_key_update {A : Type} (key : A -> Z) (f : A -> A) (id : Z) (l : list A) :
  (forall a, key (f a) = key a) ->
  List.map key (List.map (fun a => if key a =? id then f a else a) l) = List.map key l.
Proof.
  intros Hk. rewrite List.map_map. apply List.map_ext.
  intros a. destruct (key a =? id); [apply Hk | reflexivity].
Qed.

Lemma map_set_password_id (e : Env) (id : Z) (h : string) (us : list UserRow) :
  List.map u_id (List.map (set_password e id h) us) = List.map u_id us.
Proof.
  rewrite List.map_map. apply List.map_ext.
  intros u. unfold set_password. now destruct (u_id u =? id).
Qed.

Lemma db_step_keys_ok (d d' : Db) : db_step d d' -> keys_ok d -> keys_ok d'.
Proof.
  intros Hstep (Hu & Ht & Hm & Ha).
  destruct Hstep as [row Hid _ _ _ _ | e id updates _ _ _ | id | row Hid _ _ _
                    | row Hid _ _ _ | id | row Hid _ _ | e id updates _ _ _
                    | e id h | id authors _];
    unfold keys_ok; simpl.
  - refine (conj Hu (conj _ (conj Hm Ha))).
    rewrite List.map_app; simpl; rewrite Hid. now apply keys_in_insert.
  - rewrite (map_key_update t_id); [tauto | reflexivity].
  - refine (conj Hu (conj _ (conj _ _))); now apply keys_in_filter.
  - refine (conj Hu (conj Ht (conj _ Ha))).
    rewrite List.map_app; simpl; rewrite Hid. now apply keys_in_insert.
  - refine (conj Hu (conj Ht (conj Hm _))).
    rewrite List.map_app; simpl; rewrite Hid. now apply keys_in_insert.
  - refine (conj Hu (conj Ht (conj Hm _))). now apply keys_in_filter.
  - refine (conj _ (conj Ht (conj Hm Ha))).
    rewrite List.map_app; simpl; rewrite Hid. now apply keys_in_insert.
  - rewrite (map_key_update u_id); [tauto|].
    intros a. now destruct (UserService.uu_is_active updates).
  - rewrite map_set_password_id. tauto.
  - refine (conj _ (conj Ht (conj Hm Ha))). now apply keys_in_filter.
Qed.

Lemma keys_grow_refl (ids : list Z) (seq : Z) : keys_grow ids seq ids seq.
Proof. split; [lia | tauto]. Qed.

Lemma keys_grow_trans (i1 i2 i3 : list Z) (s1 s2 s3 : Z) :
  keys_grow i1 s1 i2 s2 -> keys_grow i2 s2 i3 s3 -> keys_grow i1 s1 i3 s3.
Proof.
  intros [H12 K12] [H23 K23]. split; [lia|].
  intros x Hx. destruct (K23 x Hx) as [H2|H2]; [|right; lia].
  destruct (K12 x H2); [now left | now right].
Qed.

Lemma keys_grow_insert (ids : list Z) (seq : Z) :
  keys_grow ids seq (ids ++ [Sql.next_rowid seq ids]) (Sql.next_rowid seq ids).
Proof.
  assert (seq < Sql.next_rowid seq ids) by (unfold Sql.next_rowid; lia).
  split; [lia|]. intros x Hx. apply in_app_iff in Hx as [Hx|[<-|[]]]; [now left | now right].
Qed.

Lemma keys_grow_filter {A : Type} (key : A -> Z) (p : A -> bool) (l : list A) (seq : Z) :
  keys_grow (List.map key l) seq (List.map key (List.filter p l)) seq.
Proof. split; [lia|]. intros x Hx. left. now apply In_map_filter in Hx. Qed.

Lemma db_step_no_key_reuse (d d' : Db) : db_step d d' -> no_key_reuse d d'.
Proof.
  pose proof (fun ids seq => keys_grow_refl ids seq) as R.
  intros Hstep.
  destruct Hstep as [row Hid _ _ _ _ | e id updates _ _ _ | id | row Hid _ _ _
                    | row Hid _ _ _ | id | row Hid _ _ | e id updates _ _ _
                    | e id h | id authors _];
    unfold no_key_reuse; simpl.
  - refine (conj (R _ _) (conj _ (conj (R _ _) (R _ _)))).
    rewrite List.map_app; simpl; rewrite Hid. apply keys_grow_insert.
  - rewrite (map_key_update t_id); [|reflexivity].
    exact (conj (R _ _) (conj (R _ _) (conj (R _ _) (R _ _)))).
  - refine (conj (R _ _) (conj _ (conj _ _))); apply keys_grow_filter.
  - refine (conj (R _ _) (conj (R _ _) (conj _ (R _ _)))).
    rewrite List.map_app; simpl; rewrite Hid. apply keys_grow_insert.
  - refine (conj (R _ _) (conj (R _ _) (conj (R _ _) _))).
    rewrite List.map_app; simpl; rewrite Hid. apply keys_grow_insert.
  - refine (conj (R _ _) (conj (R _ _) (conj (R _ _) _))). apply keys_grow_filter.
  - refine (conj _ (conj (R _ _) (conj (R _ _) (R _ _)))).
    rewrite List.map_app; simpl; rewrite Hid. apply keys_grow_insert.
  - rewrite (map_key_update u_id).
    + exact (conj (R _ _) (conj (R _ _) (conj (R _ _) (R _ _)))).
    + intros a. now destruct (UserService.uu_is_active updates).
  - rewrite map_set_password_id.
    exact (conj (R _ _) (conj (R _ _) (conj (R _ _) (R _ _)))).
  - refine (conj _ (conj (R _ _) (conj (R _ _) (R _ _)))). apply keys_grow_filter.
Qed.

Lemma no_key_reuse_refl (d : Db) : no_key_reuse d d.
Proof.
  exact (conj (keys_grow_refl _ _) (conj (keys_grow_refl _ _)
           (conj (keys_grow_refl _ _) (keys_grow_refl _ _)))).
Qed.

Lemma no_key_reuse_trans (d1 d2 d3 : Db) :
  no_key_reuse d1 d2 -> no_key_reuse d2 d3 -> no_key_reuse d1 d3.
Proof.
  intros (A1 & B1 & C1 & D1) (A2 & B2 & C2 & D2).
  exact (conj (keys_grow_trans _ _ _ _ _ _ A1 A2)
           (conj (keys_grow_trans _ _ _ _ _ _ B1 B2)
              (conj (keys_grow_trans _ _ _ _ _ _ C1 C2)
                 (keys_grow_trans _ _ _ _ _ _ D1 D2)))).
Qed.

(** X1. Over any session of requests to the ticket, upload, account and
    profile routes the primary keys of the four tables stay distinct, positive and below their sequence, and no key is handed
    out twice: a key found after the session was there before it or lies
    above the sequence the session started from, also when rows were
    deleted in between. *)
Theorem X1_primary_keys (session : list (option AuthUser * App.Request)) (w : World) :
  keys_ok (db w) ->
  keys_ok (db (App.run session w)) /\ no_key_reuse (db w) (db (App.run session w)).
Proof.
  revert w. induction session as [|[user r] rest IH]; intros w Hk; simpl.
  - split; [exact Hk | apply no_key_reuse_refl].
  - destruct (serve_step user r w) as [Heq|Hstep].
    + destruct (IH (snd (App.serve user r w))) as [IH1 IH2]; [now rewrite Heq|].
      split; [exact IH1|]. now rewrite Heq in IH2.
    + destruct (IH (snd (App.serve user r w))) as [IH1 IH2];
        [now apply (db_step_keys_ok (db w))|].
      split; [exact IH1|].
      eapply no_key_reuse_trans; [apply db_step_no_key_reuse; exact Hstep | exact IH2].
Qed.

Lemma sample_keys_ok : keys_ok (db Sample.w0).
Proof.
  unfold keys_ok, keys_in. simpl.
  repeat split; try (intros x []); try constructor;
    try (repeat constructor; simpl; intuition lia);
    try (intros x Hx; simpl in Hx; intuition lia).
Qed.

Lemma X1_primary_keys_witness :
  keys_ok (db (App.run SampleSession.session Sample.w0)) /\
  List.map t_id (tickets (db (App.run SampleSession.session Sample.w0))) = [2].
Proof.
  split.
  - apply (X1_primary_keys SampleSession.session Sample.w0). exact sample_keys_ok.
  - vm_compute. reflexivity.
Defined.

(** ** UNIQUE columns *)

Lemma map_email_update_none (e : Env) (id : Z) (updates : UserService.UserUpdate)
    (us : list UserRow) :
  UserService.uu_email updates = None ->
  List.map u_email (List.map (fun u => if u_id u =? id
                                       then UserService.apply_update e updates u
                                       else u) us)
  = List.map u_email us.
Proof.
  intros Hnone. rewrite List.map_map. apply List.map_ext.
  intros u. destruct (u_id u =? id); [|reflexivity].
  unfold UserService.apply_update. simpl. now rewrite Hnone.
Qed.

Lemma update_other_rows (e : Env) (id : Z) (updates : UserService.UserUpdate)
    (us : list UserRow) :
  ~ In id (List.map u_id us) ->
  List.map (fun u => if u_id u =? id then UserService.apply_update e updates u else u) us
  = us.
Proof.
  induction us as [|a us IH]; simpl; [reflexivity|].
  intros Hnin. destruct (Z.eqb_spec (u_id a) id) as [Heq|Hne].
  - exfalso. apply Hnin. now left.
  - f_equal. apply IH. intros Hin. apply Hnin. now right.
Qed.

Lemma NoDup_email_update (e : Env) (id : Z) (updates : UserService.UserUpdate)
    (us : list UserRow) (m : string) :
  UserService.uu_email updates = Some m ->
  List.NoDup (List.map u_id us) ->
  List.NoDup (List.map u_email us) ->
  ~ In m (List.map u_email (List.filter (fun u => negb (u_id u =? id)) us)) ->
  List.NoDup (List.map u_email
                (List.map (fun u => if u_id u =? id
                                    then UserService.apply_update e updates u
                                    else u) us)).
Proof.
  intros Hm. induction us as [|a us IH]; simpl; intros Hid Hmail Hother; [constructor|].
  inversion Hid as [|x xs Hidn Hid']; subst.
  inversion Hmail as [|y ys Hmn Hmail']; subst.
  destruct (Z.eqb_spec (u_id a) id) as [Heq|Hne].
  - simpl in Hother. rewrite update_other_rows by (now rewrite <- Heq).
    constructor; [|assumption].
    unfold UserService.apply_update. simpl. rewrite Hm. simpl.
    intros Hin. apply Hother. apply in_map_iff in Hin as (b & Hb & Hin).
    apply in_map_iff. exists b. split; [assumption|].
    apply filter_In. split; [assumption|]. apply negb_true_iff, Z.eqb_neq.
    intros Hbid. apply Hidn. apply in_map_iff. exists b. split; [congruence | assumption].
  - simpl in Hother. constructor.
    + intros Hin. apply in_map_iff in Hin as (b & Hb & Hin).
      apply in_map_iff in Hin as (c & Hc & Hin). subst b.
      destruct (Z.eqb_spec (u_id c) id) as [Hcid|Hcid].
      * unfold UserService.apply_update in Hb. simpl in Hb. rewrite Hm in Hb.
        simpl in Hb. apply Hother. left. congruence.
      * apply Hmn. apply in_map_iff. eauto.
    + apply IH; try assumption. intros Hin. apply Hother. now right.
Qed.

Lemma NoDup_map_filter_str {A : Type} (key : A -> string) (p : A -> bool) (l : list A) :
  List.NoDup (List.map key l) -> List.NoDup (List.map key (List.filter p l)).
Proof.
  induction l as [|a l IH]; simpl; [trivial|].
  intros Hnd. inversion Hnd as [|x xs Hnin Hnd']; subst.
  destruct (p a); [|now apply IH]. simpl. constructor; [|now apply IH].
  intros Hin. apply Hnin. apply in_map_iff in Hin as (b & Hk & Hb).
  apply filter_In in Hb as [Hb _]. apply in_map_iff. eauto.
Qed.

Lemma db_step_unique_ok (d d' : Db) :
  db_step d d' -> keys_ok d -> unique_ok d -> unique_ok d'.
Proof.
  intros Hstep (Hku & _) (Hu & Ht).
  destruct Hstep as [row _ Hnum _ _ _ | e id updates _ _ _ | id | row _ _ _ _
                    | row _ _ _ _ | id | row _ Hmail _ | e id updates _ Hem _
                    | e id h | id authors _];
    unfold unique_ok; simpl; try (split; assumption).
  - split; [assumption|]. rewrite List.map_app. simpl. now apply NoDup_snoc.
  - split; [assumption|]. rewrite List.map_map.
    erewrite List.map_ext; [exact Ht|].
    intros t. now destruct (t_id t =? id).
  - split; [assumption|]. now apply NoDup_map_filter_str.
  - split; [|assumption]. rewrite List.map_app. simpl. now apply NoDup_snoc.
  - split; [|assumption].
    destruct (UserService.uu_email updates) as [m|] eqn:Hm.
    + apply (NoDup_email_update e id updates (users d) m Hm); try assumption.
      * apply Hku.
      * now apply Hem.
    + now rewrite map_email_update_none.
  - split; [|assumption]. rewrite List.map_map.
    erewrite List.map_ext; [exact Hu|].
    intros u. unfold set_password. now destruct (u_id u =? id).
  - split; [|assumption]. now apply NoDup_map_filter_str.
Qed.

(** X2. Over any session of requests to the ticket, upload, account and
    profile routes no two accounts share an e-mail address and no two
    tickets share a ticket number. *)
Theorem X2_unique_columns (session : list (option AuthUser * App.Request)) (w : World) :
  keys_ok (db w) -> unique_ok (db w) ->
  unique_ok (db (App.run session w)).
Proof.
  revert w. induction session as [|[user r] rest IH]; intros w Hk Hu; simpl.
  - exact Hu.
  - destruct (serve_step user r w) as [Heq|Hstep].
    + apply IH; now rewrite Heq.
    + apply IH.
      * now apply (db_step_keys_ok (db w)).
      * now apply (db_step_unique_ok (db w)).
Qed.

Lemma sample_unique_ok : unique_ok (db Sample.w0).
Proof.
  unfold unique_ok. simpl. split; [|constructor].
  repeat constructor; simpl; intuition discriminate.
Qed.

Lemma X2_unique_columns_witness :
  unique_ok (db (App.run SampleSession.session Sample.w0)).
Proof.
  apply (X2_unique_columns SampleSession.session Sample.w0).
  - exact sample_keys_ok.
  - exact sample_unique_ok.
Defined.

(** ** Foreign keys *)

Lemma In_map_snoc {A : Type} (key : A -> Z) (l : list A) (row : A) (x : Z) :
  In x (List.map key l) -> In x (List.map key (l ++ [row])).
Proof. intros H. rewrite List.map_app, in_app_iff. now left. Qed.

Lemma In_map_kept {A : Type} (key : A -> Z) (id x : Z) (l : list A) :
  In x (List.map key l) -> x <> id ->
  In x (List.map key (List.filter (fun a => negb (key a =? id)) l)).
Proof.
  intros Hin Hne. apply in_map_iff in Hin as (a & Hk & Ha).
  apply in_map_iff. exists a. split; [assumption|].
  apply filter_In. split; [assumption|]. apply negb_true_iff, Z.eqb_neq. congruence.
Qed.

Lemma referenced_false (id : Z) (authors : list Z) (d : Db) :
  UserService.referenced id authors d = false ->
  (forall t, In t (tickets d) -> t_user_id t <> id /\ t_assigned_to t <> Some id) /\
  (forall m, In m (ticket_messages d) -> m_user_id m <> id) /\
  (forall a, In a (attachments d) -> a_uploaded_by a <> id).
Proof.
  unfold UserService.referenced. intros H.
  apply orb_false_iff in H as [H _]. apply orb_false_iff in H as [H Ha].
  apply orb_false_iff in H as [H Hm]. apply orb_false_iff in H as [Ht Hs].
  split; [|split].
  - intros t Hin. split.
    + intros Heq. apply not_true_iff_false in Ht. apply Ht. apply mem_Z_In.
      rewrite <- Heq. now apply in_map.
    + intros Heq. apply not_true_iff_false in Hs. apply Hs. apply existsb_exists.
      exists t. split; [assumption|]. rewrite Heq. apply Z.eqb_refl.
  - intros m Hin Heq. apply not_true_iff_false in Hm. apply Hm. apply mem_Z_In.
    rewrite <- Heq. now apply in_map.
  - intros a Hin Heq. apply not_true_iff_false in Ha. apply Ha. apply mem_Z_In.
    rewrite <- Heq. now apply in_map.
Qed.

Lemma db_step_refs_ok (d d' : Db) : db_step d d' -> refs_ok d -> refs_ok d'.
Proof.
  intros Hstep (Ht & Hm & Ha).
  destruct Hstep as [row _ _ Huser Hnone _ | e id updates _ _ Hassign | id
                    | row _ Htk Hus _ | row _ Htk Hus _ | id | row _ _ _
                    | e id updates _ _ _ | e id h | id authors Href];
    unfold refs_ok; simpl.
  - split; [|split].
    + intros t Hin. apply in_app_iff in Hin as [Hin|[<-|[]]].
      * exact (Ht t Hin).
      * split; [assumption|]. intros a Heq. congruence.
    + intros m Hin. destruct (Hm m Hin). split; [now apply In_map_snoc | assumption].
    + intros a Hin. destruct (Ha a Hin). split; [now apply In_map_snoc | assumption].
  - rewrite (map_key_update t_id) by reflexivity.
    split; [|split; assumption].
    intros t Hin. apply in_map_iff in Hin as (t0 & Heq & Hin0).
    destruct (Ht t0 Hin0) as [Hu Has].
    destruct (t_id t0 =? id); [|subst t; now split].
    subst t. unfold TicketService.apply_update. simpl. split; [assumption|].
    intros a Heq.
    destruct (TicketService.up_assigned_to updates) as [[a'|]|] eqn:Hup; simpl in Heq.
    + injection Heq as <-. now apply Hassign.
    + discriminate.
    + now apply Has.
  - split; [|split].
    + intros t Hin. apply filter_In in Hin as [Hin _]. exact (Ht t Hin).
    + intros m Hin. apply filter_In in Hin as [Hin Hne].
      apply negb_true_iff, Z.eqb_neq in Hne. destruct (Hm m Hin).
      split; [now apply In_map_kept | assumption].
    + intros a Hin. apply filter_In in Hin as [Hin Hne].
      apply negb_true_iff, Z.eqb_neq in Hne. destruct (Ha a Hin).
      split; [now apply In_map_kept | assumption].
  - split; [assumption|]. split; [|assumption].
    intros m Hin. apply in_app_iff in Hin as [Hin|[<-|[]]]; [exact (Hm m Hin) | now split].
  - split; [assumption|]. split; [assumption|].
    intros a Hin. apply in_app_iff in Hin as [Hin|[<-|[]]]; [exact (Ha a Hin) | now split].
  - split; [assumption|]. split; [assumption|].
    intros a Hin. apply filter_In in Hin as [Hin _]. exact (Ha a Hin).
  - split; [|split].
    + intros t Hin. destruct (Ht t Hin) as [Hu Has].
      split; [now apply In_map_snoc|]. intros a Heq. apply In_map_snoc. now apply Has.
    + intros m Hin. destruct (Hm m Hin). split; [assumption | now apply In_map_snoc].
    + intros a Hin. destruct (Ha a Hin). split; [assumption | now apply In_map_snoc].
  - rewrite (map_key_update u_id).
    + split; [|split]; assumption.
    + intros a. now destruct (UserService.uu_is_active updates).
  - rewrite map_set_password_id. split; [|split]; assumption.
  - destruct (referenced_false id authors d Href) as (Rt & Rm & Ra).
    split; [|split].
    + intros t Hin. destruct (Ht t Hin) as [Hu Has]. destruct (Rt t Hin) as [R1 R2].
      split; [now apply In_map_kept|].
      intros a Heq. apply In_map_kept; [now apply Has | congruence].
    + intros m Hin. destruct (Hm m Hin). split; [assumption|].
      apply In_map_kept; [assumption | now apply Rm].
    + intros a Hin. destruct (Ha a Hin). split; [assumption|].
      apply In_map_kept; [assumption | now apply Ra].
Qed.

(** X3. Over any session of requests to the ticket, upload, account and
    profile routes every reference holds: a ticket's
    creator and assignee are accounts, a message's ticket and author exist,
    an attachment's ticket and uploader exist. Deleting a ticket takes its
    messages and attachment rows with it, and an account that is still
    referred to cannot be deleted. *)
Theorem X3_references (session : list (option AuthUser * App.Request)) (w : World) :
  refs_ok (db w) -> refs_ok (db (App.run session w)).
Proof.
  revert w. induction session as [|[user r] rest IH]; intros w Hr; simpl.
  - exact Hr.
  - destruct (serve_step user r w) as [Heq|Hstep].
    + apply IH. now rewrite Heq.
    + apply IH. now apply (db_step_refs_ok (db w)).
Qed.

Lemma sample_refs_ok : refs_ok (db Sample.w0).
Proof. unfold refs_ok. simpl. split; [|split]; intros x []. Qed.

Lemma X3_references_witness :
  refs_ok (db (App.run SampleSession.session Sample.w0)).
Proof. apply (X3_references SampleSession.session Sample.w0). exact sample_refs_ok. Defined.

(** ** Stored values *)







(** A body with [priority: null] is answered 201 and stored with a NULL
    priority, and an update with [status: null] stores a NULL status. *)
Lemma null_is_stored :
  (exists t w',
     Routes.post_ticket Sample.env0 (Some Sample.alice)
       (TicketController.mkCreateBody (Some "Printer") (Some "It is broken")
          (Some "hardware") (Some None)) Sample.w0
     = (json 201 true (PTicket t) "Ticket created successfully", w') /\
     t_priority t = None /\ In t (tickets (db w'))) /\
  (exists t w',
     Routes.put_ticket Sample.env1 (Some Sample.admin) 1
       (TicketService.mkTicketUpdate (Some None) None None) Sample.w1
     = (json 200 true (PTicket t) "Ticket updated successfully", w') /\
     t_status t = None /\ In t (tickets (db w'))).
Proof.
  split; eexists _, _; (split; [reflexivity|]); (split; [reflexivity | now left]).
Qed.

(** ** Listings: complete and in order *)

#[local] Instance key_le_total {A : Type} (key : A -> Z) : Total (Sql.key_le key).
Proof. intros a b. unfold Sql.key_le. lia. Qed.

#[local] Instance key_le_trans {A : Type} (key : A -> Z) : Transitive (Sql.key_le key).
Proof. intros a b c. unfold Sql.key_le. lia. Qed.

#[local] Instance key_ge_total {A : Type} (key : A -> Z) : Total (Sql.key_ge key).
Proof. intros a b. unfold Sql.key_ge. lia. Qed.

#[local] Instance key_ge_trans {A : Type} (key : A -> Z) : Transitive (Sql.key_ge key).
Proof. intros a b c. unfold Sql.key_ge. lia. Qed.

Lemma order_by_asc_sorted {A : Type} (key : A -> Z) (l : list A) :
  StronglySorted (fun a b => key a <= key b) (Sql.order_by_asc key l).
Proof. apply (StronglySorted_merge_sort (Sql.key_le key)). Qed.

Lemma order_by_desc_sorted {A : Type} (key : A -> Z) (l : list A) :
  StronglySorted (fun a b => key b <= key a) (Sql.order_by_desc key l).
Proof. apply (StronglySorted_merge_sort (Sql.key_ge key)). Qed.

Lemma order_by_asc_perm {A : Type} (key : A -> Z) (l : list A) :
  Sql.order_by_asc key l ≡ₚ l.
Proof. apply merge_sort_Permutation. Qed.

Lemma order_by_desc_perm {A : Type} (key : A -> Z) (l : list A) :
  Sql.order_by_desc key l ≡ₚ l.
Proof. apply merge_sort_Permutation. Qed.

Lemma StronglySorted_map {A B : Type} (f : A -> B) (R : relation A) (R' : relation B)
    (l : list A) :
  (forall a b, R a b -> R' (f a) (f b)) ->
  StronglySorted R l -> StronglySorted R' (List.map f l).
Proof.
  intros Hf. induction 1 as [|a l Hs IH Hall]; simpl; constructor; [assumption|].
  apply List.Forall_forall. intros b Hb. apply in_map_iff in Hb as (x & <- & Hx).
  apply Hf. rewrite List.Forall_forall in Hall. now apply Hall.
Qed.

Lemma StronglySorted_filter {A : Type} (R : relation A) (p : A -> bool) (l : list A) :
  StronglySorted R l -> StronglySorted R (List.filter p l).
Proof.
  induction 1 as [|a l Hs IH Hall]; simpl; [constructor|].
  destruct (p a); [|assumption]. constructor; [assumption|].
  apply List.Forall_forall. intros b Hb. apply filter_In in Hb as [Hb _].
  rewrite List.Forall_forall in Hall. now apply Hall.
Qed.

(** With distinct account keys a message joins with exactly one account. *)
Lemma filter_unique_user (id : Z) (us : list UserRow) :
  List.NoDup (List.map u_id us) -> In id (List.map u_id us) ->
  exists u, List.filter (fun u => u_id u =? id) us = [u].
Proof.
  induction us as [|a us IH]; simpl; [tauto|].
  intros Hnd Hin. inversion Hnd as [|x xs Hnin Hnd']; subst.
  destruct (Z.eqb_spec (u_id a) id) as [Heq|Hne].
  - exists a. f_equal.
    assert (forall l, (forall u, In u l -> u_id u <> id) ->
                      List.filter (fun u => u_id u =? id) l = []) as Hnone.
    { induction l as [|b l IHl]; simpl; [reflexivity|]. intros Hall.
      destruct (Z.eqb_spec (u_id b) id) as [Hb|Hb].
      - exfalso. apply (Hall b); [now left | assumption].
      - apply IHl. intros u Hu. apply Hall. now right. }
    apply Hnone. intros u Hu Huid. apply Hnin. rewrite Heq, <- Huid. now apply in_map.
  - destruct Hin as [Hin|Hin]; [contradiction|]. now apply IH.
Qed.

Lemma join_users_ids (ms : list MessageRow) (us : list UserRow) :
  List.NoDup (List.map u_id us) ->
  (forall m, In m ms -> In (m_user_id m) (List.map u_id us)) ->
  List.map (fun r => m_id (fst r)) (TicketService.join_users ms us) = List.map m_id ms.
Proof.
  intros Hnd. induction ms as [|m ms IH]; simpl; [reflexivity|].
  intros Hall. unfold TicketService.join_users in *. simpl.
  destruct (filter_unique_user (m_user_id m) us Hnd) as [u Hu]; [apply Hall; now left|].
  rewrite Hu. simpl. f_equal. apply IH. intros m' Hm'. apply Hall. now right.
Qed.

(** X5. A ticket's thread is read in creation order, and, the keys being
    distinct and the references holding, it holds every stored message of
    the ticket exactly once; the list a member gets from the thread
    endpoint is in creation order as well. *)
Theorem X5_thread_complete_and_ordered (ticketId : Z) (d : Db) :
  StronglySorted (fun a b => tm_created_at a <= tm_created_at b)
    (TicketService.getTicketMessages ticketId d) /\
  StronglySorted (fun a b => tm_created_at a <= tm_created_at b)
    (List.filter (fun m => negb (tm_is_internal m))
       (TicketService.getTicketMessages ticketId d)) /\
  (keys_ok d -> refs_ok d ->
   List.map tm_id (TicketService.getTicketMessages ticketId d)
   ≡ₚ List.map m_id (List.filter (fun m => m_ticket_id m =? ticketId) (ticket_messages d))).
Proof.
  assert (StronglySorted (fun a b => tm_created_at a <= tm_created_at b)
            (TicketService.getTicketMessages ticketId d)) as Hsorted.
  { unfold TicketService.getTicketMessages.
    apply (StronglySorted_map TicketService.to_message
             (fun a b => m_created_at (fst a) <= m_created_at (fst b))).
    - intros [m u] [m' u']. simpl. tauto.
    - apply (order_by_asc_sorted (fun r : MessageRow * UserRow => m_created_at (fst r))). }
  split; [exact Hsorted|]. split; [now apply StronglySorted_filter|].
  intros ((Hu & _) & _) (_ & Hm & _).
  unfold TicketService.getTicketMessages. rewrite List.map_map.
  rewrite (List.map_ext (fun x => tm_id (TicketService.to_message x))
             (fun r => m_id (fst r))) by (intros [m u]; reflexivity).
  rewrite order_by_asc_perm.
  rewrite join_users_ids; [reflexivity | exact Hu|].
  intros m Hin. apply filter_In in Hin as [Hin _]. now apply Hm.
Qed.

Lemma X5_thread_complete_and_ordered_witness :
  List.map tm_id (TicketService.getTicketMessages 1 (db SampleThread.w2)) ≡ₚ [1].
Proof.
  apply (X5_thread_complete_and_ordered 1 (db SampleThread.w2)).
  - unfold keys_ok, keys_in. simpl.
    repeat split; try (repeat constructor; simpl; intuition lia);
      try (intros x Hx; simpl in Hx; intuition lia).
  - unfold refs_ok. simpl. split; [|split].
    + intros t [<-|[]]. simpl. split; [tauto | discriminate].
    + intros m [<-|[]]. simpl. tauto.
    + intros a [].
Defined.

(** X6. The ticket list an authenticated caller gets is newest first and
    holds, each exactly once, every stored ticket for an administrator
    and the caller's own tickets for anyone else; a search answers newest
    first as well, and the state is left as it was. *)
Theorem X6_ticket_listing (u : AuthUser) (w : World) :
  (exists l,
     TicketController.getTickets (Some u) w
     = (json 200 true (PTickets l) "Tickets retrieved successfully", w) /\
     StronglySorted (fun a b => t_created_at b <= t_created_at a) l /\
     l ≡ₚ List.filter (fun t => is_admin u || (t_user_id t =? userId u)) (tickets (db w))) /\
  (forall query userId,
     StronglySorted (fun a b => t_created_at b <= t_created_at a)
       (TicketService.searchTickets query userId (db w))).
Proof.
  split.
  - unfold TicketController.getTickets, handle, bind, get, ret.
    eexists. split; [reflexivity|].
    destruct (is_admin u) eqn:Hadmin.
    + split; [apply order_by_desc_sorted|].
      unfold TicketService.getAllTickets. rewrite order_by_desc_perm.
      simpl. clear. induction (tickets (db w)) as [|t l IH]; simpl; [reflexivity|].
      now rewrite <- IH.
    + split; [apply order_by_desc_sorted|].
      unfold TicketService.getTicketsByUser. now rewrite order_by_desc_perm.
  - intros query uid. apply order_by_desc_sorted.
Qed.

(** ** Updating a ticket *)

Lemma find_other_updated {A : Type} (key : A -> Z) (f : A -> A) (id id' : Z) (l : list A) :
  (forall a, key (f a) = key a) -> id' <> id ->
  List.find (fun a => key a =? id')
    (List.map (fun a => if key a =? id then f a else a) l)
  = List.find (fun a => key a =? id') l.
Proof.
  intros Hk Hne. induction l as [|a l IH]; simpl; [reflexivity|].
  destruct (Z.eqb_spec (key a) id) as [Heq|Hneq].
  - rewrite Hk. destruct (Z.eqb_spec (key a) id'); [congruence | exact IH].
  - destruct (Z.eqb_spec (key a) id'); [reflexivity | exact IH].
Qed.

Lemma update_row_valid (e : Env) (id : Z) (updates : TicketService.TicketUpdate) (d : Db) :
  update_valid updates d ->
  TicketService.update_row e id updates d
  = (Ok tt,
     mkDb (users d)
          (List.map (fun t => if t_id t =? id
                              then TicketService.apply_update e updates t else t)
                    (tickets d))
          (ticket_messages d) (attachments d)
          (seq_users d) (seq_tickets d) (seq_messages d) (seq_attachments d)).
Proof.
  intros (Hs & Hp & Ha). unfold TicketService.update_row.
  destruct (TicketService.up_status updates) as [s|].
  - rewrite (proj2 (check_in_spec s _) (Hs s eq_refl)). cbn [negb].
    destruct (TicketService.up_priority updates) as [p|].
    + rewrite (proj2 (check_in_spec p _) (Hp p eq_refl)). cbn [negb].
      destruct (TicketService.up_assigned_to updates) as [[a|]|]; try reflexivity.
      now rewrite (proj2 (mem_Z_In a _) (Ha a eq_refl)).
    + destruct (TicketService.up_assigned_to updates) as [[a|]|]; try reflexivity.
      now rewrite (proj2 (mem_Z_In a _) (Ha a eq_refl)).
  - destruct (TicketService.up_priority updates) as [p|].
    + rewrite (proj2 (check_in_spec p _) (Hp p eq_refl)). cbn [negb].
      destruct (TicketService.up_assigned_to updates) as [[a|]|]; try reflexivity.
      now rewrite (proj2 (mem_Z_In a _) (Ha a eq_refl)).
    + destruct (TicketService.up_assigned_to updates) as [[a|]|]; try reflexivity.
      now rewrite (proj2 (mem_Z_In a _) (Ha a eq_refl)).
Qed.

Lemma update_row_invalid (e : Env) (id : Z) (updates : TicketService.TicketUpdate) (d : Db) :
  ~ update_valid updates d ->
  exists msg, TicketService.update_row e id updates d = (Throw msg, d) /\
              errorHandler msg = json 500 false PNull "Internal server error".
Proof.
  intros Hinv. unfold TicketService.update_row.
  destruct (match TicketService.up_status updates with
            | Some s => negb (Sql.check_in s Sql.statuses) | None => false end) eqn:Hs;
    [eexists; split; [reflexivity | vm_compute; reflexivity]|].
  destruct (match TicketService.up_priority updates with
            | Some p => negb (Sql.check_in p Sql.priorities) | None => false end) eqn:Hp;
    [eexists; split; [reflexivity | vm_compute; reflexivity]|].
  destruct (match TicketService.up_assigned_to updates with
            | Some (Some a) => negb (Sql.mem_Z a (List.map u_id (users d)))
            | _ => false end) eqn:Ha;
    [eexists; split; [reflexivity | vm_compute; reflexivity]|].
  exfalso. apply Hinv. split; [|split].
  - intros s Heq. rewrite Heq in Hs. now apply negb_check_in.
  - intros p Heq. rewrite Heq in Hp. now apply negb_check_in.
  - intros a Heq. rewrite Heq in Ha. now apply negb_mem_Z.
Qed.

Lemma updateTicket_given (e : Env) (id : Z) (updates : TicketService.TicketUpdate)
    (d : Db) (t : Ticket) :
  TicketService.getTicketById id d = Some t -> update_given updates ->
  TicketService.updateTicket e id updates d
  = (let (r, d') := TicketService.update_row e id updates d in
     match r with
     | Ok _ => (Ok (TicketService.getTicketById id d'), d')
     | Throw msg => (Throw msg, d')
     end).
Proof.
  intros Hget Hgiven. unfold TicketService.updateTicket, bind, get, ret. rewrite Hget.
  unfold update_given in Hgiven. revert Hgiven.
  destruct (TicketService.up_status updates), (TicketService.up_assigned_to updates),
    (TicketService.up_priority updates); try reflexivity.
  intros [H|[H|H]]; now exfalso.
Qed.

(** X7. An update of an existing ticket with at least one field, each of
    a value the store accepts, succeeds: the ticket read back has the given
    fields set, the others as before, and the update time set to the
    current time; its number, creator, title, description, category and
    creation time are never written, every other ticket reads as before,
    and accounts, messages and attachments are untouched. *)
Theorem X7_update_ticket (e : Env) (id : Z) (updates : TicketService.TicketUpdate)
    (d : Db) (t : Ticket) :
  TicketService.getTicketById id d = Some t ->
  update_given updates ->
  update_valid updates d ->
  exists t' d',
    TicketService.updateTicket e id updates d = (Ok (Some t'), d') /\
    TicketService.getTicketById id d' = Some t' /\
    t_status t' = default (t_status t) (TicketService.up_status updates) /\
    t_priority t' = default (t_priority t) (TicketService.up_priority updates) /\
    t_assigned_to t' = default (t_assigned_to t) (TicketService.up_assigned_to updates) /\
    t_updated_at t' = now e /\
    same_ticket_identity t t' /\
    (forall id', id' <> id ->
       TicketService.getTicketById id' d' = TicketService.getTicketById id' d) /\
    List.map t_id (tickets d') = List.map t_id (tickets d) /\
    same_other_tables d d'.
Proof.
  intros Hget Hgiven Hvalid.
  rewrite (updateTicket_given e id updates d t Hget Hgiven).
  rewrite (update_row_valid e id updates d Hvalid).
  assert (forall a, t_id (TicketService.apply_update e updates a) = t_id a) as Hk
      by reflexivity.
  exists (TicketService.apply_update e updates t). eexists.
  assert (TicketService.getTicketById id
            (mkDb (users d)
               (List.map (fun t0 => if t_id t0 =? id
                                    then TicketService.apply_update e updates t0 else t0)
                  (tickets d))
               (ticket_messages d) (attachments d)
               (seq_users d) (seq_tickets d) (seq_messages d) (seq_attachments d))
          = Some (TicketService.apply_update e updates t)) as Hread.
  { unfold TicketService.getTicketById in *. cbn [tickets].
    rewrite (find_updated t_id (TicketService.apply_update e updates) id (tickets d) Hk).
    now rewrite Hget. }
  split; [now rewrite Hread|]. split; [exact Hread|].
  do 4 (split; [reflexivity|]).
  split; [repeat split|]. split; [|split].
  - intros id' Hne. unfold TicketService.getTicketById. cbn [tickets].
    now apply find_other_updated.
  - cbn [tickets]. rewrite List.map_map. apply List.map_ext.
    intros a. now destruct (t_id a =? id).
  - repeat split.
Qed.

Lemma X7_update_ticket_witness :
  exists t' d',
    TicketService.updateTicket Sample.env1 1
      (TicketService.mkTicketUpdate (Some (Some "in_progress")) (Some (Some 1)) None)
      (db Sample.w1) = (Ok (Some t'), d') /\
    t_status t' = Some "in_progress" /\ t_assigned_to t' = Some 1 /\
    t_priority t' = Some "medium" /\
    t_updated_at t' = 1001 /\ t_ticket_number t' = "TKT-2026-0042".
Proof.
  destruct (X7_update_ticket Sample.env1 1
              (TicketService.mkTicketUpdate (Some (Some "in_progress")) (Some (Some 1)) None)
              (db Sample.w1) Sample.ticket1)
    as (t' & d' & Hrun & _ & Hs & Hp & Ha & Hu & (_ & Hn & _) & _).
  - reflexivity.
  - left. discriminate.
  - split; [|split]; simpl.
    + intros s [= <-]. simpl. tauto.
    + intros p [=].
    + intros a [= <-]. tauto.
  - exists t', d'. repeat split; assumption.
Defined.

(** X8. What the update endpoint answers an administrator when it does
    not apply an update: 404 [Ticket not found] for an id with no ticket;
    the ticket as stored, update time included, for a body with none of
    the three fields; and 500 [Internal server error] for a value the store
    rejects (a status or priority that is neither [null] nor in the
    schema's lists, an assignee that is no account). In all three cases the state is unchanged. *)
Theorem X8_update_ticket_rejected (e : Env) (u : AuthUser) (id : Z)
    (updates : TicketService.TicketUpdate) (w : World) :
  role u = "admin" ->
  (TicketService.getTicketById id (db w) = None ->
   Routes.put_ticket e (Some u) id updates w
   = (json 404 false PNull "Ticket not found", w)) /\
  (forall t, TicketService.getTicketById id (db w) = Some t ->
     ~ update_given updates ->
     Routes.put_ticket e (Some u) id updates w
     = (json 200 true (PTicket t) "Ticket updated successfully", w)) /\
  (forall t, TicketService.getTicketById id (db w) = Some t ->
     update_given updates -> ~ update_valid updates (db w) ->
     Routes.put_ticket e (Some u) id updates w
     = (json 500 false PNull "Internal server error", w)).
Proof.
  intros Hadmin. apply is_admin_iff in Hadmin.
  unfold Routes.put_ticket, Routes.guarded, Routes.authenticate, requireAdmin.
  rewrite Hadmin. cbn [negb].
  unfold TicketController.updateTicket, handle, bind, liftDb, ret.
  split; [|split].
  - intros Hget. unfold TicketService.updateTicket, bind, get, throw. rewrite Hget.
    destruct w as [d f]. reflexivity.
  - intros t Hget Hnone. unfold TicketService.updateTicket, bind, get, ret. rewrite Hget.
    destruct (TicketService.up_status updates) eqn:Hs;
      [exfalso; apply Hnone; left; congruence|].
    destruct (TicketService.up_assigned_to updates) eqn:Ha;
      [exfalso; apply Hnone; right; left; congruence|].
    destruct (TicketService.up_priority updates) eqn:Hp;
      [exfalso; apply Hnone; right; right; congruence|].
    destruct w as [d f]. reflexivity.
  - intros t Hget Hgiven Hinv.
    rewrite (updateTicket_given e id updates (db w) t Hget Hgiven).
    destruct (update_row_invalid e id updates (db w) Hinv) as (msg & -> & Herr).
    rewrite Herr. destruct w as [d f]. reflexivity.
Qed.

Lemma X8_update_ticket_rejected_witness :
  Routes.put_ticket Sample.env1 (Some Sample.admin) 1
    (TicketService.mkTicketUpdate (Some (Some "done")) None None) Sample.w1
  = (json 500 false PNull "Internal server error", Sample.w1).
Proof.
  apply (X8_update_ticket_rejected Sample.env1 Sample.admin 1
           (TicketService.mkTicketUpdate (Some (Some "done")) None None) Sample.w1 eq_refl)
    with (t := Sample.ticket1).
  - reflexivity.
  - left. discriminate.
  - intros (Hs & _). specialize (Hs (Some "done") eq_refl). simpl in Hs.
    repeat (destruct Hs as [Hs|Hs]; [discriminate|]). exact Hs.
Defined.

(** ** Deleting a ticket *)

Section FilterByKey.
Context {A : Type} (key : A -> Z).

Lemma filter_kept_other (id id' : Z) (l : list A) :
  id' <> id ->
  List.filter (fun a => key a =? id') (List.filter (fun a => negb (key a =? id)) l)
  = List.filter (fun a => key a =? id') l.
Proof.
  intros Hne. induction l as [|a l IH]; simpl; [reflexivity|].
  destruct (Z.eqb_spec (key a) id) as [Heq|Hneq]; simpl.
  - destruct (Z.eqb_spec (key a) id'); [congruence | exact IH].
  - destruct (Z.eqb_spec (key a) id'); [now rewrite IH | exact IH].
Qed.

Lemma filter_kept_same (id : Z) (l : list A) :
  List.filter (fun a => key a =? id) (List.filter (fun a => negb (key a =? id)) l) = [].
Proof.
  induction l as [|a l IH]; simpl; [reflexivity|].
  destruct (Z.eqb_spec (key a) id) as [Heq|Hneq]; simpl; [exact IH|].
  destruct (Z.eqb_spec (key a) id); [contradiction | exact IH].
Qed.

Lemma find_kept_other (id id' : Z) (l : list A) :
  id' <> id ->
  List.find (fun a => key a =? id') (List.filter (fun a => negb (key a =? id)) l)
  = List.find (fun a => key a =? id') l.
Proof.
  intros Hne. induction l as [|a l IH]; simpl; [reflexivity|].
  destruct (Z.eqb_spec (key a) id) as [Heq|Hneq]; simpl.
  - destruct (Z.eqb_spec (key a) id'); [congruence | exact IH].
  - destruct (Z.eqb_spec (key a) id'); [reflexivity | exact IH].
Qed.

Lemma find_kept_same (id : Z) (l : list A) :
  List.find (fun a => key a =? id) (List.filter (fun a => negb (key a =? id)) l) = None.
Proof.
  induction l as [|a l IH]; simpl; [reflexivity|].
  destruct (Z.eqb_spec (key a) id) as [Heq|Hneq]; simpl; [exact IH|].
  destruct (Z.eqb_spec (key a) id); [contradiction | exact IH].
Qed.

Lemma In_kept (id : Z) (l : list A) (a : A) :
  In a (List.filter (fun a => negb (key a =? id)) l) <-> In a l /\ key a <> id.
Proof.
  rewrite filter_In, negb_true_iff, Z.eqb_neq. tauto.
Qed.

Lemma find_some_filter (id : Z) (l : list A) (a : A) :
  List.find (fun a => key a =? id) l = Some a ->
  List.filter (fun a => key a =? id) l <> [].
Proof.
  induction l as [|b l IH]; simpl; [discriminate|].
  destruct (key b =? id); [discriminate | exact IH].
Qed.

Lemma find_none_filter (id : Z) (l : list A) :
  List.find (fun a => key a =? id) l = None ->
  List.filter (fun a => key a =? id) l = [].
Proof.
  induction l as [|b l IH]; simpl; [reflexivity|].
  destruct (key b =? id); [discriminate | exact IH].
Qed.
End FilterByKey.

Lemma delete_ticket_hit (id : Z) (d : Db) (t : Ticket) :
  TicketService.getTicketById id d = Some t ->
  TicketService.deleteTicket id d = (Ok true, without_ticket id d).
Proof.
  intros Hget. unfold TicketService.deleteTicket, bind, ret, Sql.delete_ticket.
  apply (find_some_filter t_id) in Hget.
  destruct (List.filter (fun t0 => t_id t0 =? id) (tickets d)) as [|x l] eqn:Hhit;
    [contradiction|].
  unfold without_ticket.
  replace (0 <? Z.of_nat (length (x :: l))) with true; [reflexivity|].
  symmetry. apply Z.ltb_lt. simpl length. lia.
Qed.

(** X9. An administrator's delete of an existing ticket answers 200 and
    cascades: the ticket, its messages and its attachment rows are gone and
    the rows that remain are exactly those of the other tickets, which read
    as before; accounts are untouched, and so is the disk: the blobs of the
    deleted ticket's attachments stay where they were. A read of the ticket
    afterwards answers 404, as does the delete of an id with no ticket,
    which changes nothing. *)
Theorem X9_delete_ticket_cascade (u : AuthUser) (id : Z) (w : World) :
  role u = "admin" ->
  (forall t, TicketService.getTicketById id (db w) = Some t ->
   exists w',
     Routes.delete_ticket (Some u) id w
     = (json 200 true PNull "Ticket deleted successfully", w') /\
     disk w' = disk w /\ users (db w') = users (db w) /\
     (forall t', In t' (tickets (db w')) <-> In t' (tickets (db w)) /\ t_id t' <> id) /\
     (forall m, In m (ticket_messages (db w')) <->
                In m (ticket_messages (db w)) /\ m_ticket_id m <> id) /\
     (forall a, In a (attachments (db w')) <->
                In a (attachments (db w)) /\ a_ticket_id a <> id) /\
     TicketService.getTicketMessages id (db w') = [] /\
     FileService.getTicketAttachments id (db w') = [] /\
     (forall id', id' <> id ->
        TicketService.getTicketById id' (db w') = TicketService.getTicketById id' (db w) /\
        TicketService.getTicketMessages id' (db w')
        = TicketService.getTicketMessages id' (db w) /\
        FileService.getTicketAttachments id' (db w')
        = FileService.getTicketAttachments id' (db w)) /\
     Routes.get_ticket (Some u) id w' = (json 404 false PNull "Ticket not found", w')) /\
  (TicketService.getTicketById id (db w) = None ->
   Routes.delete_ticket (Some u) id w = (json 404 false PNull "Ticket not found", w)).
Proof.
  intros Hadmin. apply is_admin_iff in Hadmin.
  unfold Routes.delete_ticket, Routes.guarded, Routes.authenticate, requireAdmin.
  rewrite Hadmin. cbn [negb].
  unfold TicketController.deleteTicket, handle, bind, liftDb, ret.
  split.
  - intros t Hget. rewrite (delete_ticket_hit id (db w) t Hget). cbn [negb].
    eexists. split; [reflexivity|]. cbn [db disk].
    unfold without_ticket. cbn [users tickets ticket_messages attachments].
    split; [reflexivity|]. split; [reflexivity|].
    split; [intros t'; apply (In_kept t_id)|].
    split; [intros m; apply (In_kept m_ticket_id)|].
    split; [intros a; apply (In_kept a_ticket_id)|].
    split.
    { unfold TicketService.getTicketMessages. cbn [users ticket_messages].
      now rewrite (filter_kept_same m_ticket_id). }
    split.
    { unfold FileService.getTicketAttachments. cbn [attachments].
      now rewrite (filter_kept_same a_ticket_id). }
    split.
    { intros id' Hne. split; [|split].
      - unfold TicketService.getTicketById. cbn [tickets].
        now apply (find_kept_other t_id).
      - unfold TicketService.getTicketMessages. cbn [users ticket_messages].
        now rewrite (filter_kept_other m_ticket_id).
      - unfold FileService.getTicketAttachments. cbn [attachments].
        now rewrite (filter_kept_other a_ticket_id). }
    unfold Routes.get_ticket, Routes.guarded, Routes.authenticate,
      TicketController.getTicketById, handle, bind, get, ret,
      TicketService.getTicketWithDetails, TicketService.getTicketById.
    cbn [db tickets]. now rewrite (find_kept_same t_id).
  - intros Hget. unfold TicketService.deleteTicket, bind, ret, Sql.delete_ticket.
    rewrite (find_none_filter t_id id (tickets (db w)) Hget).
    destruct w as [d f]. reflexivity.
Qed.

Lemma X9_delete_ticket_cascade_witness :
  exists w',
    Routes.delete_ticket (Some Sample.admin) 1 SampleFiles.w3
    = (json 200 true PNull "Ticket deleted successfully", w') /\
    disk w' = disk SampleFiles.w3 /\
    FileService.getTicketAttachments 1 (db w') = [].
Proof.
  destruct (X9_delete_ticket_cascade Sample.admin 1 SampleFiles.w3 eq_refl) as [Hhit _].
  destruct (Hhit Sample.ticket1 eq_refl) as (w' & Hrun & Hdisk & _ & _ & _ & _ & _ & Hatt & _).
  exists w'. repeat split; assumption.
Defined.

(** ** Upload, then download *)





(** ** Uploads that fail after the validation *)

Lemma uploadFile_Throw (e : Env) (ticketId userId : Z) (file : FileService.MulterFile)
    (w w' : World) (msg : string) :
  FileService.uploadFile e ticketId userId file w = (Throw msg, w') -> db w' = db w.
Proof.
  unfold FileService.uploadFile.
  destruct (FileService.MAX_FILE_SIZE <? FileService.size file) eqn:Hs;
    [unfold throw; intros H; now injection H as _ <-|].
  destruct (Sql.mem_str (FileService.mimetype file) FileService.allowedMimeTypes) eqn:Hm;
    [|unfold throw; intros H; now injection H as _ <-].
  unfold bind, get, liftFs, liftDb, ret. cbv beta iota delta [negb].
  assert (forall f1 : Fs,
    (let (r0, s'0) :=
       let (r0, f') := fs.writeFileSync
                         (FileService.join_upload_dir
                            (helpers.generateUniqueFilename e (FileService.originalname file)))
                         (FileService.buffer file) f1 in
       (r0, mkWorld (db w) f') in
     match r0 with
     | Ok _ =>
         let (r1, s'1) :=
           let (r1, d') :=
             Sql.insert_attachment e ticketId (FileService.originalname file)
               (helpers.generateUniqueFilename e (FileService.originalname file))
               (FileService.join_upload_dir
                  (helpers.generateUniqueFilename e (FileService.originalname file)))
               (FileService.size file) (FileService.mimetype file) userId (db s'0) in
           (r1, mkWorld d' (disk s'0)) in
         match r1 with
         | Ok a1 => (Ok (FileService.getAttachmentById a1 (db s'1)), s'1)
         | Throw msg => (Throw msg, s'1)
         end
     | Throw msg => (Throw msg, s'0)
     end) = (Throw msg, w') -> db w' = db w) as Hrest.
  { intros f1. destruct (fs.writeFileSync _ _ f1) as [[[]|msg'] f2].
    2:{ intros H. now injection H as _ <-. }
    simpl. unfold Sql.insert_attachment.
    destruct (negb (Sql.mem_Z ticketId _)) eqn:Ht;
      [intros H; now injection H as _ <-|].
    destruct (negb (Sql.mem_Z userId _)) eqn:Hu;
      [intros H; now injection H as _ <-|].
    discriminate. }
  destruct (fs.existsSync FileService.UPLOAD_DIR (disk w)).
  - intros H. exact (Hrest _ H).
  - intros H. exact (Hrest _ H).
Qed.

Lemma errorHandler_fails (msg : string) : success (errorHandler msg) = false.
Proof.
  unfold errorHandler.
  destruct (includes msg "required" || includes msg "Invalid"); [reflexivity|].
  destruct (includes msg "not found"); [reflexivity|].
  destruct (includes msg "already exists"); reflexivity.
Qed.

(** X11. An upload that throws, for whatever reason, leaves every table
    as it was. But the row is inserted after the file is written, so when
    the INSERT fails (the caller's account is no longer in the users
    table, as for a token that outlives its account) the answer is 500
    and the uploaded bytes stay on disk with no row naming them. When the
    write itself fails the request fails and nothing is stored anywhere. *)
Theorem X11_upload_failure (e : Env) (u : AuthUser) (ticketId : Z)
    (file : FileService.MulterFile) (w : World) (ticket : Ticket) :
  TicketService.getTicketById ticketId (db w) = Some ticket ->
  role u = "admin" \/ t_user_id ticket = userId u ->
  FileService.size file <= FileService.MAX_FILE_SIZE ->
  In (FileService.mimetype file) FileService.allowedMimeTypes ->
  upload_path e file ∉ dirs (disk w) ->
  (forall msg w', FileService.uploadFile e ticketId (userId u) file w = (Throw msg, w') ->
                  db w' = db w) /\
  (upload_path e file ∉ faulty (disk w) ->
   ~ In (userId u) (List.map u_id (users (db w))) ->
   exists w',
     Routes.post_attachment e (Some u) ticketId (Some file) w
     = (json 500 false PNull "Internal server error", w') /\
     db w' = db w /\
     files (disk w') !! upload_path e file = Some (FileService.buffer file)) /\
  (upload_path e file ∈ faulty (disk w) ->
   exists r w',
     Routes.post_attachment e (Some u) ticketId (Some file) w = (r, w') /\
     success r = false /\ db w' = db w /\ files (disk w') = files (disk w)).
Proof.
  intros Hget Hown Hs Hm Hd.
  split; [intros msg w'; apply uploadFile_Throw|].
  assert (negb (is_admin u) && negb (t_user_id ticket =? userId u) = false) as Hallowed.
  { destruct Hown as [Hadmin|Howner].
    - apply is_admin_iff in Hadmin. now rewrite Hadmin.
    - rewrite Howner, Z.eqb_refl. apply andb_false_r. }
  assert ((FileService.MAX_FILE_SIZE <? FileService.size file) = false) as Hsize
    by (apply Z.ltb_ge; lia).
  apply mem_str_In in Hm.
  assert (Sql.mem_Z ticketId (List.map t_id (tickets (db w))) = true) as Hin.
  { apply mem_Z_In. apply (find_some_key t_id) in Hget as [<- Hin]. now apply in_map. }
  split.
  - intros Hf Hnu.
    assert (Sql.mem_Z (userId u) (List.map u_id (users (db w))) = false) as Hu.
    { destruct (Sql.mem_Z (userId u) (List.map u_id (users (db w)))) eqn:Hmem;
        [|reflexivity].
      apply mem_Z_In in Hmem. contradiction. }
    unfold Routes.post_attachment, Routes.guarded, Routes.authenticate,
      UploadController.uploadAttachment, handle, bind, get, ret.
    rewrite Hget, Hallowed.
    unfold FileService.uploadFile. rewrite Hsize, Hm. simpl negb. cbv iota.
    fold (upload_path e file).
    unfold bind, get, liftFs, liftDb, ret. cbv beta.
    destruct (negb (fs.existsSync FileService.UPLOAD_DIR (disk w))) eqn:Hex.
    + unfold fs.mkdirSync, fs.writeFileSync. simpl. rewrite Hex. simpl.
      rewrite bool_decide_eq_false_2 by assumption.
      rewrite bool_decide_eq_false_2.
      2:{ rewrite elem_of_union, elem_of_singleton. intros [Heq|Hin'];
            [now apply (upload_path_not_dir e file) | contradiction]. }
      unfold Sql.insert_attachment. simpl. rewrite Hin, Hu. simpl.
      eexists. split; [reflexivity|]. simpl.
      split; [now destruct w as [[] ?] | apply lookup_insert_eq].
    + unfold fs.writeFileSync. simpl. rewrite Hex. simpl.
      rewrite bool_decide_eq_false_2 by assumption.
      rewrite bool_decide_eq_false_2 by assumption.
      unfold Sql.insert_attachment. simpl. rewrite Hin, Hu. simpl.
      eexists. split; [reflexivity|]. simpl.
      split; [now destruct w as [[] ?] | apply lookup_insert_eq].
  - intros Hf.
    unfold Routes.post_attachment, Routes.guarded, Routes.authenticate,
      UploadController.uploadAttachment, handle, bind, get, ret.
    rewrite Hget, Hallowed.
    unfold FileService.uploadFile. rewrite Hsize, Hm. simpl negb. cbv iota.
    fold (upload_path e file).
    unfold bind, get, liftFs, liftDb, ret. cbv beta.
    destruct (negb (fs.existsSync FileService.UPLOAD_DIR (disk w))) eqn:Hex.
    + unfold fs.mkdirSync, fs.writeFileSync. simpl. rewrite Hex. simpl.
      rewrite bool_decide_eq_true_2 by assumption. simpl.
      eexists. eexists. split; [reflexivity|]. simpl.
      split; [apply errorHandler_fails|]. split; [now destruct w as [[] ?]|reflexivity].
    + unfold fs.writeFileSync. simpl. rewrite Hex. simpl.
      rewrite bool_decide_eq_true_2 by assumption. simpl.
      eexists. eexists. split; [reflexivity|]. simpl.
      split; [apply errorHandler_fails|]. split; [now destruct w as [[] ?]|reflexivity].
Qed.

Lemma X11_upload_failure_witness :
  exists w',
    Routes.post_attachment Sample.env0 (Some (mkAuthUser 9 "gone@example.com" "admin")) 1
      (Some (SampleFiles.pdf 3)) Sample.w1
    = (json 500 false PNull "Internal server error", w') /\
    db w' = db Sample.w1 /\
    files (disk w') !! SampleFiles.report_path = Some SampleFiles.report_bytes.
Proof.
  destruct (X11_upload_failure Sample.env0 (mkAuthUser 9 "gone@example.com" "admin") 1
              (SampleFiles.pdf 3) Sample.w1 Sample.ticket1) as (_ & Horphan & _).
  - reflexivity.
  - left. reflexivity.
  - vm_compute. discriminate.
  - simpl. tauto.
  - simpl. set_solver.
  - destruct Horphan as (w' & Hrun & Hdb & Hfile).
    + simpl. set_solver.
    + simpl. intros H. repeat (destruct H as [H|H]; [discriminate|]). exact H.
    + exists w'. repeat split; assumption.
Defined.

(** ** utils/helpers.ts *)

Lemma last_segment_no_dot (acc s : string) :
  no_dot s = true -> last_segment acc s = acc +:+ s.
Proof.
  revert acc. induction s as [|c s IH]; intros acc; simpl.
  - intros _. now rewrite append_nil_r.
  - unfold no_dot. simpl. intros H. apply andb_true_iff in H as [Hc Hs].
    apply negb_true_iff in Hc. rewrite Hc. rewrite (IH _ Hs).
    now rewrite append_assoc.
Qed.

Lemma last_segment_after_dot (acc base ext : string) :
  last_segment acc (base +:+ "." +:+ ext) = last_segment "" ext.
Proof.
  revert acc. induction base as [|c base IH]; intros acc.
  - reflexivity.
  - rewrite append_cons. simpl. destruct (Ascii.eqb c "."); apply IH.
Qed.

Lemma pretty_N_go_digits (x : N) (s : string) :
  all_chars is_digit s = true -> all_chars is_digit (pretty_N_go x s) = true.
Proof.
  revert s. induction (N.lt_wf_0 x) as [x _ IH]. intros s Hs.
  assert (x = 0 \/ 0 < x)%N as [->|Hpos] by lia.
  - now rewrite pretty_N_go_0.
  - rewrite pretty_N_go_step by assumption. apply IH; [now apply N.div_lt|].
    simpl. rewrite Hs, andb_true_r.
    unfold pretty_N_char. repeat case_match; reflexivity.
Qed.

Lemma pretty_Z_digits (z : Z) : 0 <= z -> all_chars is_digit (pretty z) = true.
Proof.
  intros Hz. destruct z as [|p|p]; [reflexivity| |lia].
  unfold pretty, pretty_Z, pretty, pretty_positive, pretty, pretty_N.
  case_decide; [reflexivity|]. now apply pretty_N_go_digits.
Qed.

(** Two texts that start with digits up to a dash agree on both sides of it. *)
Lemma digits_dash_inj (a b s t : string) :
  all_chars is_digit a = true -> all_chars is_digit b = true ->
  a +:+ "-" +:+ s = b +:+ "-" +:+ t -> a = b /\ s = t.
Proof.
  revert b. induction a as [|x a IH]; intros [|y b]; simpl; intros Ha Hb Heq;
    rewrite ?append_cons, ?append_nil_l in Heq.
  - injection Heq as ->. tauto.
  - injection Heq as <- _. discriminate.
  - injection Heq as -> _. discriminate.
  - injection Heq as -> Heq.
    apply andb_true_iff in Ha as [_ Ha]. apply andb_true_iff in Hb as [_ Hb].
    destruct (IH b Ha Hb Heq) as [-> ->]. tauto.
Qed.

Lemma append_same_length_inj (a b s t : string) :
  String.length a = String.length b -> a +:+ s = b +:+ t -> a = b /\ s = t.
Proof.
  revert b. induction a as [|x a IH]; intros [|y b]; simpl; intros Hlen Heq;
    try discriminate; rewrite ?append_cons, ?append_nil_l in Heq.
  - tauto.
  - injection Heq as -> Heq. injection Hlen as Hlen.
    destruct (IH b Hlen Heq) as [-> ->]. tauto.
Qed.

(** X12. The stored name of an upload is the timestamp, a dash, the
    random string, a dot and the text after the last dot of the original
    name (the whole original name when it has no dot). With timestamps
    that are not negative and random strings of one length, two stored
    names are equal only if timestamp, random string and extension all
    are: uploads that differ in the timestamp or in the random string
    never share a stored name. *)
Theorem X12_unique_filename :
  (forall e base ext, no_dot ext = true ->
     helpers.generateUniqueFilename e (base +:+ "." +:+ ext)
     = pretty (timestamp e) +:+ "-" +:+ randomString e +:+ "." +:+ ext) /\
  (forall e name, no_dot name = true ->
     helpers.generateUniqueFilename e name
     = pretty (timestamp e) +:+ "-" +:+ randomString e +:+ "." +:+ name) /\
  (forall e1 e2 name1 name2,
     0 <= timestamp e1 -> 0 <= timestamp e2 ->
     String.length (randomString e1) = String.length (randomString e2) ->
     helpers.generateUniqueFilename e1 name1 = helpers.generateUniqueFilename e2 name2 ->
     timestamp e1 = timestamp e2 /\ randomString e1 = randomString e2 /\
     last_segment "" name1 = last_segment "" name2).
Proof.
  unfold helpers.generateUniqueFilename. split; [|split].
  - intros e base ext Hext. rewrite last_segment_after_dot.
    now rewrite (last_segment_no_dot "" ext Hext).
  - intros e name Hname. now rewrite (last_segment_no_dot "" name Hname).
  - intros e1 e2 name1 name2 H1 H2 Hlen Heq.
    apply digits_dash_inj in Heq as [Hts Hrest]; try now apply pretty_Z_digits.
    apply (inj pretty) in Hts.
    apply append_same_length_inj in Hrest as [Hr Hext]; [|assumption].
    injection Hext as Hext. tauto.
Qed.

Lemma X12_unique_filename_witness :
  helpers.generateUniqueFilename Sample.env0 "report.final.pdf"
  = "1700000000000-00ff00ff00ff00ff.pdf" /\
  Sample.env0.(timestamp) <> Sample.env1.(timestamp).
Proof.
  destruct X12_unique_filename as (Hext & _ & Hinj). split.
  - apply (Hext Sample.env0 "report.final" "pdf"). reflexivity.
  - intros Heq. discriminate Heq.
Defined.

(** ** The e-mail test *)

Lemma contains_cons (c : ascii) (s sub : string) :
  contains s sub -> contains (String c s) sub.
Proof. intros (a & b & ->). exists (String c a), b. now rewrite append_cons. Qed.

Lemma contains_tail (c : ascii) (s sub : string) :
  contains (String c s) sub -> (exists b, String c s = sub +:+ b) \/ contains s sub.
Proof.
  intros (a & b & Heq). destruct a as [|x a].
  - left. exists b. now rewrite append_nil_l in Heq.
  - right. rewrite append_cons in Heq. injection Heq as _ ->. now exists a, b.
Qed.

Lemma email_part_tail (c : ascii) (a : string) :
  a <> "" -> email_part (String c a) -> email_part a.
Proof.
  intros Hne (_ & Hat & Hws). split; [exact Hne|]. split.
  - intros H. apply Hat. now apply contains_cons.
  - intros w Hin H. apply (Hws w Hin). now apply contains_cons.
Qed.

(** One byte of [strip w (x +:+ b) = Some r] for a given [w]: the byte is
    in [x], or it is the first of [b], which [boundary b] excludes. *)
Ltac same_byte Heq :=
  cbn [strip] in Heq;
  match type of Heq with
  | context [Ascii.eqb ?a ?c] =>
      destruct (Ascii.eqb_spec a c) as [<-|]; [|discriminate Heq]
  end.

Ltac next_byte x b Heq Hb Hx :=
  lazymatch type of Heq with
  | Some _ = Some _ => fail
  | _ =>
      destruct x as [|? x];
      [ first
          [ contradiction
          | rewrite append_nil_l in Heq;
            destruct b as [|? b]; [discriminate Heq|];
            same_byte Heq; vm_compute in Hb; discriminate Hb ]
      | rewrite append_cons in Heq; same_byte Heq ]
  end.

(** A white-space character that starts inside a part and before a
    [boundary] lies within the part. *)
Lemma space_within (w x b r : string) :
  In w white_space -> boundary b -> x <> "" -> x +:+ b = w +:+ r ->
  exists y, x = w +:+ y.
Proof.
  intros Hin Hb Hx Heq. apply strip_spec in Heq. cbv in Hin.
  repeat (destruct Hin as [<-|Hin];
            [repeat next_byte x b Heq Hb Hx; eexists; reflexivity|]).
  contradiction.
Qed.

Lemma email_char_head (c : ascii) (s : string) :
  helpers.email_char (String c s) = true <->
  c <> "@"%char /\ skip_space (String c s) = None.
Proof.
  unfold helpers.email_char. rewrite andb_true_iff, negb_true_iff, Ascii.eqb_neq.
  destruct (skip_space (String c s)).
  - split; intros [_ H]; discriminate H.
  - tauto.
Qed.

Lemma email_part_cons (c : ascii) (a b : string) :
  c <> "@"%char -> skip_space (String c (a +:+ b)) = None ->
  a = "" \/ email_part a -> email_part (String c a).
Proof.
  intros Hc Hsp Ha. split; [discriminate|]. split.
  - intros H. apply contains_tail in H as [(y & Hy)|H].
    + injection Hy as -> _. now apply Hc.
    + destruct Ha as [->|(_ & Hat & _)]; [|contradiction].
      destruct H as (x & y & Hxy). destruct x; discriminate.
  - intros w Hin H. apply contains_tail in H as [(y & Hy)|H].
    + rewrite <- append_cons, Hy, append_assoc, (skip_space_word w _ Hin) in Hsp.
      discriminate.
    + destruct Ha as [->|(_ & _ & Hws)]; [|exact (Hws w Hin H)].
      destruct H as (x & y & Hxy). apply (white_space_nonempty w Hin).
      destruct x; [|discriminate]. rewrite append_nil_l in Hxy.
      destruct w; [reflexivity | discriminate].
Qed.

Lemma plus_then_spec (k : string -> bool) (s : string) :
  (forall b, k b = true -> boundary b) ->
  helpers.plus_then k s = true <->
  exists a b, s = a +:+ b /\ email_part a /\ k b = true.
Proof.
  intros Hk. induction s as [|c s IH].
  - simpl. split; [discriminate|]. intros (a & b & Heq & (Hne & _) & _).
    destruct a; [contradiction | discriminate].
  - cbn [helpers.plus_then].
    rewrite andb_true_iff, orb_true_iff, IH, email_char_head. split.
    + intros [[Hc Hsp] [Hkb|(a & b & -> & Ha & Hkb)]].
      * exists (String c ""), s. split; [reflexivity|]. split; [|exact Hkb].
        apply (email_part_cons c "" s Hc); [exact Hsp | now left].
      * exists (String c a), b. split; [reflexivity|]. split; [|exact Hkb].
        apply (email_part_cons c a b Hc); [exact Hsp | now right].
    + intros (a & b & Heq & Ha & Hkb).
      destruct a as [|x a]; [destruct Ha; contradiction|].
      rewrite append_cons in Heq. injection Heq as <- ->. split.
      * split.
        -- intros ->. destruct Ha as (_ & Hat & _). apply Hat. now exists "", a.
        -- destruct (skip_space (String c (a +:+ b))) as [r|] eqn:Hr; [|reflexivity].
           exfalso. apply skip_space_spec in Hr as (w & Hin & Hw).
           destruct (space_within w (String c a) b r Hin (Hk b Hkb)) as (y & Hy);
             [discriminate | exact Hw |].
           destruct Ha as (_ & _ & Hws). apply (Hws w Hin). now exists "", y.
      * destruct a as [|y a]; [now left|]. right. exists (String y a), b.
        split; [reflexivity|]. split; [|exact Hkb].
        now apply (email_part_tail c).
Qed.

Lemma lit_then_spec (c : ascii) (k : string -> bool) (s : string) :
  helpers.lit_then c k s = true <-> exists b, s = String c b /\ k b = true.
Proof.
  destruct s as [|d s]; simpl.
  - split; [discriminate | intros (b & Heq & _); discriminate].
  - rewrite andb_true_iff. split.
    + intros [Hc Hk]. apply Ascii.eqb_eq in Hc. subst. eauto.
    + intros (b & Heq & Hk). injection Heq as -> ->. split; [apply Ascii.eqb_refl | exact Hk].
Qed.

Lemma lit_then_boundary (c : ascii) (k : string -> bool) (b : string) :
  (N_of_ascii c <? 128)%N = true -> helpers.lit_then c k b = true -> boundary b.
Proof.
  intros Hc H. apply lit_then_spec in H as (r & -> & _). exact Hc.
Qed.

Lemma end_boundary (b : string) : String.eqb "" b = true -> boundary b.
Proof. intros H. apply String.eqb_eq in H. now subst. Qed.

(** X13. [validateEmail] accepts exactly the texts of the shape
    local [@] domain [.] rest where each of the three parts is non-empty and
    holds neither a white-space character nor [@]. *)
Theorem X13_validate_email (email : string) :
  helpers.validateEmail email = true <->
  exists local domain rest,
    email = local +:+ "@" +:+ domain +:+ "." +:+ rest /\
    email_part local /\ email_part domain /\ email_part rest.
Proof.
  unfold helpers.validateEmail.
  assert (forall k b, helpers.lit_then "@" k b = true -> boundary b) as Hat
      by (intros k b; now apply lit_then_boundary).
  assert (forall k b, helpers.lit_then "." k b = true -> boundary b) as Hdot
      by (intros k b; now apply lit_then_boundary).
  rewrite (plus_then_spec _ _ (Hat _)). split.
  - intros (l & b & -> & Hl & Hk).
    apply lit_then_spec in Hk as (b1 & -> & Hk).
    apply (plus_then_spec _ _ (Hdot _)) in Hk as (d & b2 & -> & Hd & Hk).
    apply lit_then_spec in Hk as (b3 & -> & Hk).
    apply (plus_then_spec _ _ end_boundary) in Hk as (r & b4 & -> & Hr & Hk).
    apply String.eqb_eq in Hk. subst b4. rewrite append_nil_r.
    exists l, d, r. split; [reflexivity|]. split; [exact Hl|]. split; [exact Hd | exact Hr].
  - intros (l & d & r & -> & Hl & Hd & Hr).
    exists l, ("@" +:+ d +:+ "." +:+ r). split; [reflexivity|]. split; [exact Hl|].
    apply lit_then_spec. exists (d +:+ "." +:+ r). split; [reflexivity|].
    apply (plus_then_spec _ _ (Hdot _)). exists d, ("." +:+ r).
    split; [reflexivity|]. split; [exact Hd|].
    apply lit_then_spec. exists r. split; [reflexivity|].
    apply (plus_then_spec _ _ end_boundary). exists r, "".
    split; [now rewrite append_nil_r|].
    split; [exact Hr | reflexivity].
Qed.

(** The address [a b@c.d] with a no-break space (U+00A0) for the blank, and
    the one with a line separator (U+2028), are refused; a Cyrillic letter,
    whose second byte is that of the no-break space, is accepted. *)
Lemma validateEmail_samples :
  helpers.validateEmail "alice@example.com" = true /\
  helpers.validateEmail ("a" +:+ utf8 [194; 160] +:+ "b@c.d") = false /\
  helpers.validateEmail ("a" +:+ utf8 [226; 128; 168] +:+ "b@c.d") = false /\
  helpers.validateEmail (utf8 [208; 160] +:+ "@c.d") = true /\
  helpers.validateEmail "a@b" = false.
Proof. repeat split. Qed.

(** ** The error handler *)

Lemma prefix_spec (sub s : string) :
  String.prefix sub s = true <-> exists b, s = sub +:+ b.
Proof.
  revert s. induction sub as [|c sub IH]; intros s.
  - split; [intros _; now exists s | intros _; now destruct s].
  - destruct s as [|d s]; simpl.
    + split; [discriminate | intros (b & Hb); discriminate].
    + destruct (Ascii.ascii_dec c d) as [->|Hne].
      * rewrite IH. split; intros (b & Hb); exists b.
        -- now rewrite append_cons, <- Hb.
        -- rewrite append_cons in Hb. now injection Hb.
      * split; [discriminate|]. intros (b & Hb). rewrite append_cons in Hb.
        injection Hb as Hd _. congruence.
Qed.

Lemma includes_spec (s sub : string) : includes s sub = true <-> contains s sub.
Proof.
  unfold contains. induction s as [|c s IH].
  - change (includes "" sub) with (String.prefix sub "" || false).
    rewrite orb_false_r, prefix_spec. split.
    + intros (b & Hb). now exists "", b.
    + intros (a & b & Hab). destruct a as [|x a]; [|discriminate].
      exists b. exact Hab.
  - change (includes (String c s) sub)
      with (String.prefix sub (String c s) || includes s sub).
    rewrite orb_true_iff, prefix_spec, IH. split.
    + intros [(b & Hb)|(a & b & Hab)].
      * now exists "", b.
      * exists (String c a), b. now rewrite append_cons, <- Hab.
    + intros (a & b & Hab). destruct a as [|x a].
      * left. now exists b.
      * right. rewrite append_cons in Hab. injection Hab as _ Hab. now exists a, b.
Qed.

Lemma includes_false (s sub : string) : includes s sub = false <-> ~ contains s sub.
Proof.
  rewrite <- includes_spec. destruct (includes s sub); split; congruence.
Qed.

(** X14. The error handler classifies an error by the text of its
    message, case-sensitively, the first match deciding: a message in
    which [required] or [Invalid] occurs is answered 400, else one in
    which [not found] occurs 404, else one in which [already exists]
    occurs 409, each with the message itself; every other error is
    answered 500 with the fixed text [Internal server error], so its own
    message is never sent. No answer of the handler reports success or
    carries data. *)
Theorem X14_error_classification (msg : string) :
  success (errorHandler msg) = false /\ data (errorHandler msg) = PNull /\
  (contains msg "required" \/ contains msg "Invalid" ->
   errorHandler msg = json 400 false PNull msg) /\
  (~ contains msg "required" -> ~ contains msg "Invalid" -> contains msg "not found" ->
   errorHandler msg = json 404 false PNull msg) /\
  (~ contains msg "required" -> ~ contains msg "Invalid" -> ~ contains msg "not found" ->
   contains msg "already exists" ->
   errorHandler msg = json 409 false PNull msg) /\
  (~ contains msg "required" -> ~ contains msg "Invalid" -> ~ contains msg "not found" ->
   ~ contains msg "already exists" ->
   errorHandler msg = json 500 false PNull "Internal server error").
Proof.
  split; [apply errorHandler_fails|]. split.
  { unfold errorHandler.
    destruct (includes msg "required" || includes msg "Invalid"); [reflexivity|].
    destruct (includes msg "not found"); [reflexivity|].
    destruct (includes msg "already exists"); reflexivity. }
  unfold errorHandler. split; [|split; [|split]].
  - intros [H|H]; apply includes_spec in H; rewrite H; [reflexivity|].
    now rewrite orb_true_r.
  - intros H1 H2 H3. apply includes_false in H1, H2. apply includes_spec in H3.
    now rewrite H1, H2, H3.
  - intros H1 H2 H3 H4. apply includes_false in H1, H2, H3. apply includes_spec in H4.
    now rewrite H1, H2, H3, H4.
  - intros H1 H2 H3 H4. apply includes_false in H1, H2, H3, H4.
    now rewrite H1, H2, H3, H4.
Qed.

Lemma X14_error_classification_witness :
  errorHandler "Password is required and was not found"
  = json 400 false PNull "Password is required and was not found".
Proof.
  destruct (X14_error_classification "Password is required and was not found")
    as (_ & _ & H400 & _).
  apply H400. left. exists "Password is ", " and was not found". reflexivity.
Defined.

(** ** Deactivating an account *)

Lemma find_none_intro {A : Type} (p : A -> bool) (l : list A) :
  (forall a, In a l -> p a = false) -> List.find p l = None.
Proof.
  induction l as [|a l IH]; simpl; [reflexivity|]. intros H.
  rewrite (H a (or_introl eq_refl)). apply IH. intros b Hb. apply H. now right.
Qed.

Lemma NoDup_map_eq {A B : Type} (f : A -> B) (l : list A) (a b : A) :
  List.NoDup (List.map f l) -> In a l -> In b l -> f a = f b -> a = b.
Proof.
  induction l as [|x l IH]; simpl; [tauto|].
  intros Hnd Ha Hb Heq. inversion Hnd as [|y ys Hnin Hnd']; subst.
  destruct Ha as [->|Ha], Hb as [->|Hb].
  - reflexivity.
  - exfalso. apply Hnin. rewrite Heq. now apply in_map.
  - exfalso. apply Hnin. rewrite <- Heq. now apply in_map.
  - now apply IH.
Qed.

(** After the flag of account [id] is cleared no row passes a lookup that
    asks for an active row with that key, or with that row's address. *)
Lemma no_active_row (e : Env) (id : Z) (d : Db) (row : UserRow) :
  List.find (fun u => u_id u =? id) (users d) = Some row ->
  List.NoDup (List.map u_email (users d)) ->
  let users' := List.map (fun u => if u_id u =? id
                                   then UserService.apply_update e (set_active (JBool false)) u
                                   else u) (users d) in
  List.find (fun u => (u_id u =? id) && (u_is_active u =? 1)) users' = None /\
  List.find (fun u => String.eqb (u_email u) (u_email row) && (u_is_active u =? 1)) users'
  = None.
Proof.
  intros Hfind Hnd users'. apply (find_some_key u_id) in Hfind as [Hid Hin].
  split; apply find_none_intro; intros x Hx; apply in_map_iff in Hx as (u & <- & Hu).
  - destruct (Z.eqb_spec (u_id u) id) as [Heq|Hne].
    + cbn [UserService.apply_update set_active UserService.uu_is_active u_is_active
             u_id truthy]. apply andb_false_r.
    + apply andb_false_iff. left. now apply Z.eqb_neq.
  - destruct (Z.eqb_spec (u_id u) id) as [Heq|Hne].
    + cbn [UserService.apply_update set_active UserService.uu_is_active u_is_active
             truthy]. apply andb_false_r.
    + apply andb_false_iff. left. apply String.eqb_neq. intros Hemail.
      apply Hne. rewrite <- Hid. f_equal.
      now apply (NoDup_map_eq u_email (users d)).
Qed.

(** X15. An administrator's deactivation of another, existing account
    answers 200 with the account shown inactive and touches only the users
    table. From then on no login with the account's address succeeds,
    whatever the password, and the profile of the account answers 404
    [User not found]; but a request that bears a token of the account is
    still served: its ticket list answers 200, and a ticket it creates is
    stored. *)
Theorem X15_deactivation (e : Env) (a : AuthUser) (target : Z) (w : World) (row : UserRow) :
  role a = "admin" -> target <> userId a ->
  List.find (fun u => u_id u =? target) (users (db w)) = Some row ->
  List.NoDup (List.map u_email (users (db w))) ->
  exists v w',
    App.serve (Some a) (App.PostDeactivate e target) w
    = (json 200 true (PUser v) "User deactivated successfully", w') /\
    usr_id v = target /\ usr_is_active v = false /\
    disk w' = disk w /\ tickets (db w') = tickets (db w) /\
    ticket_messages (db w') = ticket_messages (db w) /\
    attachments (db w') = attachments (db w) /\
    List.map u_id (users (db w')) = List.map u_id (users (db w)) /\
    (forall compare credentials,
       AuthService.l_email credentials = Some (u_email row) ->
       exists msg, AuthService.login compare credentials (db w') = Throw msg) /\
    (forall token, userId token = target ->
       App.serve (Some token) App.GetProfile w'
       = (json 404 false PNull "User not found", w') /\
       exists l, App.serve (Some token) App.GetTickets w'
                 = (json 200 true (PTickets l) "Tickets retrieved successfully", w')) /\
    (forall token e' body, userId token = target ->
       creatable e' target (ticket_create_of body) (db w) ->
       exists t w'',
         App.serve (Some token) (App.PostTicket e' body) w'
         = (json 201 true (PTicket t) "Ticket created successfully", w'') /\
         t_user_id t = target /\ In t (tickets (db w''))).
Proof.
  intros Hadmin Hne Hfind Hnd.
  apply is_admin_iff in Hadmin.
  assert (JBool false <> JUndefined) as Hv by discriminate.
  destruct (updateUser_set_active e target (JBool false) (db w) row Hv Hfind)
    as (Hupd & Hget & Hflag).
  destruct (no_active_row e target (db w) row Hfind Hnd) as (Hbyid & Hbymail).
  eexists. eexists. split.
  { unfold App.serve, App.admin_route, Routes.guarded, Routes.authenticate, requireAdmin,
      UserController.deactivateUser, handle, bind, liftDb, ret.
    rewrite Hadmin. cbn [negb].
    apply Z.eqb_neq in Hne. rewrite Hne.
    unfold UserService.deactivateUser. fold (set_active (JBool false)).
    rewrite Hupd. reflexivity. }
  cbn [db disk users tickets ticket_messages attachments].
  split; [exact (proj1 (find_some_key u_id target _ row Hfind))|].
  split; [exact Hflag|].
  do 4 (split; [reflexivity|]).
  split.
  { rewrite List.map_map. apply List.map_ext. intros u.
    now destruct (u_id u =? target). }
  split.
  { intros compare credentials Hemail. unfold AuthService.login. rewrite Hemail.
    destruct (_ || _); [eexists; reflexivity|].
    cbv zeta. cbn [from_option id users]. rewrite Hbymail. eexists. reflexivity. }
  split.
  { intros token Htoken. split.
    - unfold App.serve, Routes.guarded, Routes.authenticate, AuthController.getProfile,
        handle, bind, get, ret, AuthService.getUserById.
      cbn [db users]. rewrite Htoken, Hbyid. reflexivity.
    - unfold App.serve, Routes.get_tickets, Routes.guarded, Routes.authenticate,
        TicketController.getTickets, handle, bind, get, ret.
      eexists. reflexivity. }
  intros token e' body Htoken (Ht & Hd & Hc & Hp & Hn & Hu).
  set (d' := mkDb _ (tickets (db w)) _ _ _ _ _ _).
  assert (creatable e' target (ticket_create_of body) d') as Hcreatable.
  { repeat split; try assumption. unfold d'. cbn [users].
    rewrite List.map_map.
    rewrite (List.map_ext _ u_id); [assumption|].
    intros u. now destruct (u_id u =? target). }
  pose proof (createTicket_succeeds e' target (ticket_create_of body) d' Hcreatable) as Hrun.
  exists (created_row e' target (ticket_create_of body) d').
  exists (mkWorld (with_ticket d' (created_row e' target (ticket_create_of body) d'))
            (disk w)).
  split.
  { unfold App.serve, Routes.post_ticket, Routes.guarded, Routes.authenticate,
      TicketController.createTicket, handle, bind, liftDb, ret.
    rewrite Htoken. cbn [db].
    fold (ticket_create_of body). fold d'. rewrite Hrun. reflexivity. }
  split; [reflexivity|].
  cbn [db with_ticket tickets]. apply in_or_app. right. now left.
Qed.

Lemma X15_deactivation_witness :
  exists v w',
    App.serve (Some Sample.admin) (App.PostDeactivate Sample.env1 2) Sample.w1
    = (json 200 true (PUser v) "User deactivated successfully", w') /\
    usr_is_active v = false /\
    App.serve (Some Sample.alice) App.GetProfile w'
    = (json 404 false PNull "User not found", w').
Proof.
  destruct (X15_deactivation Sample.env1 Sample.admin 2 Sample.w1
              (mkUserRow 2 "Alice" "alice@example.com" "hash2" "user" 1 0 0))
    as (v & w' & Hrun & _ & Hflag & _ & _ & _ & _ & _ & _ & Htoken & _).
  - reflexivity.
  - simpl. lia.
  - reflexivity.
  - simpl. repeat constructor; simpl; intuition discriminate.
  - exists v, w'. split; [exact Hrun|]. split; [exact Hflag|].
    apply (Htoken Sample.alice). reflexivity.
Defined.

(** ** What a member's request may change *)

Lemma addMessage_effect (e : Env) (ticketId userId : Z)
    (messageData : TicketService.TicketMessageCreate) (d d' : Db)
    (r : result (option TicketMessage)) :
  TicketService.addMessage e ticketId userId messageData d = (r, d') ->
  d' = d \/ d' = with_message d (appended_row e ticketId userId messageData d).
Proof.
  unfold TicketService.addMessage.
  destruct (_ || _) eqn:Hm; [unfold throw; intros H; injection H as _ <-; now left|].
  unfold bind, get.
  destruct (TicketService.getTicketById ticketId d);
    [|unfold throw; intros H; injection H as _ <-; now left].
  unfold Sql.insert_message.
  destruct (negb (Sql.mem_Z ticketId _)) eqn:Ht; [intros H; injection H as _ <-; now left|].
  destruct (negb (Sql.mem_Z userId _)) eqn:Hu; [intros H; injection H as _ <-; now left|].
  unfold ret. intros H. injection H as _ <-. now right.
Qed.

Lemma uploadFile_effect (e : Env) (ticketId userId : Z) (file : FileService.MulterFile)
    (w w' : World) (r : result (option Attachment)) :
  FileService.uploadFile e ticketId userId file w = (r, w') ->
  (db w' = db w \/
   db w' = with_attachment (db w) (uploaded_row e ticketId userId file (db w))) /\
  blobs_kept (disk w) (disk w').
Proof.
  unfold FileService.uploadFile.
  destruct (FileService.MAX_FILE_SIZE <? FileService.size file) eqn:Hs;
    [unfold throw; intros H; injection H as _ <-; split; [now left | now intros p]|].
  destruct (Sql.mem_str (FileService.mimetype file) FileService.allowedMimeTypes) eqn:Hm;
    [|unfold throw; intros H; injection H as _ <-; split; [now left | now intros p]].
  unfold bind, get, liftFs, liftDb, ret. cbv beta iota delta [negb].
  assert (forall f1 : Fs, files f1 = files (disk w) ->
    (let (r0, s'0) :=
       let (r0, f') := fs.writeFileSync
                         (FileService.join_upload_dir
                            (helpers.generateUniqueFilename e (FileService.originalname file)))
                         (FileService.buffer file) f1 in
       (r0, mkWorld (db w) f') in
     match r0 with
     | Ok _ =>
         let (r1, s'1) :=
           let (r1, d') :=
             Sql.insert_attachment e ticketId (FileService.originalname file)
               (helpers.generateUniqueFilename e (FileService.originalname file))
               (FileService.join_upload_dir
                  (helpers.generateUniqueFilename e (FileService.originalname file)))
               (FileService.size file) (FileService.mimetype file) userId (db s'0) in
           (r1, mkWorld d' (disk s'0)) in
         match r1 with
         | Ok a1 => (Ok (FileService.getAttachmentById a1 (db s'1)), s'1)
         | Throw msg => (Throw msg, s'1)
         end
     | Throw msg => (Throw msg, s'0)
     end) = (r, w') ->
    (db w' = db w \/
     db w' = with_attachment (db w) (uploaded_row e ticketId userId file (db w))) /\
    blobs_kept (disk w) (disk w')) as Hrest.
  { intros f1 Hfiles.
    assert (forall f2 (r0 : result unit),
              fs.writeFileSync
                (FileService.join_upload_dir
                   (helpers.generateUniqueFilename e (FileService.originalname file)))
                (FileService.buffer file) f1 = (r0, f2) ->
              blobs_kept (disk w) f2) as Hkept.
    { intros f2 r0. unfold fs.writeFileSync.
      destruct (bool_decide _); [intros H; injection H as _ <-; intros p; now rewrite Hfiles|].
      destruct (bool_decide _); [intros H; injection H as _ <-; intros p; now rewrite Hfiles|].
      intros H. injection H as _ <-. intros p Hp. cbn [files]. rewrite Hfiles.
      apply lookup_insert_is_Some'. now right. }
    destruct (fs.writeFileSync _ _ f1) as [[[]|msg] f2] eqn:Hwrite.
    2:{ intros H. injection H as _ <-. split; [now left | exact (Hkept _ _ eq_refl)]. }
    simpl. unfold Sql.insert_attachment.
    destruct (negb (Sql.mem_Z ticketId _)) eqn:Ht;
      [intros H; injection H as _ <-; split; [now left | exact (Hkept _ _ eq_refl)]|].
    destruct (negb (Sql.mem_Z userId _)) eqn:Hu;
      [intros H; injection H as _ <-; split; [now left | exact (Hkept _ _ eq_refl)]|].
    intros H. injection H as _ <-. split; [now right | exact (Hkept _ _ eq_refl)]. }
  destruct (fs.existsSync FileService.UPLOAD_DIR (disk w)).
  - intros H. exact (Hrest (disk w) eq_refl H).
  - intros H. exact (Hrest (snd (fs.mkdirSync FileService.UPLOAD_DIR (disk w))) eq_refl H).
Qed.

Ltac open_route :=
  unfold App.serve, App.admin_route, Routes.post_ticket, Routes.get_tickets,
    Routes.get_search, Routes.get_ticket, Routes.put_ticket, Routes.delete_ticket,
    Routes.post_message, Routes.get_messages, Routes.post_attachment,
    Routes.get_attachments, Routes.get_download, Routes.delete_attachment,
    Routes.guarded, Routes.authenticate, requireAdmin.

Lemma member_owns (u : AuthUser) (ticket : Ticket) :
  is_admin u = false ->
  negb (is_admin u) && negb (t_user_id ticket =? userId u) = false ->
  t_user_id ticket = userId u.
Proof.
  intros -> H. simpl in H. apply negb_false_iff in H. now apply Z.eqb_eq.
Qed.

(** X16. Whatever request of the ticket, upload, account and profile
    routes a caller who is not an administrator sends, the tables
    afterwards are as before or hold one row more: a ticket of the caller,
    open and unassigned; a public message of the caller on a ticket the
    caller created; or an attachment by the caller on such a ticket. So
    through these routes a member never changes an account, never alters
    or removes a ticket, message or attachment that exists, and never
    stores an internal message; nor does a member's request remove a blob
    from disk. *)
Theorem X16_member_frame (u : AuthUser) (r : App.Request) (w : World) :
  role u <> "admin" ->
  member_effect u (db w) (db (snd (App.serve (Some u) r w))) /\
  blobs_kept (disk w) (disk (snd (App.serve (Some u) r w))).
Proof.
  intros Hrole. apply not_admin in Hrole.
  assert (forall resp : Response,
            member_effect u (db w) (db (snd (resp, w))) /\
            blobs_kept (disk w) (disk (snd (resp, w)))) as Hsame.
  { intros resp. split; [now left | now intros p]. }
  destruct r; open_route; rewrite ?Hrole; cbn [negb].
  - (* POST /tickets *)
    unfold TicketController.createTicket. open_controller.
    destruct (TicketService.createTicket _ _ _ (db w)) as [[o|msg] d'] eqn:Hrun.
    + apply createTicket_Ok in Hrun as (_ & -> & _). cbn [snd db disk]. split.
      * right. left. eexists. split; [reflexivity|]. repeat split.
      * now intros p.
    + apply createTicket_Throw in Hrun as ->. destruct w. apply Hsame.
  - (* GET /tickets *)
    unfold TicketController.getTickets. open_controller. apply Hsame.
  - (* GET /tickets/search *)
    unfold TicketController.searchTickets. open_controller. split_cases; apply Hsame.
  - (* GET /tickets/:id *)
    unfold TicketController.getTicketById. open_controller. split_cases; apply Hsame.
  - (* PUT /tickets/:id *) apply Hsame.
  - (* DELETE /tickets/:id *) apply Hsame.
  - (* POST /tickets/:id/messages *)
    unfold TicketController.addMessage. open_controller.
    destruct (TicketController.message_invalid _); [apply Hsame|].
    destruct (TicketService.getTicketById id (db w)) as [ticket|] eqn:Hget; [|apply Hsame].
    destruct (negb (is_admin u) && negb (t_user_id ticket =? userId u)) eqn:Hown;
      [apply Hsame|].
    apply (member_owns u ticket Hrole) in Hown.
    rewrite Hrole. cbn [andb].
    destruct (TicketService.addMessage _ _ _ _ (db w)) as [[o|msg] d'] eqn:Hrun;
      apply addMessage_effect in Hrun as [->| ->]; try (destruct w; apply Hsame).
    + cbn [snd db disk]. split; [|now intros p].
      right. right. left. eexists. exists ticket. split; [reflexivity|].
      repeat split; assumption.
    + cbn [snd db disk]. split; [|now intros p].
      right. right. left. eexists. exists ticket. split; [reflexivity|].
      repeat split; assumption.
  - (* GET /tickets/:id/messages *)
    unfold TicketController.getTicketMessages. open_controller. split_cases; apply Hsame.
  - (* POST /tickets/:id/attachments *)
    unfold UploadController.uploadAttachment. open_controller.
    destruct file as [f|]; [|apply Hsame].
    destruct (TicketService.getTicketById ticketId (db w)) as [ticket|] eqn:Hget;
      [|apply Hsame].
    destruct (negb (is_admin u) && negb (t_user_id ticket =? userId u)) eqn:Hown;
      [apply Hsame|].
    apply (member_owns u ticket Hrole) in Hown.
    destruct (FileService.uploadFile _ _ _ _ w) as [[o|msg] w'] eqn:Hrun;
      apply uploadFile_effect in Hrun as [[Hdb|Hdb] Hdisk]; cbn [snd];
      (split; [|exact Hdisk]); rewrite Hdb; try (now left).
    + right. right. right. eexists. exists ticket. split; [reflexivity|].
      repeat split; assumption.
    + right. right. right. eexists. exists ticket. split; [reflexivity|].
      repeat split; assumption.
  - (* GET /tickets/:id/attachments *)
    unfold UploadController.getTicketAttachments. open_controller. split_cases; apply Hsame.
  - (* GET /attachments/:id/download *)
    unfold UploadController.downloadAttachment. open_controller. split_cases; apply Hsame.
  - (* DELETE /attachments/:id *) apply Hsame.
  - (* GET /users *) apply Hsame.
  - (* GET /users/search *) apply Hsame.
  - (* POST /users *) apply Hsame.
  - (* PUT /users/:id *) apply Hsame.
  - (* DELETE /users/:id *) apply Hsame.
  - (* POST /users/:id/reset-password *) apply Hsame.
  - (* POST /users/:id/deactivate *) apply Hsame.
  - (* POST /users/:id/activate *) apply Hsame.
  - (* GET /auth/profile *)
    unfold AuthController.getProfile. open_controller. split_cases; apply Hsame.
Qed.

Lemma X16_member_frame_witness :
  member_effect Sample.alice (db Sample.w1)
    (db (snd (App.serve (Some Sample.alice)
                (App.PostMessage Sample.env1 1
                   (TicketController.mkMessageBody (JStr "me too") (JBool true)))
                Sample.w1))).
Proof.
  apply (X16_member_frame Sample.alice
           (App.PostMessage Sample.env1 1
              (TicketController.mkMessageBody (JStr "me too") (JBool true)))
           Sample.w1).
  discriminate.
Defined.

(** ** Registration and the first login *)






(** ** Creating an account *)

Lemma errorHandler_short_password :
  errorHandler "Password must be at least 6 characters long"
  = json 500 false PNull "Internal server error".
Proof. vm_compute. reflexivity. Qed.

Lemma errorHandler_invalid_role :
  errorHandler UserService.invalid_role = json 400 false PNull UserService.invalid_role.
Proof. vm_compute. reflexivity. Qed.

(** X18. What the create-account endpoint answers an administrator, in
    the order of its tests: 400 when name, address or password is missing
    or empty; 400 for an address [validateEmail] rejects; 500 [Internal
    server error] for a password shorter than six characters; 400 for a
    role other than [user] and [admin]; 409 for an address some account
    has; in all these cases nothing is stored. Otherwise 201: one account
    is appended, active, with the role asked for ([user] when none is) and
    the hash of the password, and the user object returned shows it active
    and without the hash. *)
Theorem X18_create_user (e : Env) (a : AuthUser) (body : UserController.CreateUserBody)
    (password_hash : string) (w : World) :
  role a = "admin" ->
  let address := default "" (UserController.cb_email body) in
  let password := default "" (UserController.cb_password body) in
  let wanted := default "user" (UserController.cb_role body) in
  let answer := App.serve (Some a) (App.PostUser e body password_hash) w in
  (fields_present body = false ->
   answer = (json 400 false PNull "Name, email, and password are required", w)) /\
  (fields_present body = true -> helpers.validateEmail address = false ->
   answer = (json 400 false PNull "Invalid email format", w)) /\
  (fields_present body = true -> helpers.validateEmail address = true ->
   (js_length password < 6)%nat ->
   answer = (json 500 false PNull "Internal server error", w)) /\
  (fields_present body = true -> helpers.validateEmail address = true ->
   (6 <= js_length password)%nat -> ~ In wanted ["user"; "admin"] ->
   answer = (json 400 false PNull UserService.invalid_role, w)) /\
  (fields_present body = true -> helpers.validateEmail address = true ->
   (6 <= js_length password)%nat -> In wanted ["user"; "admin"] ->
   In address (List.map u_email (users (db w))) ->
   answer = (json 409 false PNull "User with this email already exists", w)) /\
  (fields_present body = true -> helpers.validateEmail address = true ->
   (6 <= js_length password)%nat -> In wanted ["user"; "admin"] ->
   ~ In address (List.map u_email (users (db w))) ->
   let row := created_user_row e body password_hash (db w) in
   answer = (json 201 true (PUser (UserService.to_user row)) "User created successfully",
             mkWorld (with_user (db w) row) (disk w)) /\
   usr_is_active (UserService.to_user row) = true /\
   usr_password_hash (UserService.to_user row) = None /\
   u_password_hash row = password_hash).
Proof.
  intros Hadmin address password wanted answer.
  apply is_admin_iff in Hadmin.
  assert (answer = handle
            (created <- liftDb (UserService.createUser e (create_of body) password_hash) ;;
             ret (json 201 true (payload_of PUser created) "User created successfully")) w)
    as Hanswer.
  { unfold answer, App.serve, App.admin_route, Routes.guarded, Routes.authenticate,
      requireAdmin, UserController.createUser, UserController.not_admin.
    rewrite Hadmin. reflexivity. }
  rewrite Hanswer. clear Hanswer answer.
  unfold handle, bind, liftDb, ret, UserService.createUser, create_of, fields_present.
  cbn [UserService.uc_name UserService.uc_email UserService.uc_password UserService.uc_role].
  change (default "user" (Some (default "user" (UserController.cb_role body))))
    with wanted.
  fold address password.
  destruct w as [d f]. cbn [db disk].
  split; [|split; [|split; [|split; [|split]]]].
  - intros Hp. apply negb_false_iff in Hp. rewrite Hp. reflexivity.
  - intros Hp Hmail. apply negb_true_iff in Hp. rewrite Hp, Hmail. reflexivity.
  - intros Hp Hmail Hlen. apply negb_true_iff in Hp. rewrite Hp, Hmail. cbn [negb].
    apply Nat.ltb_lt in Hlen. rewrite Hlen. unfold throw.
    now rewrite errorHandler_short_password.
  - intros Hp Hmail Hlen Hrole. apply negb_true_iff in Hp. rewrite Hp, Hmail. cbn [negb].
    apply Nat.ltb_ge in Hlen. rewrite Hlen.
    apply mem_str_false in Hrole. rewrite Hrole. cbn [negb]. unfold throw.
    now rewrite errorHandler_invalid_role.
  - intros Hp Hmail Hlen Hrole Hdup. apply negb_true_iff in Hp. rewrite Hp, Hmail.
    cbn [negb]. apply Nat.ltb_ge in Hlen. rewrite Hlen.
    apply mem_str_In in Hrole. rewrite Hrole. cbn [negb]. unfold bind, get, throw.
    apply mem_str_In in Hdup. rewrite Hdup. reflexivity.
  - intros Hp Hmail Hlen Hrole Hnew.
    set (row := created_user_row e body password_hash d).
    apply negb_true_iff in Hp. rewrite Hp, Hmail.
    cbn [negb]. apply Nat.ltb_ge in Hlen. rewrite Hlen.
    pose proof Hrole as Hrole'. apply mem_str_In in Hrole'. rewrite Hrole'. cbn [negb].
    unfold bind, get, ret. apply mem_str_false in Hnew. rewrite Hnew.
    unfold Sql.insert_user. rewrite Hnew.
    change Sql.roles with ["user"; "admin"]. rewrite Hrole'. cbn [negb].
    cbv beta iota. unfold UserService.getUserById. cbn [users].
    change (mkUserRow (Sql.next_rowid (seq_users d) (List.map u_id (users d)))
              (default "" (UserController.cb_name body)) address password_hash wanted 1
              (now e) (now e)) with row.
    rewrite (find_inserted u_id (Sql.next_rowid (seq_users d) (List.map u_id (users d)))
               (users d) row eq_refl).
    2:{ intros x Hx. now apply next_rowid_fresh. }
    repeat split.
Qed.

Lemma X18_create_user_witness :
  App.serve (Some Sample.admin)
    (App.PostUser Sample.env1
       (UserController.mkCreateUserBody (Some "Dan") (Some "dan@example.com")
          (Some "12345") None) "hash5") Sample.w1
  = (json 500 false PNull "Internal server error", Sample.w1).
Proof.
  destruct (X18_create_user Sample.env1 Sample.admin
              (UserController.mkCreateUserBody (Some "Dan") (Some "dan@example.com")
                 (Some "12345") None) "hash5" Sample.w1 eq_refl)
    as (_ & _ & Hshort & _).
  apply Hshort; [reflexivity | reflexivity | simpl; lia].
Defined.

(** ** Deleting an account *)

Lemma errorHandler_has_tickets :
  errorHandler "Cannot delete user with existing tickets. Deactivate the user instead."
  = json 500 false PNull "Internal server error".
Proof. vm_compute. reflexivity. Qed.

Lemma errorHandler_fk : errorHandler Sql.fk_failed = json 500 false PNull "Internal server error".
Proof. vm_compute. reflexivity. Qed.

Lemma filter_length_pos {A : Type} (p : A -> bool) (l : list A) :
  (0 <? Z.of_nat (length (List.filter p l))) = existsb p l.
Proof.
  induction l as [|a l IH]; simpl; [reflexivity|].
  destruct (p a); simpl; [|exact IH].
  apply Z.ltb_lt. lia.
Qed.

(** X19. What the delete-account endpoint answers an administrator: 400
    for the administrator's own account; 404 for a key that is no account;
    500 [Internal server error] for an account that still has tickets, or
    that a ticket's assignment, a message, an attachment or an article
    still names; in all these cases nothing changes. Otherwise 200, and
    exactly the rows of that key are gone from the users table, every
    other table and the disk being as before. *)
Theorem X19_delete_user (a : AuthUser) (target : Z) (article_authors : list Z) (w : World) :
  role a = "admin" ->
  let answer := App.serve (Some a) (App.DeleteUser target article_authors) w in
  (target = userId a ->
   answer = (json 400 false PNull "Cannot delete your own account", w)) /\
  (target <> userId a -> ~ In target (List.map u_id (users (db w))) ->
   answer = (json 404 false PNull "User not found", w)) /\
  (target <> userId a -> In target (List.map u_id (users (db w))) ->
   UserService.referenced target article_authors (db w) = true ->
   answer = (json 500 false PNull "Internal server error", w)) /\
  (target <> userId a -> In target (List.map u_id (users (db w))) ->
   UserService.referenced target article_authors (db w) = false ->
   exists w',
     answer = (json 200 true PNull "User deleted successfully", w') /\
     (forall u, In u (users (db w')) <-> In u (users (db w)) /\ u_id u <> target) /\
     tickets (db w') = tickets (db w) /\
     ticket_messages (db w') = ticket_messages (db w) /\
     attachments (db w') = attachments (db w) /\ disk w' = disk w).
Proof.
  intros Hadmin answer. apply is_admin_iff in Hadmin.
  assert (answer = handle
            (if target =? userId a
             then ret (json 400 false PNull "Cannot delete your own account")
             else
               deleted <- liftDb (UserService.deleteUser target article_authors) ;;
               if negb deleted then ret (json 404 false PNull "User not found")
               else ret (json 200 true PNull "User deleted successfully")) w) as ->.
  { unfold answer, App.serve, App.admin_route, Routes.guarded, Routes.authenticate,
      requireAdmin, UserController.deleteUser.
    rewrite Hadmin. reflexivity. }
  destruct w as [d f]. cbn [db disk].
  unfold handle, bind, liftDb, ret, get, throw. cbn [db disk].
  split; [|split; [|split]].
  - intros ->. now rewrite Z.eqb_refl.
  - intros Hne Hnin. apply Z.eqb_neq in Hne. rewrite Hne.
    unfold UserService.deleteUser, bind, get, throw, UserService.getUserById. cbv beta.
    cbn [db disk].
    apply (find_none_iff u_id) in Hnin. rewrite Hnin. reflexivity.
  - intros Hne Hin Href. apply Z.eqb_neq in Hne. rewrite Hne.
    unfold UserService.deleteUser, bind, get, throw, UserService.getUserById. cbv beta.
    cbn [db disk].
    destruct (List.find (fun u => u_id u =? target) (users d)) as [row|] eqn:Hfind.
    2:{ apply (find_none_iff u_id) in Hfind. contradiction. }
    destruct (0 <? _) eqn:Hcount; [now rewrite errorHandler_has_tickets|].
    unfold UserService.delete_row.
    apply (find_some_filter u_id) in Hfind.
    destruct (List.filter (fun u => u_id u =? target) (users d)) as [|x l] eqn:Hhit;
      [contradiction|].
    rewrite Href. now rewrite errorHandler_fk.
  - intros Hne Hin Href. apply Z.eqb_neq in Hne. rewrite Hne.
    unfold UserService.deleteUser, bind, get, throw, ret, UserService.getUserById.
    cbv beta. cbn [db disk].
    destruct (List.find (fun u => u_id u =? target) (users d)) as [row|] eqn:Hfind.
    2:{ apply (find_none_iff u_id) in Hfind. contradiction. }
    assert ((0 <? Z.of_nat (length (List.filter (fun t => t_user_id t =? target)
                                      (tickets d)))) = false) as ->.
    { rewrite filter_length_pos. unfold UserService.referenced in Href.
      repeat (apply orb_false_iff in Href as [Href _]).
      unfold Sql.mem_Z in Href. rewrite <- Href. clear.
      induction (tickets d) as [|t l IH]; simpl; [reflexivity|].
      rewrite IH. f_equal. apply Z.eqb_sym. }
    unfold UserService.delete_row.
    apply (find_some_filter u_id) in Hfind.
    destruct (List.filter (fun u => u_id u =? target) (users d)) as [|x l] eqn:Hhit;
      [contradiction|].
    rewrite Href.
    replace (0 <? Z.of_nat (length (x :: l))) with true
      by (symmetry; apply Z.ltb_lt; simpl length; lia).
    cbn [negb]. eexists. split; [reflexivity|]. cbn [db disk users tickets
      ticket_messages attachments].
    split; [intros u; apply (In_kept u_id)|]. repeat split.
Qed.

Lemma X19_delete_user_witness :
  App.serve (Some Sample.admin) (App.DeleteUser 2 []) Sample.w1
  = (json 500 false PNull "Internal server error", Sample.w1).
Proof.
  destruct (X19_delete_user Sample.admin 2 [] Sample.w1 eq_refl) as (_ & _ & Href & _).
  apply Href; [simpl; lia | simpl; tauto | reflexivity].
Defined.

(** ** Resetting a password *)

(** With distinct addresses, the active row of an address is found again
    after an update that keeps keys, addresses and flags. *)
Lemma find_by_email_updated (g : UserRow -> UserRow) (l : list UserRow) (row : UserRow) :
  List.NoDup (List.map u_email l) -> In row l -> u_is_active row = 1 ->
  (forall u, u_email (g u) = u_email u /\ u_is_active (g u) = u_is_active u) ->
  List.find (fun u => String.eqb (u_email u) (u_email row) && (u_is_active u =? 1))
    (List.map g l) = Some (g row).
Proof.
  intros Hnd Hin Hact Hg. induction l as [|a l IH]; [contradiction|].
  simpl. destruct (Hg a) as [Hmail Hflag]. rewrite Hmail, Hflag.
  inversion Hnd as [|x xs Hnin Hnd']; subst.
  destruct Hin as [->|Hin].
  - now rewrite String.eqb_refl, Hact.
  - assert (u_email a <> u_email row) as Hne.
    { intros Heq. apply Hnin. rewrite Heq. now apply in_map. }
    apply String.eqb_neq in Hne. rewrite Hne. cbn [andb]. now apply IH.
Qed.

(** X20. What the reset-password endpoint answers an administrator: 400
    when the password is missing or empty, 404 for a key that is no
    account, 500 [Internal server error] for a password shorter than six
    characters, nothing being changed in these cases. Otherwise 200: the
    account's hash is replaced and its update time set, its other columns,
    the other accounts and the other tables staying as they were; if the
    account is active and addresses are distinct, a login with the new
    password then succeeds as that account. *)
Theorem X20_reset_password (e : Env) (a : AuthUser) (target : Z) (password : option string)
    (password_hash : string) (w : World) :
  role a = "admin" ->
  let answer :=
    App.serve (Some a) (App.PostResetPassword e target password password_hash) w in
  (TicketService.absent_or_empty password = true ->
   answer = (json 400 false PNull "Password is required", w)) /\
  (TicketService.absent_or_empty password = false ->
   ~ In target (List.map u_id (users (db w))) ->
   answer = (json 404 false PNull "User not found", w)) /\
  (TicketService.absent_or_empty password = false ->
   In target (List.map u_id (users (db w))) ->
   (js_length (default "" password) < 6)%nat ->
   answer = (json 500 false PNull "Internal server error", w)) /\
  (forall row,
     TicketService.absent_or_empty password = false ->
     List.find (fun u => u_id u =? target) (users (db w)) = Some row ->
     (6 <= js_length (default "" password))%nat ->
     exists w' row',
       answer = (json 200 true PNull "Password reset successfully", w') /\
       List.find (fun u => u_id u =? target) (users (db w')) = Some row' /\
       u_password_hash row' = password_hash /\ u_updated_at row' = now e /\
       (u_id row', u_name row', u_email row', u_role row', u_is_active row', u_created_at row')
       = (u_id row, u_name row, u_email row, u_role row, u_is_active row, u_created_at row) /\
       (forall id, id <> target ->
          List.find (fun u => u_id u =? id) (users (db w'))
          = List.find (fun u => u_id u =? id) (users (db w))) /\
       tickets (db w') = tickets (db w) /\
       ticket_messages (db w') = ticket_messages (db w) /\
       attachments (db w') = attachments (db w) /\ disk w' = disk w /\
       (List.NoDup (List.map u_email (users (db w))) -> u_is_active row = 1 ->
        u_email row <> "" ->
        forall compare, compare (default "" password) password_hash = true ->
          exists v token,
            AuthService.login compare
              (AuthService.mkUserLogin (Some (u_email row)) password) (db w')
            = Ok (v, token) /\ userId token = target /\ usr_id v = target)).
Proof.
  intros Hadmin answer. apply is_admin_iff in Hadmin.
  assert (answer = handle
            (if TicketService.absent_or_empty password
             then ret (json 400 false PNull "Password is required")
             else
               liftDb (UserService.resetUserPassword e target (default "" password)
                         password_hash) ;;;
               ret (json 200 true PNull "Password reset successfully")) w) as ->.
  { unfold answer, App.serve, App.admin_route, Routes.guarded, Routes.authenticate,
      requireAdmin, UserController.resetUserPassword, UserController.not_admin.
    rewrite Hadmin. reflexivity. }
  destruct w as [d f].
  unfold handle, bind, liftDb, ret, UserService.resetUserPassword, UserService.getUserById.
  unfold bind, get, throw, put.
  destruct (TicketService.absent_or_empty password) eqn:Hpw.
  { split; [reflexivity|]. split; [discriminate|]. split; [discriminate|].
    intros row Hfalse. discriminate. }
  cbv beta. cbn [db disk].
  split; [discriminate|]. split; [|split].
  - intros _ Hnin. apply (find_none_iff u_id) in Hnin. rewrite Hnin. reflexivity.
  - intros _ Hin Hlen.
    destruct (List.find (fun u => u_id u =? target) (users d)) as [row|] eqn:Hfind.
    2:{ apply (find_none_iff u_id) in Hfind. contradiction. }
    apply Nat.ltb_lt in Hlen. rewrite Hlen. now rewrite errorHandler_short_password.
  - intros row _ Hfind Hlen. rewrite Hfind.
    apply Nat.ltb_ge in Hlen. rewrite Hlen.
    pose proof (find_some_key u_id target (users d) row Hfind) as [Hid Hin].
    set (g := fun u : UserRow =>
                if u_id u =? target
                then mkUserRow (u_id u) (u_name u) (u_email u) password_hash (u_role u)
                       (u_is_active u) (u_created_at u) (now e)
                else u).
    assert (forall u, u_id (g u) = u_id u) as Hkey.
    { intros u. unfold g. now destruct (u_id u =? target). }
    assert (g row = mkUserRow (u_id row) (u_name row) (u_email row) password_hash
                      (u_role row) (u_is_active row) (u_created_at row) (now e)) as Hrow.
    { unfold g. rewrite Hid, Z.eqb_refl. reflexivity. }
    eexists. exists (g row). split; [reflexivity|]. cbn [db disk users tickets
      ticket_messages attachments].
    assert (List.find (fun u => u_id u =? target) (List.map g (users d)) = Some (g row))
      as Hread.
    { clear Hrow Hin. revert Hfind. clear -Hkey. induction (users d) as [|x l IH]; simpl;
        [discriminate|].
      rewrite Hkey. destruct (u_id x =? target); [now intros [= ->] | exact IH]. }
    split; [exact Hread|].
    split; [now rewrite Hrow|]. split; [now rewrite Hrow|].
    split; [now rewrite Hrow|].
    split.
    { intros id Hne.
      apply (find_other_updated u_id
               (fun u => mkUserRow (u_id u) (u_name u) (u_email u) password_hash (u_role u)
                           (u_is_active u) (u_created_at u) (now e))
               target id (users d)); [reflexivity | exact Hne]. }
    do 4 (split; [reflexivity|]).
    intros Hnd Hact Hmail compare Hcmp.
    unfold AuthService.login. cbn [AuthService.l_email AuthService.l_password].
    rewrite Hpw.
    assert (TicketService.absent_or_empty (Some (u_email row)) = false) as ->
      by (simpl; now apply String.eqb_neq).
    cbn [orb]. cbv zeta. cbn [users].
    change (default "" (Some (u_email row))) with (u_email row).
    rewrite (find_by_email_updated g (users d) row Hnd Hin Hact).
    2:{ intros u. unfold g. now destruct (u_id u =? target). }
    rewrite Hrow. cbn [u_password_hash]. rewrite Hcmp. cbn [negb].
    eexists. eexists. split; [reflexivity|]. split; exact Hid.
Qed.

Lemma X20_reset_password_witness :
  exists w',
    App.serve (Some Sample.admin)
      (App.PostResetPassword Sample.env1 2 (Some "secret1") "hash4") Sample.w1
    = (json 200 true PNull "Password reset successfully", w') /\
    exists v token,
      AuthService.login SampleRegistration.compare
        (AuthService.mkUserLogin (Some "alice@example.com") (Some "secret1")) (db w')
      = Ok (v, token) /\ userId token = 2.
Proof.
  destruct (X20_reset_password Sample.env1 Sample.admin 2 (Some "secret1") "hash4"
              Sample.w1 eq_refl) as (_ & _ & _ & Hok).
  destruct (Hok (mkUserRow 2 "Alice" "alice@example.com" "hash2" "user" 1 0 0))
    as (w' & row' & Hrun & _ & _ & _ & _ & _ & _ & _ & _ & _ & Hlogin).
  - reflexivity.
  - reflexivity.
  - simpl. lia.
  - exists w'. split; [exact Hrun|].
    destruct (Hlogin) with (compare := SampleRegistration.compare)
      as (v & token & Hl & Hid & _).
    + simpl. repeat constructor; simpl; intuition discriminate.
    + reflexivity.
    + discriminate.
    + reflexivity.
    + exists v, token. split; assumption.
Defined.

(** ** Updating an account *)

Lemma errorHandler_name_empty :
  errorHandler "Name cannot be empty" = json 500 false PNull "Internal server error".
Proof. vm_compute. reflexivity. Qed.

Lemma errorHandler_email_taken :
  errorHandler "Email is already taken by another user"
  = json 500 false PNull "Internal server error".
Proof. vm_compute. reflexivity. Qed.

Lemma user_update_row_valid (e : Env) (id : Z) (updates : UserService.UserUpdate) (d : Db) :
  email_taken updates id d = false -> role_invalid updates = false ->
  UserService.update_row e id updates d
  = (Ok tt,
     with_users d (List.map (fun u => if u_id u =? id
                                      then UserService.apply_update e updates u else u)
                            (users d))).
Proof.
  unfold email_taken, role_invalid, UserService.update_row. intros Htaken Hrole.
  change Sql.roles with ["user"; "admin"]. rewrite Hrole.
  destruct (UserService.uu_email updates) as [m|]; [|reflexivity].
  now rewrite Htaken.
Qed.

Lemma updateUser_tests (e : Env) (id : Z) (updates : UserService.UserUpdate) (d : Db)
    (row : UserRow) :
  List.find (fun u => u_id u =? id) (users d) = Some row ->
  UserService.updateUser e id updates d
  = if name_blank updates then (Throw "Name cannot be empty", d)
    else if email_invalid updates then (Throw "Invalid email format", d)
    else if email_taken updates id d
    then (Throw "Email is already taken by another user", d)
    else if role_invalid updates then (Throw UserService.invalid_role, d)
    else
      match UserService.uu_name updates, UserService.uu_email updates,
            UserService.uu_role updates, UserService.uu_is_active updates with
      | None, None, None, JUndefined => (Ok (Some (UserService.to_user row)), d)
      | _, _, _, _ =>
          let (r, d') := UserService.update_row e id updates d in
          match r with
          | Ok _ => (Ok (UserService.getUserById id d'), d')
          | Throw msg => (Throw msg, d')
          end
      end.
Proof.
  intros Hfind.
  unfold UserService.updateUser, bind, get, throw, ret, UserService.getUserById at 1.
  rewrite Hfind.
  unfold name_blank, email_invalid, email_taken, role_invalid.
  destruct (match UserService.uu_name updates with
            | Some n => String.eqb (trim n) "" | None => false end); [reflexivity|].
  destruct (match UserService.uu_email updates with
            | Some m => negb (helpers.validateEmail m) | None => false end); [reflexivity|].
  destruct (match UserService.uu_email updates with
            | Some m => Sql.mem_str m _ | None => false end); [reflexivity|].
  destruct (match UserService.uu_role updates with
            | Some r => negb (Sql.mem_str r ["user"; "admin"]) | None => false end);
    [reflexivity|].
  destruct (UserService.uu_name updates), (UserService.uu_email updates),
    (UserService.uu_role updates), (UserService.uu_is_active updates); reflexivity.
Qed.

Lemma updateUser_given (e : Env) (id : Z) (updates : UserService.UserUpdate) (d : Db)
    (row : UserRow) :
  List.find (fun u => u_id u =? id) (users d) = Some row ->
  name_blank updates = false -> email_invalid updates = false ->
  email_taken updates id d = false -> role_invalid updates = false ->
  user_update_given updates ->
  UserService.updateUser e id updates d
  = (Ok (Some (UserService.to_user (UserService.apply_update e updates row))),
     with_users d (List.map (fun u => if u_id u =? id
                                      then UserService.apply_update e updates u else u)
                            (users d))).
Proof.
  intros Hfind Hn Hi Ht Hr Hgiven.
  rewrite (updateUser_tests e id updates d row Hfind), Hn, Hi, Ht, Hr.
  rewrite (user_update_row_valid e id updates d Ht Hr).
  unfold UserService.getUserById. cbn [with_users users].
  rewrite (find_updated u_id (UserService.apply_update e updates) id (users d))
    by reflexivity.
  rewrite Hfind. cbn [option_map].
  unfold user_update_given in Hgiven. revert Hgiven.
  destruct (UserService.uu_name updates), (UserService.uu_email updates),
    (UserService.uu_role updates), (UserService.uu_is_active updates);
    try reflexivity.
  intros [H|[H|[H|H]]]; now exfalso.
Qed.

Lemma updateUser_not_given (e : Env) (id : Z) (updates : UserService.UserUpdate) (d : Db)
    (row : UserRow) :
  List.find (fun u => u_id u =? id) (users d) = Some row ->
  name_blank updates = false -> email_invalid updates = false ->
  email_taken updates id d = false -> role_invalid updates = false ->
  ~ user_update_given updates ->
  UserService.updateUser e id updates d = (Ok (Some (UserService.to_user row)), d).
Proof.
  intros Hfind Hn Hi Ht Hr Hnone.
  rewrite (updateUser_tests e id updates d row Hfind), Hn, Hi, Ht, Hr.
  unfold user_update_given in Hnone.
  destruct (UserService.uu_name updates); [exfalso; apply Hnone; left; discriminate|].
  destruct (UserService.uu_email updates);
    [exfalso; apply Hnone; right; left; discriminate|].
  destruct (UserService.uu_role updates);
    [exfalso; apply Hnone; right; right; left; discriminate|].
  destruct (UserService.uu_is_active updates);
    try (exfalso; apply Hnone; right; right; right; discriminate).
  reflexivity.
Qed.

(** X21. What the update-account endpoint answers an administrator, in
    the order of its tests: 404 for a key that is no account; 500
    [Internal server error] for a name that is blank after trimming; 400
    for an address [validateEmail] rejects; 500 for an address another
    account has; 400 for a role other than [user] and [admin]; nothing is
    changed in these cases. A body with none of the four fields answers
    200 with the account as stored. Otherwise 200: the name is stored
    trimmed, address and role as given, the flag as 1 or 0, the update
    time set; key, hash and creation time are kept, and the other tables
    are as before. *)
Theorem X21_update_user (e : Env) (a : AuthUser) (target : Z)
    (updates : UserService.UserUpdate) (w : World) :
  role a = "admin" ->
  let answer := App.serve (Some a) (App.PutUser e target updates) w in
  (~ In target (List.map u_id (users (db w))) ->
   answer = (json 404 false PNull "User not found", w)) /\
  (forall row,
     List.find (fun u => u_id u =? target) (users (db w)) = Some row ->
     (name_blank updates = true ->
      answer = (json 500 false PNull "Internal server error", w)) /\
     (name_blank updates = false -> email_invalid updates = true ->
      answer = (json 400 false PNull "Invalid email format", w)) /\
     (name_blank updates = false -> email_invalid updates = false ->
      email_taken updates target (db w) = true ->
      answer = (json 500 false PNull "Internal server error", w)) /\
     (name_blank updates = false -> email_invalid updates = false ->
      email_taken updates target (db w) = false -> role_invalid updates = true ->
      answer = (json 400 false PNull UserService.invalid_role, w)) /\
     (name_blank updates = false -> email_invalid updates = false ->
      email_taken updates target (db w) = false -> role_invalid updates = false ->
      (~ user_update_given updates ->
       answer = (json 200 true (PUser (UserService.to_user row))
                   "User updated successfully", w)) /\
      (user_update_given updates ->
       exists row' w',
         answer = (json 200 true (PUser (UserService.to_user row'))
                     "User updated successfully", w') /\
         List.find (fun u => u_id u =? target) (users (db w')) = Some row' /\
         u_name row' = match UserService.uu_name updates with
                       | Some n => trim n | None => u_name row end /\
         u_email row' = default (u_email row) (UserService.uu_email updates) /\
         u_role row' = default (u_role row) (UserService.uu_role updates) /\
         (UserService.uu_is_active updates <> JUndefined ->
          u_is_active row' = stored_flag (UserService.uu_is_active updates)) /\
         (UserService.uu_is_active updates = JUndefined ->
          u_is_active row' = u_is_active row) /\
         u_updated_at row' = now e /\
         (u_id row', u_password_hash row', u_created_at row')
         = (u_id row, u_password_hash row, u_created_at row) /\
         (forall id, id <> target ->
            List.find (fun u => u_id u =? id) (users (db w'))
            = List.find (fun u => u_id u =? id) (users (db w))) /\
         tickets (db w') = tickets (db w) /\
         ticket_messages (db w') = ticket_messages (db w) /\
         attachments (db w') = attachments (db w) /\ disk w' = disk w))).
Proof.
  intros Hadmin answer. apply is_admin_iff in Hadmin.
  assert (answer = handle
            (updated <- liftDb (UserService.updateUser e target updates) ;;
             ret (json 200 true (payload_of PUser updated) "User updated successfully")) w)
    as ->.
  { unfold answer, App.serve, App.admin_route, Routes.guarded, Routes.authenticate,
      requireAdmin, UserController.updateUser, UserController.not_admin.
    rewrite Hadmin. reflexivity. }
  destruct w as [d f].
  unfold handle, bind, liftDb, ret. cbn [db disk].
  split.
  { intros Hnin. apply (find_none_iff u_id) in Hnin.
    unfold UserService.updateUser, bind, get, throw, UserService.getUserById.
    rewrite Hnin. reflexivity. }
  intros row Hfind.
  split.
  { intros Hn. rewrite (updateUser_tests e target updates d row Hfind), Hn.
    now rewrite errorHandler_name_empty. }
  split.
  { intros Hn Hi. rewrite (updateUser_tests e target updates d row Hfind), Hn, Hi.
    reflexivity. }
  split.
  { intros Hn Hi Ht. rewrite (updateUser_tests e target updates d row Hfind), Hn, Hi, Ht.
    now rewrite errorHandler_email_taken. }
  split.
  { intros Hn Hi Ht Hr.
    rewrite (updateUser_tests e target updates d row Hfind), Hn, Hi, Ht, Hr.
    now rewrite errorHandler_invalid_role. }
  intros Hn Hi Ht Hr. split.
  - intros Hnone.
    now rewrite (updateUser_not_given e target updates d row Hfind Hn Hi Ht Hr Hnone).
  - intros Hgiven.
    rewrite (updateUser_given e target updates d row Hfind Hn Hi Ht Hr Hgiven).
    exists (UserService.apply_update e updates row). eexists.
    split; [reflexivity|]. cbn [db disk with_users users tickets ticket_messages attachments].
    split.
    { rewrite (find_updated u_id (UserService.apply_update e updates) target (users d))
        by reflexivity.
      now rewrite Hfind. }
    do 3 (split; [reflexivity|]).
    split.
    { intros Hact. unfold stored_flag. cbn [UserService.apply_update u_is_active].
      destruct (UserService.uu_is_active updates); try reflexivity. contradiction. }
    split; [intros Hact; cbn [UserService.apply_update u_is_active]; now rewrite Hact|].
    do 2 (split; [reflexivity|]).
    split.
    { intros id Hne.
      now apply (find_other_updated u_id (UserService.apply_update e updates)
                   target id (users d)). }
    repeat split.
Qed.

Lemma X21_update_user_witness :
  App.serve (Some Sample.admin)
    (App.PutUser Sample.env1 2 (UserService.mkUserUpdate (Some "   ") None None JUndefined))
    Sample.w1
  = (json 500 false PNull "Internal server error", Sample.w1).
Proof.
  destruct (X21_update_user Sample.env1 Sample.admin 2
              (UserService.mkUserUpdate (Some "   ") None None JUndefined) Sample.w1 eq_refl)
    as (_ & Hrow).
  destruct (Hrow (mkUserRow 2 "Alice" "alice@example.com" "hash2" "user" 1 0 0) eq_refl)
    as (Hblank & _).
  apply Hblank. reflexivity.
Defined.

(** ** An administrator's own account *)

Lemma no_active_key (e : Env) (id : Z) (l : list UserRow) :
  List.find (fun u => (u_id u =? id) && (u_is_active u =? 1))
    (List.map (fun u => if u_id u =? id
                        then UserService.apply_update e (set_active (JBool false)) u
                        else u) l) = None.
Proof.
  apply find_none_intro. intros x Hx. apply in_map_iff in Hx as (u & <- & Hu).
  destruct (Z.eqb_spec (u_id u) id) as [Heq|Hne].
  - cbn [UserService.apply_update set_active UserService.uu_is_active u_is_active
           u_id truthy]. apply andb_false_r.
  - apply andb_false_iff. left. now apply Z.eqb_neq.
Qed.

(** X22. The deactivate and delete endpoints refuse an administrator's
    own account with 400 and change nothing. The general update endpoint
    has no such test: an administrator's update of the own account with
    [is_active] false answers 200, stores the flag 0, and the account's
    profile answers 404 from then on; no active account with that key is
    left. *)
Theorem X22_own_account (e : Env) (a : AuthUser) (article_authors : list Z) (w : World)
    (row : UserRow) :
  role a = "admin" ->
  List.find (fun u => u_id u =? userId a) (users (db w)) = Some row ->
  App.serve (Some a) (App.PostDeactivate e (userId a)) w
  = (json 400 false PNull "Cannot deactivate your own account", w) /\
  App.serve (Some a) (App.DeleteUser (userId a) article_authors) w
  = (json 400 false PNull "Cannot delete your own account", w) /\
  exists v w',
    App.serve (Some a) (App.PutUser e (userId a) (set_active (JBool false))) w
    = (json 200 true (PUser v) "User updated successfully", w') /\
    usr_id v = userId a /\ usr_is_active v = false /\
    (forall u, In u (users (db w')) -> u_id u = userId a -> u_is_active u = 0) /\
    App.serve (Some a) App.GetProfile w' = (json 404 false PNull "User not found", w').
Proof.
  intros Hadmin Hfind. apply is_admin_iff in Hadmin.
  assert (JBool false <> JUndefined) as Hv by discriminate.
  destruct (updateUser_set_active e (userId a) (JBool false) (db w) row Hv Hfind)
    as (Hupd & Hget & Hflag).
  split; [|split].
  - unfold App.serve, App.admin_route, Routes.guarded, Routes.authenticate, requireAdmin,
      UserController.deactivateUser, handle, ret.
    rewrite Hadmin. cbn [negb]. now rewrite Z.eqb_refl.
  - unfold App.serve, App.admin_route, Routes.guarded, Routes.authenticate, requireAdmin,
      UserController.deleteUser, handle, ret.
    rewrite Hadmin. cbn [negb]. now rewrite Z.eqb_refl.
  - eexists. eexists. split.
    { unfold App.serve, App.admin_route, Routes.guarded, Routes.authenticate, requireAdmin,
        UserController.updateUser, UserController.not_admin, handle, bind, liftDb, ret.
      rewrite Hadmin. cbn [negb]. rewrite Hupd. reflexivity. }
    cbn [db disk users].
    split; [exact (proj1 (find_some_key u_id (userId a) _ row Hfind))|].
    split; [exact Hflag|].
    split.
    { intros u Hin Hid. apply in_map_iff in Hin as (u0 & <- & Hin0).
      destruct (Z.eqb_spec (u_id u0) (userId a)) as [Heq|Hne]; [reflexivity|].
      contradiction. }
    unfold App.serve, Routes.guarded, Routes.authenticate, AuthController.getProfile,
      handle, bind, get, ret, AuthService.getUserById.
    cbn [db users]. now rewrite no_active_key.
Qed.

Lemma X22_own_account_witness :
  exists v w',
    App.serve (Some Sample.admin)
      (App.PutUser Sample.env1 1 (set_active (JBool false))) Sample.w1
    = (json 200 true (PUser v) "User updated successfully", w') /\
    usr_is_active v = false /\
    App.serve (Some Sample.admin) App.GetProfile w'
    = (json 404 false PNull "User not found", w').
Proof.
  destruct (X22_own_account Sample.env1 Sample.admin [] Sample.w1
              (mkUserRow 1 "Admin User" "admin@example.com" "hash1" "admin" 1 0 0)
              eq_refl eq_refl) as (_ & _ & v & w' & Hrun & _ & Hflag & _ & Hprofile).
  exists v, w'. repeat split; assumption.
Defined.

(** ** Password hashes stay in the store *)

Lemma errorHandler_data (msg : string) : data (errorHandler msg) = PNull.
Proof.
  unfold errorHandler.
  destruct (includes msg "required" || includes msg "Invalid"); [reflexivity|].
  destruct (includes msg "not found"); [reflexivity|].
  destruct (includes msg "already exists"); reflexivity.
Qed.

Lemma getUserById_no_hash (id : Z) (d : Db) :
  payload_no_hash (payload_of PUser (UserService.getUserById id d)).
Proof.
  unfold UserService.getUserById. now destruct (List.find _ (users d)).
Qed.

Lemma createUser_no_hash (e : Env) (userData : UserService.UserCreate)
    (password_hash : string) (d d' : Db) (o : option User) :
  UserService.createUser e userData password_hash d = (Ok o, d') ->
  payload_no_hash (payload_of PUser o).
Proof.
  unfold UserService.createUser.
  destruct (_ || _ || _); [discriminate|].
  destruct (negb (helpers.validateEmail _)); [discriminate|].
  destruct (_ <? 6)%nat; [discriminate|].
  destruct (negb (Sql.mem_str _ ["user"; "admin"])); [discriminate|].
  unfold bind, get.
  destruct (Sql.mem_str _ (List.map u_email (users d))); [discriminate|].
  destruct (Sql.insert_user _ _ _ _ _ _ d) as [[id|msg] d1]; [|discriminate].
  unfold ret. intros H. injection H as <- _. apply getUserById_no_hash.
Qed.

Lemma updateUser_no_hash (e : Env) (id : Z) (updates : UserService.UserUpdate)
    (d d' : Db) (o : option User) :
  UserService.updateUser e id updates d = (Ok o, d') ->
  payload_no_hash (payload_of PUser o).
Proof.
  destruct (List.find (fun u => u_id u =? id) (users d)) as [row|] eqn:Hfind.
  - rewrite (updateUser_tests e id updates d row Hfind).
    destruct (name_blank updates); [discriminate|].
    destruct (email_invalid updates); [discriminate|].
    destruct (email_taken updates id d); [discriminate|].
    destruct (role_invalid updates); [discriminate|].
    destruct (UserService.update_row e id updates d) as [[[]|msg] d1].
    + destruct (UserService.uu_name updates), (UserService.uu_email updates),
        (UserService.uu_role updates), (UserService.uu_is_active updates);
        intros H; injection H as <- _; try apply getUserById_no_hash; reflexivity.
    + destruct (UserService.uu_name updates), (UserService.uu_email updates),
        (UserService.uu_role updates), (UserService.uu_is_active updates);
        intros H; try discriminate; injection H as <- _; reflexivity.
  - unfold UserService.updateUser, bind, get, throw, UserService.getUserById.
    rewrite Hfind. discriminate.
Qed.

Lemma users_no_hash (l : list UserRow) (v : User) :
  In v (List.map UserService.to_user l) -> usr_password_hash v = None.
Proof. intros H. apply in_map_iff in H as (u & <- & _). reflexivity. Qed.

Ltac close_no_hash :=
  cbn [fst data json];
  rewrite ?errorHandler_data;
  first
    [ match goal with
      | H : UserService.createUser _ _ _ _ = _ |- _ => exact (createUser_no_hash _ _ _ _ _ _ H)
      | H : UserService.updateUser _ _ _ _ = _ |- _ => exact (updateUser_no_hash _ _ _ _ _ _ H)
      | H : UserService.deactivateUser _ _ _ = _ |- _ =>
          exact (updateUser_no_hash _ _ _ _ _ _ H)
      | H : UserService.activateUser _ _ _ = _ |- _ =>
          exact (updateUser_no_hash _ _ _ _ _ _ H)
      end
    | match goal with
      | |- context [payload_of _ ?o] => is_var o; destruct o; exact I
      end
    | exact I
    | reflexivity
    | cbn [payload_no_hash]; apply users_no_hash ].

(** X23. No answer of the ticket, upload, account and profile routes
    shows a password hash: whatever the request and whoever the caller, a
    user object in the answer, alone or in a list, carries none. *)
Theorem X23_no_password_hash (user : option AuthUser) (r : App.Request) (w : World) :
  payload_no_hash (data (fst (App.serve user r w))).
Proof.
  destruct r; open_route; (destruct user as [u|]; [|exact I]).
  - unfold TicketController.createTicket. open_controller. try split_service; split_cases; close_no_hash.
  - unfold TicketController.getTickets. open_controller. try split_service; split_cases; close_no_hash.
  - unfold TicketController.searchTickets. open_controller. try split_service; split_cases; close_no_hash.
  - unfold TicketController.getTicketById. open_controller. try split_service; split_cases; close_no_hash.
  - unfold TicketController.updateTicket. open_controller. try split_service; split_cases; close_no_hash.
  - unfold TicketController.deleteTicket. open_controller. try split_service; split_cases; close_no_hash.
  - unfold TicketController.addMessage. open_controller. try split_service; split_cases; close_no_hash.
  - unfold TicketController.getTicketMessages. open_controller. try split_service; split_cases; close_no_hash.
  - unfold UploadController.uploadAttachment. open_controller. try split_service; split_cases; close_no_hash.
  - unfold UploadController.getTicketAttachments. open_controller. try split_service; split_cases; close_no_hash.
  - unfold UploadController.downloadAttachment. open_controller. try split_service; split_cases; close_no_hash.
  - unfold UploadController.deleteAttachment. open_controller. try split_service; split_cases; close_no_hash.
  - unfold UserController.getAllUsers. open_controller. try split_service; split_cases; close_no_hash.
  - unfold UserController.searchUsers. open_controller. try split_service; split_cases; close_no_hash.
  - unfold UserController.createUser. open_controller. try split_service; split_cases; close_no_hash.
  - unfold UserController.updateUser. open_controller. try split_service; split_cases; close_no_hash.
  - unfold UserController.deleteUser. open_controller. try split_service; split_cases; close_no_hash.
  - unfold UserController.resetUserPassword. open_controller. try split_service; split_cases; close_no_hash.
  - unfold UserController.deactivateUser. open_controller. try split_service; split_cases; close_no_hash.
  - unfold UserController.activateUser. open_controller. try split_service; split_cases; close_no_hash.
  - unfold AuthController.getProfile. open_controller. try split_service; split_cases; close_no_hash.
Qed.

(** ** Unauthenticated requests *)

(** X24. A request without a valid token gets, on each of the ticket,
    upload, account and profile routes served by [App.serve], the status
    401 with no success and no data, and changes nothing. *)
Theorem X24_unauthenticated (r : App.Request) (w : World) :
  status (fst (App.serve None r w)) = 401 /\
  success (fst (App.serve None r w)) = false /\
  data (fst (App.serve None r w)) = PNull /\
  snd (App.serve None r w) = w.
Proof. destruct r; repeat split. Qed.

(** ** What a search matches *)

Lemma like_percent (p s : string) :
  Sql.like (String "%" p) s
  = Sql.like p s || match s with
                    | EmptyString => false
                    | String _ s' => Sql.like (String "%" p) s'
                    end.
Proof. destruct s; reflexivity. Qed.

Lemma like_any (p s : string) :
  Sql.like (String "%" p) s = true <-> exists a b, s = a +:+ b /\ Sql.like p b = true.
Proof.
  induction s as [|c s IH]; rewrite like_percent, orb_true_iff.
  - split.
    + intros [H|H]; [|discriminate]. now exists "", "".
    + intros (a & b & Hab & Hb). left. destruct a; [|discriminate].
      rewrite append_nil_l in Hab. now subst.
  - rewrite IH. split.
    + intros [H|(a & b & -> & Hb)].
      * now exists "", (String c s).
      * exists (String c a), b. now rewrite append_cons.
    + intros (a & b & Hab & Hb). destruct a as [|x a].
      * left. rewrite append_nil_l in Hab. now subst.
      * right. rewrite append_cons in Hab. injection Hab as _ ->. now exists a, b.
Qed.

Lemma like_literal (q p s : string) :
  literal q = true ->
  Sql.like (q +:+ p) s = true <->
  exists m b, s = m +:+ b /\ lower m = lower q /\ Sql.like p b = true.
Proof.
  revert s. induction q as [|c q IH]; intros s Hq.
  - rewrite append_nil_l. split.
    + intros H. now exists "", s.
    + intros (m & b & -> & Hm & Hb). destruct m; [|discriminate]. exact Hb.
  - unfold literal in Hq. simpl in Hq. apply andb_true_iff in Hq as [Hc Hq].
    apply andb_true_iff in Hc as [Hpc Hus].
    apply negb_true_iff in Hpc, Hus.
    rewrite append_cons. simpl Sql.like. rewrite Hpc.
    destruct s as [|d s].
    + split; [discriminate|]. intros (m & b & Hmb & Hm & _).
      destruct m; [discriminate Hm | discriminate Hmb].
    + rewrite Hus. cbn [orb]. rewrite andb_true_iff, (IH s Hq). split.
      * intros [Hcd (m & b & -> & Hm & Hb)]. apply Ascii.eqb_eq in Hcd.
        exists (String d m), b. rewrite append_cons. simpl. now rewrite Hm, Hcd.
      * intros (m & b & Hmb & Hm & Hb). destruct m as [|x m]; [discriminate Hm|].
        rewrite append_cons in Hmb. injection Hmb as -> ->.
        simpl in Hm. injection Hm as Hx Hm. split.
        -- apply Ascii.eqb_eq. now symmetry.
        -- now exists m, b.
Qed.

Lemma like_percent_all (s : string) : Sql.like "%" s = true.
Proof.
  induction s as [|c s IH]; [reflexivity|].
  rewrite like_percent, IH. apply orb_true_r.
Qed.

Lemma like_contains (q s : string) :
  literal q = true -> Sql.like ("%" +:+ q +:+ "%") s = true <-> occurs q s.
Proof.
  intros Hq. change ("%" +:+ q +:+ "%") with (String "%" (q +:+ "%")).
  rewrite like_any. unfold occurs. split.
  - intros (a & b & -> & Hb). apply (like_literal q "%" b Hq) in Hb as (m & b' & -> & Hm & _).
    now exists a, m, b'.
  - intros (a & m & b & -> & Hm). exists a, (m +:+ b). split; [reflexivity|].
    apply (like_literal q "%" _ Hq). exists m, b.
    split; [reflexivity|]. split; [exact Hm | apply like_percent_all].
Qed.

(** X25. A ticket matches a search whose query holds neither [%] nor [_]
    exactly when the query occurs, letters compared without case, in its
    title, its description or its number. The wildcards are not escaped:
    the query [%] matches every ticket, so an administrator's search for
    it lists all tickets and a member's all the member's own. *)
Theorem X25_search_matches (query : string) (t : Ticket) :
  (literal query = true ->
   (search_matches query t = true <->
    occurs query (t_title t) \/ occurs query (t_description t)
    \/ occurs query (t_ticket_number t))) /\
  search_matches "%" t = true /\
  (forall d userId,
     TicketService.searchTickets "%" userId d ≡ₚ
     List.filter (fun t => match userId with
                           | Some u => if truthy (JNum u) then t_user_id t =? u else true
                           | None => true
                           end) (tickets d)).
Proof.
  assert (forall s, Sql.like ("%" +:+ "%" +:+ "%") s = true) as Hall.
  { intros s. change ("%" +:+ "%" +:+ "%") with (String "%" "%%").
    apply like_any. exists "", s. split; [reflexivity|].
    apply like_any. exists "", s. split; [reflexivity | apply like_percent_all]. }
  split; [|split].
  - intros Hq. unfold search_matches.
    rewrite !orb_true_iff, !(like_contains query _ Hq). tauto.
  - unfold search_matches. now rewrite Hall.
  - intros d userId. unfold TicketService.searchTickets.
    rewrite order_by_desc_perm.
    rewrite (List.filter_ext _
               (fun t => match userId with
                         | Some u => if truthy (JNum u) then t_user_id t =? u else true
                         | None => true
                         end)); [reflexivity|].
    intros x. now rewrite (Hall (t_title x)).
Qed.

Lemma X25_search_matches_witness :
  search_matches "PRINT" Sample.ticket1 = true.
Proof.
  destruct (X25_search_matches "PRINT" Sample.ticket1) as (Hlit & _).
  apply Hlit; [reflexivity|].
  left. exists "", "Print", "er". split; reflexivity.
Defined.

(** ** Ticket statistics of an account *)

Lemma count_statuses (l : list Ticket) :
  (forall t, In t l -> exists s, t_status t = Some s /\ In s Sql.statuses) ->
  Z.of_nat (length l)
  = UserService.count_status "open" l + UserService.count_status "in_progress" l
    + UserService.count_status "resolved" l + UserService.count_status "closed" l.
Proof.
  unfold UserService.count_status. induction l as [|t l IH]; [reflexivity|].
  intros Hall. specialize (IH (fun x Hx => Hall x (or_intror Hx))).
  destruct (Hall t (or_introl eq_refl)) as (s & Hst & Hs). simpl in Hs.
  cbn [List.filter]. rewrite Hst.
  destruct Hs as [Hs|[Hs|[Hs|[Hs|[]]]]]; rewrite <- Hs; cbn [String.eqb Ascii.eqb Bool.eqb];
    simpl length; lia.
Qed.

(** X26. The ticket statistics of an account count each of its tickets
    under exactly one status: with the status of every ticket of the
    account one of the schema's four, the total is the sum of the four
    counts; and the total is the length of the list the account gets from
    the listing endpoint. *)
Theorem X26_ticket_stats (userId : Z) (d : Db) :
  ((forall t, In t (tickets d) -> t_user_id t = userId ->
              exists s, t_status t = Some s /\ In s Sql.statuses) ->
   let stats := UserService.getUserTicketStats userId d in
   UserService.total_tickets stats
   = UserService.open_tickets stats + UserService.in_progress_tickets stats
     + UserService.resolved_tickets stats + UserService.closed_tickets stats) /\
  UserService.total_tickets (UserService.getUserTicketStats userId d)
  = Z.of_nat (length (TicketService.getTicketsByUser userId d)).
Proof.
  split.
  - intros Ht stats. unfold stats, UserService.getUserTicketStats.
    cbn [UserService.total_tickets UserService.open_tickets
           UserService.in_progress_tickets UserService.resolved_tickets
           UserService.closed_tickets].
    apply count_statuses. intros t Hin. apply filter_In in Hin as [Hin Hu].
    apply (Ht t Hin). now apply Z.eqb_eq.
  - unfold UserService.getUserTicketStats, TicketService.getTicketsByUser.
    cbn [UserService.total_tickets]. f_equal.
    symmetry. apply Permutation_length. apply order_by_desc_perm.
Qed.

Lemma X26_ticket_stats_witness :
  UserService.total_tickets (UserService.getUserTicketStats 2 (db Sample.w1))
  = UserService.open_tickets (UserService.getUserTicketStats 2 (db Sample.w1))
    + UserService.in_progress_tickets (UserService.getUserTicketStats 2 (db Sample.w1))
    + UserService.resolved_tickets (UserService.getUserTicketStats 2 (db Sample.w1))
    + UserService.closed_tickets (UserService.getUserTicketStats 2 (db Sample.w1)).
Proof.
  apply (proj1 (X26_ticket_stats 2 (db Sample.w1))).
  intros t [<-|[]] _. exists "open". split; [reflexivity | now left].
Defined.

(** ** The other listings *)

(** X27. The attachment list of a ticket holds, each exactly once, the
    stored attachments of that ticket, newest upload first; the account
    list holds every account once, newest first, and an account search
    answers newest first as well. The account lists show the flag as a
    boolean. *)
Theorem X27_listings (d : Db) :
  (forall ticketId,
     StronglySorted (fun a b => a_uploaded_at b <= a_uploaded_at a)
       (FileService.getTicketAttachments ticketId d) /\
     FileService.getTicketAttachments ticketId d
     ≡ₚ List.filter (fun a => a_ticket_id a =? ticketId) (attachments d)) /\
  StronglySorted (fun a b => usr_created_at b <= usr_created_at a)
    (UserService.getAllUsers d) /\
  List.map usr_id (UserService.getAllUsers d) ≡ₚ List.map u_id (users d) /\
  (forall query,
     StronglySorted (fun a b => usr_created_at b <= usr_created_at a)
       (UserService.searchUsers query d)) /\
  (forall v, In v (UserService.getAllUsers d) ->
     exists u, In u (users d) /\ usr_id v = u_id u /\
               usr_is_active v = negb (u_is_active u =? 0)).
Proof.
  split; [|split; [|split; [|split]]].
  - intros ticketId. split; [apply order_by_desc_sorted | apply order_by_desc_perm].
  - unfold UserService.getAllUsers.
    apply (StronglySorted_map UserService.to_user
             (fun a b => u_created_at b <= u_created_at a)); [tauto|].
    apply order_by_desc_sorted.
  - unfold UserService.getAllUsers. rewrite List.map_map.
    rewrite (List.map_ext (fun x => usr_id (UserService.to_user x)) u_id)
      by reflexivity.
    now rewrite order_by_desc_perm.
  - intros query. unfold UserService.searchUsers.
    apply (StronglySorted_map UserService.to_user
             (fun a b => u_created_at b <= u_created_at a)); [tauto|].
    apply order_by_desc_sorted.
  - intros v Hin. apply getAllUsers_In in Hin as (u & Hu & ->).
    exists u. split; [exact Hu|]. apply and_comm. apply to_user_flag.
Qed.

(** ** Who may download *)

(** X28. The download test lets a caller through exactly when the
    attachment's row exists and the caller is an administrator or created
    the ticket the row names. So, for a stored attachment whose ticket
    exists, a caller may download it exactly when the caller may list the
    attachments of its ticket. *)
Theorem X28_download_access (u : AuthUser) (attachmentId : Z) (w : World) :
  (FileService.validateFileAccess attachmentId (userId u) (role u) (db w) = true <->
   exists a, FileService.getAttachmentById attachmentId (db w) = Some a /\
             (role u = "admin" \/
              exists t, TicketService.getTicketById (a_ticket_id a) (db w) = Some t /\
                        t_user_id t = userId u)) /\
  (forall a t,
     FileService.getAttachmentById attachmentId (db w) = Some a ->
     TicketService.getTicketById (a_ticket_id a) (db w) = Some t ->
     (FileService.validateFileAccess attachmentId (userId u) (role u) (db w) = true <->
      status (fst (Routes.get_attachments (Some u) (a_ticket_id a) w)) = 200)).
Proof.
  split.
  - unfold FileService.validateFileAccess.
    destruct (FileService.getAttachmentById attachmentId (db w)) as [a|].
    2:{ split; [discriminate | intros (a & Ha & _); discriminate]. }
    fold (is_admin u). unfold TicketService.getTicketById.
    destruct (is_admin u) eqn:Hadmin.
    + split; [|reflexivity]. intros _. exists a. split; [reflexivity|]. left.
      now apply is_admin_iff.
    + split.
      * destruct (List.find (fun t => t_id t =? a_ticket_id a) (tickets (db w)))
          as [t|] eqn:Hf; [|discriminate].
        intros Hown. apply Z.eqb_eq in Hown. exists a. split; [reflexivity|].
        right. exists t. split; [exact Hf | exact Hown].
      * intros (a' & [= <-] & [Hrole|(t & -> & Hown)]).
        -- apply is_admin_iff in Hrole. congruence.
        -- now apply Z.eqb_eq.
  - intros a t Ha Ht.
    unfold FileService.validateFileAccess. rewrite Ha. fold (is_admin u).
    unfold Routes.get_attachments, Routes.guarded, Routes.authenticate,
      UploadController.getTicketAttachments, handle, bind, get, ret.
    rewrite Ht. unfold TicketService.getTicketById in Ht. rewrite Ht.
    destruct (is_admin u); [split; reflexivity|]. cbn [negb andb].
    destruct (t_user_id t =? userId u); cbn [negb fst status json]; split;
      try reflexivity; discriminate.
Qed.

Lemma X28_download_access_witness :
  FileService.validateFileAccess 1 (userId Sample.bob) (role Sample.bob) (db SampleFiles.w3)
  = false.
Proof.
  destruct (X28_download_access Sample.bob 1 SampleFiles.w3) as [_ Hsame].
  destruct (Hsame SampleFiles.report Sample.ticket1 eq_refl eq_refl) as [Hto _].
  destruct (FileService.validateFileAccess 1 (userId Sample.bob) (role Sample.bob)
              (db SampleFiles.w3)); [|reflexivity].
  specialize (Hto eq_refl). discriminate Hto.
Defined.

(** ** A stored name that is taken *)



(** ** The detail view *)

Lemma find_user_ref (id : Z) (d : Db) :
  In id (List.map u_id (users d)) ->
  exists u, In u (users d) /\ u_id u = id /\
            TicketService.select_user_ref id d
            = Some (mkUserRef (u_id u) (u_name u) (u_email u)).
Proof.
  intros Hin. unfold TicketService.select_user_ref.
  destruct (List.find (fun u => u_id u =? id) (users d)) as [u|] eqn:Hfind.
  - apply (find_some_key u_id) in Hfind as [Hid Hu]. now exists u.
  - apply (find_none_iff u_id) in Hfind. contradiction.
Qed.

(** X30. The detail view of a ticket holds the ticket as stored and its
    whole thread, as the thread query returns it. With valid keys and
    references it names the creator, by key, name and address of the
    creator's account, and the assignee likewise when the ticket has one. *)
Theorem X30_detail_view (id : Z) (d : Db) (details : TicketDetails) :
  TicketService.getTicketWithDetails id d = Some details ->
  TicketService.getTicketById id d = Some (td_ticket details) /\
  td_messages details = TicketService.getTicketMessages id d /\
  (keys_ok d -> refs_ok d ->
   (exists u, In u (users d) /\ u_id u = t_user_id (td_ticket details) /\
              td_user details = Some (mkUserRef (u_id u) (u_name u) (u_email u))) /\
   (forall a, t_assigned_to (td_ticket details) = Some a ->
      exists u, In u (users d) /\ u_id u = a /\
                td_assigned_admin details
                = Some (mkUserRef (u_id u) (u_name u) (u_email u))) /\
   (t_assigned_to (td_ticket details) = None -> td_assigned_admin details = None)).
Proof.
  unfold TicketService.getTicketWithDetails.
  destruct (TicketService.getTicketById id d) as [ticket|] eqn:Hget; [|discriminate].
  intros H. injection H as <-. cbn [td_ticket td_messages td_user td_assigned_admin].
  split; [reflexivity|]. split; [reflexivity|].
  intros ((Hu & Hbound) & _) (Ht & _).
  apply (find_some_key t_id) in Hget as [_ Hin].
  destruct (Ht ticket Hin) as [Hcreator Hassignee].
  split; [now apply find_user_ref|]. split.
  - intros a Ha. rewrite Ha. cbv beta iota.
    pose proof (Hassignee a Ha) as Hina.
    assert (negb (a =? 0) = true) as ->.
    { apply negb_true_iff, Z.eqb_neq. pose proof (Hbound a Hina). lia. }
    now apply find_user_ref.
  - intros Hnone. now rewrite Hnone.
Qed.

Lemma X30_detail_view_witness :
  exists details,
    TicketService.getTicketWithDetails 1 (db SampleThread.w2) = Some details /\
    List.map tm_id (td_messages details) = [1].
Proof.
  destruct (TicketService.getTicketWithDetails 1 (db SampleThread.w2)) as [details|] eqn:Hd;
    [|vm_compute in Hd; discriminate Hd].
  destruct (X30_detail_view 1 (db SampleThread.w2) details Hd) as (_ & Hm & _).
  exists details. split; [reflexivity|]. rewrite Hm. reflexivity.
Defined.

(** ** Ticket numbers over a session *)



















